(** * LSDyna_Convert: the Abaqus .inp reader and the LS-DYNA .k writer

    A shallow embedding of [src/main_Convert.py] (with [src/config.py]) and
    of the reader of [src/Untitled-1.py], and the properties of the
    PARSE -> MODEL -> EMIT pipeline proved over it.

    Conventions of the embedding.
    - A Python [str] is a [string]; the text is 7-bit ASCII (code points
      above 127 are carried through unchanged: they are neither white space
      nor cased letters here).
    - A Python [int] is a [Z]; a [dict] keyed by integers and only ever
      iterated through [sorted(d.keys())] is a [gmap Z _]; a [dict] whose
      insertion order is observed by [.items()] is an association list with
      the dictionary discipline ([odict]).
    - Exceptions are the [Raise] results of the [result] monad; nothing in
      the program catches them, so a raised exception ends the run.
    - The file written by [write_k] is the concatenation of the strings
      handed to [f.write]; [with open(...)] flushes what was written also
      when the body raises, so the writer returns the text together with
      its outcome.
    - [float(...)] and the [{:g}] format are parameters of the development
      ([py_float], [fmt_g]): nothing proved here depends on binary
      rounding. *)

From Stdlib Require Import ZArith Ascii String List Lia DecimalString.
From Stdlib Require DecimalPos.
From stdpp Require Import base option list gmap strings sorting.

Local Open Scope Z_scope.

(** ** Python exceptions and the result monad *)

Inductive exn : Type := ValueError | KeyError | IndexError.

Inductive result (A : Type) : Type :=
  | Ok (a : A)
  | Raise (e : exn).
Arguments Ok {A} a.
Arguments Raise {A} e.

Global Instance result_ret : MRet result := λ A a, Ok a.
Global Instance result_bind : MBind result := λ A B k m,
  match m with
  | Ok a => k a
  | Raise e => Raise e
  end.

Definition of_option {A} (e : exn) (o : option A) : result A :=
  match o with
  | Some a => Ok a
  | None => Raise e
  end.

(** ** The string primitives the scripts use *)

Module Py.

Definition nl : string := String "010"%char EmptyString.

(** [str.isspace] on ASCII: TAB..CR, FS..US and the blank. *)
Definition is_space (c : ascii) : bool :=
  let n := nat_of_ascii c in
  ((9 <=? n)%nat && (n <=? 13)%nat) || ((28 <=? n)%nat && (n <=? 32)%nat).

Definition is_digit (c : ascii) : bool :=
  let n := nat_of_ascii c in (48 <=? n)%nat && (n <=? 57)%nat.

Definition lower_char (c : ascii) : ascii :=
  let n := nat_of_ascii c in
  if (65 <=? n)%nat && (n <=? 90)%nat then ascii_of_nat (n + 32) else c.

Definition upper_char (c : ascii) : ascii :=
  let n := nat_of_ascii c in
  if (97 <=? n)%nat && (n <=? 122)%nat then ascii_of_nat (n - 32) else c.

Fixpoint smap (f : ascii → ascii) (s : string) : string :=
  match s with
  | EmptyString => EmptyString
  | String c s' => String (f c) (smap f s')
  end.

(** [s.lower()], [s.upper()] *)
Definition lower : string → string := smap lower_char.
Definition upper : string → string := smap upper_char.

(** [s.replace(a, b)] for one-character [a] and [b] *)
Definition replace_char (a b : ascii) : string → string :=
  smap (λ c, if Ascii.eqb c a then b else c).

(** [s.lstrip()], [s.rstrip()], [s.strip()] *)
Fixpoint lstrip (s : string) : string :=
  match s with
  | EmptyString => EmptyString
  | String c s' => if is_space c then lstrip s' else s
  end.

Fixpoint rstrip (s : string) : string :=
  match s with
  | EmptyString => EmptyString
  | String c s' =>
      match rstrip s' with
      | EmptyString => if is_space c then EmptyString else String c EmptyString
      | r => String c r
      end
  end.

Definition strip (s : string) : string := rstrip (lstrip s).

(** [s.startswith(p)] *)
Definition startswith (p s : string) : bool := String.prefix p s.

(** [s.index(sub)]: the position of the first occurrence; [sub in s] is
    [is_Some (find sub s)]. *)
Fixpoint find (sub s : string) : option nat :=
  if String.prefix sub s then Some 0%nat
  else match s with
       | EmptyString => None
       | String _ s' => S <$> find sub s'
       end.

Definition contains (sub s : string) : bool := bool_decide (is_Some (find sub s)).

(** [s[n:]] *)
Fixpoint drop_str (n : nat) (s : string) : string :=
  match n, s with
  | O, _ => s
  | S n', String _ s' => drop_str n' s'
  | S _, EmptyString => EmptyString
  end.

(** [s.split(sep)] for a one-character separator: never empty. *)
Fixpoint split (sep : ascii) (s : string) : list string :=
  match s with
  | EmptyString => [EmptyString]
  | String c s' =>
      if Ascii.eqb c sep then EmptyString :: split sep s'
      else match split sep s' with
           | [] => [String c EmptyString]
           | h :: t => String c h :: t
           end
  end.

(** [s.split()]: the maximal runs of characters that are not white space. *)
Fixpoint split_ws (s : string) : list string :=
  match s with
  | EmptyString => []
  | String c s' =>
      if is_space c then split_ws s'
      else match s' with
           | EmptyString => [String c EmptyString]
           | String c' _ =>
               if is_space c' then String c EmptyString :: split_ws s'
               else match split_ws s' with
                    | [] => [String c EmptyString]
                    | h :: t => String c h :: t
                    end
           end
  end.

(** [sep.join(l)] *)
Fixpoint join (sep : string) (l : list string) : string :=
  match l with
  | [] => EmptyString
  | [x] => x
  | x :: l' => x +:+ sep +:+ join sep l'
  end.

Definition digit_val (c : ascii) : Z := Z.of_nat (nat_of_ascii c) - 48.

(** The digits of an integer literal: one or more decimal digits, single
    underscores allowed between two digits. *)
Fixpoint int_digits (acc : Z) (after_digit : bool) (s : string) : option Z :=
  match s with
  | EmptyString => if after_digit then Some acc else None
  | String c s' =>
      if is_digit c then int_digits (10 * acc + digit_val c) true s'
      else if Ascii.eqb c "_" then
        if after_digit then int_digits acc false s' else None
      else None
  end.

(** The white space that [int] and [float] skip around an ASCII literal:
    TAB..CR and the blank. The separators FS..US, which [str.strip] removes,
    are not skipped: [int] raises [ValueError] on them. *)
Definition is_cspace (c : ascii) : bool :=
  let n := nat_of_ascii c in
  ((9 <=? n)%nat && (n <=? 13)%nat) || (n =? 32)%nat.

Fixpoint lskip (s : string) : string :=
  match s with
  | EmptyString => EmptyString
  | String c s' => if is_cspace c then lskip s' else s
  end.

Fixpoint rskip (s : string) : string :=
  match s with
  | EmptyString => EmptyString
  | String c s' =>
      match rskip s' with
      | EmptyString => if is_cspace c then EmptyString else String c EmptyString
      | r => String c r
      end
  end.

Definition skip_space (s : string) : string := rskip (lskip s).

(** [int(s)]: the surrounding white space skipped, an optional sign, the
    digits. [None] is the [ValueError] of the built-in. (The limit on the
    number of digits of recent interpreters, 4300 by default, is not
    modelled.) *)
Definition int (s : string) : option Z :=
  match skip_space s with
  | String "-" d => Z.opp <$> int_digits 0 false d
  | String "+" d => int_digits 0 false d
  | d => int_digits 0 false d
  end.

(** [str(n)] and the [{:d}] format of an integer *)
Definition str (n : Z) : string := NilZero.string_of_int (Z.to_int n).

(** [l[i]] with Python's negative indices; [None] is [IndexError]. *)
Definition index {A} (l : list A) (i : Z) : option A :=
  let n := Z.of_nat (length l) in
  if bool_decide (0 ≤ i < n) then l !! Z.to_nat i
  else if bool_decide (- n ≤ i < 0) then l !! Z.to_nat (n + i)
  else None.

(** [l[a:b]] for [0 <= a <= b] *)
Definition slice {A} (a b : nat) (l : list A) : list A := take (b - a) (drop a l).

(** [range(0, n, step)] for a positive [step] *)
Definition range_step (n step : nat) : list nat :=
  (λ k, k * step)%nat <$> seq 0 ((n + step - 1) / step)%nat.

(** [sorted(set(l))] on integers *)
Definition sorted_set (l : list Z) : list Z := merge_sort Z.le (remove_dups l).

(** [sorted(d.keys())] on a dictionary keyed by integers *)
Definition sorted_keys {V} (d : gmap Z V) : list Z :=
  merge_sort Z.le (fst <$> map_to_list d).

End Py.

(** ** Insertion-ordered dictionaries keyed by strings

    [nsets], [elsets] and [surfaces] are iterated with [.items()], which
    yields the keys in the order of their first insertion. *)

Definition odict (V : Type) : Type := list (string * V).

(** [d[k]]; [None] is [KeyError] *)
Fixpoint od_get {V} (k : string) (d : odict V) : option V :=
  match d with
  | [] => None
  | (k', v) :: d' => if String.eqb k' k then Some v else od_get k d'
  end.

(** [d[k] = v]: an existing key keeps its place *)
Fixpoint od_set {V} (k : string) (v : V) (d : odict V) : odict V :=
  match d with
  | [] => [(k, v)]
  | (k', v') :: d' =>
      if String.eqb k' k then (k', v) :: d' else (k', v') :: od_set k v d'
  end.

(** [d.setdefault(k, v)], for its effect on [d] *)
Definition od_setdefault {V} (k : string) (v : V) (d : odict V) : odict V :=
  match od_get k d with
  | Some _ => d
  | None => od_set k v d
  end.

(** Truth value of a string, and of a name that may be [None] *)
Definition nonempty (s : string) : bool :=
  match s with EmptyString => false | String _ _ => true end.

Definition truthy (name : option string) : bool :=
  match name with Some s => nonempty s | None => false end.

(** ** The reader: [parse_inp] of [main_Convert.py] *)

(** The locals of [parse_inp]: the five collections under construction, the
    two section flags and the three "current named collection" pointers. *)
Record pstate {float : Type} : Type := PState {
  nodes : gmap Z (float * float * float);
  elements : gmap Z (list Z);
  nsets : odict (list Z);
  elsets : odict (list Z);
  surfaces : odict (list (Z * string));
  reading_nodes : bool;
  reading_elements : bool;
  current_elset_name : option string;
  current_nset_name : option string;
  current_surf_name : option string }.
Arguments pstate : clear implicits.
Arguments PState {float}.

Section Reader.
Context {float : Type} (py_float : string → option float).

Abbreviation state := (pstate float).

Definition set_nodes (v : gmap Z (float * float * float)) (st : state) : state :=
  PState v (elements st) (nsets st) (elsets st) (surfaces st)
    (reading_nodes st) (reading_elements st)
    (current_elset_name st) (current_nset_name st) (current_surf_name st).
Definition set_elements (v : gmap Z (list Z)) (st : state) : state :=
  PState (nodes st) v (nsets st) (elsets st) (surfaces st)
    (reading_nodes st) (reading_elements st)
    (current_elset_name st) (current_nset_name st) (current_surf_name st).
Definition set_nsets (v : odict (list Z)) (st : state) : state :=
  PState (nodes st) (elements st) v (elsets st) (surfaces st)
    (reading_nodes st) (reading_elements st)
    (current_elset_name st) (current_nset_name st) (current_surf_name st).
Definition set_elsets (v : odict (list Z)) (st : state) : state :=
  PState (nodes st) (elements st) (nsets st) v (surfaces st)
    (reading_nodes st) (reading_elements st)
    (current_elset_name st) (current_nset_name st) (current_surf_name st).
Definition set_surfaces (v : odict (list (Z * string))) (st : state) : state :=
  PState (nodes st) (elements st) (nsets st) (elsets st) v
    (reading_nodes st) (reading_elements st)
    (current_elset_name st) (current_nset_name st) (current_surf_name st).
Definition set_reading (rn re : bool) (st : state) : state :=
  PState (nodes st) (elements st) (nsets st) (elsets st) (surfaces st)
    rn re
    (current_elset_name st) (current_nset_name st) (current_surf_name st).
Definition set_current (ce cn cs : option string) (st : state) : state :=
  PState (nodes st) (elements st) (nsets st) (elsets st) (surfaces st)
    (reading_nodes st) (reading_elements st) ce cn cs.

Definition init_state : state :=
  PState ∅ ∅ [] [] [] false false None None None.

(** The name attribute of a directive:
    [name = None; if key in lower_line: start = lower_line.index(key) +
    len(key); rest = lower_line[start:].split(',')[0];
    name = rest.strip().upper()] *)
Definition attr_name (key lower_line : string) : option string :=
  if Py.contains key lower_line then
    start ← (λ i, i + String.length key)%nat <$> Py.find key lower_line;
    rest ← Py.split "," (Py.drop_str start lower_line) !! 0%nat;
    Some (Py.upper (Py.strip rest))
  else None.

(** A keyword line (lines 49-128): both section flags are dropped, then the
    first matching branch of the [if]/[elif] chain runs. The element type
    read in the [*element] branch is stored nowhere. *)
Definition keyword (st : state) (line_stripped : string) : state :=
  let st := set_reading false false st in
  let lower_line := Py.lower line_stripped in
  if Py.startswith "*node" lower_line then
    set_reading true (reading_elements st) st
  else if Py.startswith "*element" lower_line then
    set_reading (reading_nodes st) true st
  else if Py.startswith "*nset" lower_line then
    let name := attr_name "nset=" lower_line in
    if truthy name then
      set_current None name None
        (set_nsets (od_setdefault (default "" name) [] (nsets st)) st)
    else
      set_current (current_elset_name st) None (current_surf_name st) st
  else if Py.startswith "*elset" lower_line then
    let name := attr_name "elset=" lower_line in
    if truthy name then
      set_current name None None
        (set_elsets (od_setdefault (default "" name) [] (elsets st)) st)
    else
      set_current None (current_nset_name st) (current_surf_name st) st
  else if Py.startswith "*surface" lower_line then
    let name := attr_name "name=" lower_line in
    if truthy name then
      set_current None None name
        (set_surfaces (od_setdefault (default "" name) [] (surfaces st)) st)
    else st
  else st.

(** A node data line (lines 131-140) *)
Definition node_line (st : state) (line_stripped : string) : result state :=
  let parts := Py.split "," line_stripped in
  if bool_decide (4 ≤ length parts)%nat then
    nid ← of_option IndexError (Py.index parts 0) ≫= λ p, of_option ValueError (Py.int p);
    x ← of_option IndexError (Py.index parts 1) ≫= λ p, of_option ValueError (py_float p);
    y ← of_option IndexError (Py.index parts 2) ≫= λ p, of_option ValueError (py_float p);
    z ← of_option IndexError (Py.index parts 3) ≫= λ p, of_option ValueError (py_float p);
    Ok (set_nodes (<[nid := (x, y, z)]> (nodes st)) st)
  else Ok st.

(** An element data line (lines 143-150) *)
Definition element_line (st : state) (line_stripped : string) : result state :=
  let parts := Py.split "," line_stripped in
  if bool_decide (9 ≤ length parts)%nat then
    eid ← of_option IndexError (Py.index parts 0) ≫= λ p, of_option ValueError (Py.int p);
    conn ← of_option ValueError (mapM Py.int (Py.slice 1 9 parts));
    Ok (set_elements (<[eid := conn]> (elements st)) st)
  else Ok st.

(** The guard shared by the three named-collection blocks *)
Definition is_data (line_stripped : string) : bool :=
  nonempty line_stripped && negb (Py.startswith "*" line_stripped).

(** Members of the current node set (lines 153-165) *)
Definition nset_line (st : state) (line_stripped : string) : result state :=
  match current_nset_name st with
  | Some name =>
      if is_data line_stripped then
        ids ← of_option ValueError
          (mapM Py.int
             (filter (λ x, nonempty x = true)
                (Py.split_ws (Py.replace_char "," " " line_stripped))));
        old ← of_option KeyError (od_get name (nsets st));
        Ok (set_nsets (od_set name (old ++ ids) (nsets st)) st)
      else Ok st
  | None => Ok st
  end.

(** Members of the current element set (lines 168-170) *)
Definition elset_line (st : state) (line_stripped : string) : result state :=
  match current_elset_name st with
  | Some name =>
      if is_data line_stripped then
        ids ← of_option ValueError
          (mapM Py.int (Py.split_ws (Py.replace_char "," " " line_stripped)));
        old ← of_option KeyError (od_get name (elsets st));
        Ok (set_elsets (od_set name (old ++ ids) (elsets st)) st)
      else Ok st
  | None => Ok st
  end.

(** A facet of the current surface (lines 173-175): the unpacking of the
    split comes first, then the look-up of the surface, then [int(id)]. *)
Definition surf_line (st : state) (line_stripped : string) : result state :=
  match current_surf_name st with
  | Some name =>
      if is_data line_stripped then
        match Py.split "," line_stripped with
        | [id; surf] =>
            old ← of_option KeyError (od_get name (surfaces st));
            i ← of_option ValueError (Py.int id);
            Ok (set_surfaces (od_set name (old ++ [(i, surf)]) (surfaces st)) st)
        | _ => Raise ValueError
        end
      else Ok st
  | None => Ok st
  end.

(** The section block: [if reading_nodes: ... elif reading_elements: ...] *)
Definition section_line (st : state) (line_stripped : string) : result state :=
  if reading_nodes st then node_line st line_stripped
  else if reading_elements st then element_line st line_stripped
  else Ok st.

(** The body of [for line in f] *)
Definition process_line (st : state) (line : string) : result state :=
  let line_stripped := Py.strip line in
  if negb (nonempty line_stripped) || Py.startswith "**" line_stripped then Ok st
  else if Py.startswith "*" line_stripped then Ok (keyword st line_stripped)
  else
    st ← section_line st line_stripped;
    st ← nset_line st line_stripped;
    st ← elset_line st line_stripped;
    surf_line st line_stripped.

Fixpoint parse_lines (st : state) (lines : list string) : result state :=
  match lines with
  | [] => Ok st
  | line :: rest => st' ← process_line st line; parse_lines st' rest
  end.

(** [parse_inp], on the lines the file iterator yields *)
Definition parse_inp (lines : list string) : result state :=
  parse_lines init_state lines.

End Reader.

(** ** The reader of [Untitled-1.py]

    The same loop with three differences: [*node] and [*element] reset the
    two set pointers, a set directive leaves the other pointer alone, and an
    element line is taken with any number of node references. There is no
    surface pointer: [current_surf_name] stays [None]. *)

Module Untitled1.
Section Reader.
Context {float : Type} (py_float : string → option float).

Definition keyword (st : pstate float) (line_stripped : string) : pstate float :=
  let st := set_reading false false st in
  let lower_line := Py.lower line_stripped in
  if Py.startswith "*node" lower_line then
    set_current None None (current_surf_name st)
      (set_reading true (reading_elements st) st)
  else if Py.startswith "*element" lower_line then
    set_current None None (current_surf_name st)
      (set_reading (reading_nodes st) true st)
  else if Py.startswith "*nset" lower_line then
    let name := attr_name "nset=" lower_line in
    if truthy name then
      set_current (current_elset_name st) name (current_surf_name st)
        (set_nsets (od_setdefault (default "" name) [] (nsets st)) st)
    else
      set_current (current_elset_name st) None (current_surf_name st) st
  else if Py.startswith "*elset" lower_line then
    let name := attr_name "elset=" lower_line in
    if truthy name then
      set_current name (current_nset_name st) (current_surf_name st)
        (set_elsets (od_setdefault (default "" name) [] (elsets st)) st)
    else
      set_current None (current_nset_name st) (current_surf_name st) st
  else if Py.startswith "*surface" lower_line then
    let name := attr_name "name=" lower_line in
    if truthy name then
      set_surfaces (od_setdefault (default "" name) [] (surfaces st)) st
    else st
  else st.

(** An element data line (lines 122-129): [len(parts) > 1], [parts[1:]] *)
Definition element_line (st : pstate float) (line_stripped : string)
    : result (pstate float) :=
  let parts := Py.split "," line_stripped in
  if bool_decide (1 < length parts)%nat then
    eid ← of_option IndexError (Py.index parts 0) ≫= λ p, of_option ValueError (Py.int p);
    conn ← of_option ValueError (mapM Py.int (drop 1 parts));
    Ok (set_elements (<[eid := conn]> (elements st)) st)
  else Ok st.

Definition section_line (st : pstate float) (line_stripped : string)
    : result (pstate float) :=
  if reading_nodes st then node_line py_float st line_stripped
  else if reading_elements st then element_line st line_stripped
  else Ok st.

Definition nset_line (st : pstate float) (line_stripped : string)
    : result (pstate float) :=
  match current_nset_name st with
  | Some name =>
      if negb (Py.startswith "*" line_stripped) then
        ids ← of_option ValueError
          (mapM Py.int (Py.split_ws (Py.replace_char "," " " line_stripped)));
        old ← of_option KeyError (od_get name (nsets st));
        Ok (set_nsets (od_set name (old ++ ids) (nsets st)) st)
      else Ok st
  | None => Ok st
  end.

Definition elset_line (st : pstate float) (line_stripped : string)
    : result (pstate float) :=
  match current_elset_name st with
  | Some name =>
      if negb (Py.startswith "*" line_stripped) then
        ids ← of_option ValueError
          (mapM Py.int (Py.split_ws (Py.replace_char "," " " line_stripped)));
        old ← of_option KeyError (od_get name (elsets st));
        Ok (set_elsets (od_set name (old ++ ids) (elsets st)) st)
      else Ok st
  | None => Ok st
  end.

Definition process_line (st : pstate float) (line : string)
    : result (pstate float) :=
  let line_stripped := Py.strip line in
  if negb (nonempty line_stripped) || Py.startswith "**" line_stripped then Ok st
  else if Py.startswith "*" line_stripped then Ok (keyword st line_stripped)
  else
    st ← section_line st line_stripped;
    st ← nset_line st line_stripped;
    elset_line st line_stripped.

Fixpoint parse_lines (st : pstate float) (lines : list string)
    : result (pstate float) :=
  match lines with
  | [] => Ok st
  | line :: rest => st' ← process_line st line; parse_lines st' rest
  end.

Definition parse_inp (lines : list string) : result (pstate float) :=
  parse_lines init_state lines.

End Reader.
End Untitled1.

(** ** The static tables of [config.py] *)

Module config.

Definition abq_surf_def : gmap string (list Z) :=
  list_to_map
    [("S1", [1; 2; 3; 4]); ("S2", [5; 8; 7; 6]); ("S3", [1; 5; 6; 2]);
     ("S4", [2; 6; 7; 3]); ("S5", [3; 7; 8; 4]); ("S6", [4; 8; 5; 1])].

Definition nodeset_ssid : gmap string Z :=
  list_to_map [("K1A", 999); ("K2A", 888); ("K1B", 777); ("K2B", 666)].

Definition segmentset_ssid : gmap string Z :=
  list_to_map
    [("FACEK1A", 555); ("FACEK2A", 444); ("FACEK1B", 333); ("FACEK2B", 222);
     ("OUTERS", 111); ("ELSURF", 1111)].

Definition elementset_ssid : gmap string Z :=
  list_to_map [("FLUID1", 2222); ("FLUID2", 3333)].

End config.

(** ** The writer: [write_k] of [main_Convert.py] *)

(** What has been written to the file so far, and how the code ended. *)
Definition writer (A : Type) : Type := (string * result A)%type.

Global Instance writer_ret : MRet writer := λ A a, (EmptyString, Ok a).
Global Instance writer_bind : MBind writer := λ A B k m,
  match m.2 with
  | Ok a => (m.1 +:+ (k a).1, (k a).2)
  | Raise e => (m.1, Raise e)
  end.

(** [f.write(s)] *)
Definition write (s : string) : writer unit := (s, Ok ()).

(** An expression that may raise, inside the [with] block *)
Definition lift {A} (r : result A) : writer A := (EmptyString, r).

(** [for x in l: body] *)
Fixpoint for_ {X} (l : list X) (body : X → writer unit) : writer unit :=
  match l with
  | [] => mret ()
  | x :: l' => body x ≫= λ _, for_ l' body
  end.

(** Lines of text, each closed by a newline *)
Definition unlines (l : list string) : string :=
  foldr (λ s acc, s +:+ Py.nl +:+ acc) EmptyString l.

(** The nested helper of [write_k] (lines 241-245), the face-geometry
    resolver. *)
Definition get_surface_nodes (elements : gmap Z (list Z)) (elmid : Z)
    (faceid : string) : result (list Z) :=
  curelm ← of_option KeyError (elements !! elmid);
  curnodes ← of_option KeyError (config.abq_surf_def !! faceid);
  let curnodes := (λ i, i - 1) <$> curnodes in
  mapM (λ i, of_option IndexError (Py.index curelm i)) curnodes.

(** The chunk loop shared by the node-set and element-set blocks:
    [for i in range(0, len(s), chunk_size): chunk = s[i:i+chunk_size];
     f.write(", ".join(str(n) for n in chunk) + "\n")] *)
Definition chunk_size : nat := 8.

Definition write_chunks (sorted_ids : list Z) : writer unit :=
  for_ (Py.range_step (length sorted_ids) chunk_size) (λ i,
    let chunk := Py.slice i (i + chunk_size) sorted_ids in
    write (Py.join ", " (Py.str <$> chunk) +:+ Py.nl)).

(** The element block (lines 210-223) *)
Definition pid : Z := 1.

Definition write_elements (elements : gmap Z (list Z)) : writer unit :=
  write ("*DUALCESE_ELE3D" +:+ Py.nl) ≫= λ _,
  for_ (Py.sorted_keys elements) (λ eid,
    conn ← lift (of_option KeyError (elements !! eid));
    if bool_decide (length conn = 8%nat) then
      write (Py.str eid +:+ ", " +:+ Py.str pid) ≫= λ _,
      for_ conn (λ nn, write (", " +:+ Py.str nn)) ≫= λ _,
      write Py.nl
    else mret ()).

(** The node-set blocks (lines 226-238) *)
Definition write_nset (entry : string * list Z) : writer unit :=
  let '(set_name, node_list) := entry in
  write ("$ Node set: " +:+ set_name +:+ Py.nl) ≫= λ _,
  write ("*DUALCESE_NODESET" +:+ Py.nl) ≫= λ _,
  curid ← lift (of_option KeyError (config.nodeset_ssid !! set_name));
  write ("       " +:+ Py.str curid +:+ Py.nl) ≫= λ _,
  write_chunks (Py.sorted_set node_list).

(** The surface-set blocks (lines 249-260) *)
Definition write_facet (elements : gmap Z (list Z)) (surf : Z * string)
    : writer unit :=
  let elmid := surf.1 in
  let faceid := surf.2 in
  curnodes ← lift (get_surface_nodes elements elmid faceid);
  n0 ← lift (of_option IndexError (Py.index curnodes 0));
  n1 ← lift (of_option IndexError (Py.index curnodes 1));
  n2 ← lift (of_option IndexError (Py.index curnodes 2));
  n3 ← lift (of_option IndexError (Py.index curnodes 3));
  write (Py.str n0 +:+ ", " +:+ Py.str n1 +:+ ", " +:+ Py.str n2 +:+ ", "
         +:+ Py.str n3 +:+ ",0.0,0.0,0.0,0.0" +:+ Py.nl).

Definition write_surface (elements : gmap Z (list Z))
    (entry : string * list (Z * string)) : writer unit :=
  let '(set_name, surf_list) := entry in
  write ("$ Surface set: " +:+ set_name +:+ Py.nl) ≫= λ _,
  write ("*DUALCESE_SEGMENTSET" +:+ Py.nl) ≫= λ _,
  curid ← lift (of_option KeyError (config.segmentset_ssid !! set_name));
  write ("       " +:+ Py.str curid +:+ Py.nl) ≫= λ _,
  for_ surf_list (write_facet elements).

(** The element-set blocks (lines 264-276) *)
Definition write_elset (entry : string * list Z) : writer unit :=
  let '(set_name, elem_list) := entry in
  write ("$ Element set: " +:+ set_name +:+ Py.nl) ≫= λ _,
  write ("*DUALCESE_ELEMENTSET" +:+ Py.nl) ≫= λ _,
  curid ← lift (of_option KeyError (config.elementset_ssid !! set_name));
  write ("      " +:+ Py.str curid +:+ Py.nl) ≫= λ _,
  write_chunks (Py.sorted_set elem_list).

Section Writer.
Context {float : Type} (fmt_g : float → string).

(** The node block (lines 199-205); the two trailing fields are the integer
    0 under [{:g}]. *)
Definition write_nodes (nodes : gmap Z (float * float * float)) : writer unit :=
  write ("*DUALCESE_NODE3D" +:+ Py.nl) ≫= λ _,
  for_ (Py.sorted_keys nodes) (λ nid,
    xyz ← lift (of_option KeyError (nodes !! nid));
    let '(x, y, z) := xyz in
    write (Py.str nid +:+ ", " +:+ fmt_g x +:+ ", " +:+ fmt_g y +:+ ", "
           +:+ fmt_g z +:+ ", " +:+ "0" +:+ ", " +:+ "0" +:+ Py.nl)).

Definition write_k (nodes : gmap Z (float * float * float))
    (elements : gmap Z (list Z)) (nsets elsets : odict (list Z))
    (surfaces : odict (list (Z * string))) : writer unit :=
  write_nodes nodes ≫= λ _,
  write_elements elements ≫= λ _,
  for_ nsets write_nset ≫= λ _,
  for_ surfaces (write_surface elements) ≫= λ _,
  for_ elsets write_elset ≫= λ _,
  write ("*END" +:+ Py.nl).

(** [main]: the file is opened for writing only once the parse has
    returned; [None] is "no output file touched". *)
Definition main (py_float : string → option float) (lines : list string)
    : option string * result unit :=
  match parse_inp py_float lines with
  | Raise e => (None, Raise e)
  | Ok st =>
      let out := write_k (nodes st) (elements st) (nsets st) (elsets st)
                   (surfaces st) in
      (Some out.1, out.2)
  end.

End Writer.

(** ** A float instance to run the model on concrete files

    A decimal literal without exponent, kept exactly: sign, the digits with
    the point removed, and the number of digits after the point. The
    built-in [float] accepts more spellings (exponents, [inf], [nan],
    underscores), on which [of_string] is [None]; the examples below stay
    within the literals covered here. *)

Module Dec.

Record t : Type := Make { neg : bool; digits : N; scale : nat }.

Fixpoint all_digits (s : string) : bool :=
  match s with
  | EmptyString => true
  | String c s' => Py.is_digit c && all_digits s'
  end.

Fixpoint digits_val (acc : N) (s : string) : N :=
  match s with
  | EmptyString => acc
  | String c s' => digits_val (10 * acc + Z.to_N (Py.digit_val c))%N s'
  end.

Definition of_string (s : string) : option t :=
  let body := Py.skip_space s in
  let '(sign, body) :=
    match body with
    | String "-" r => (true, r)
    | String "+" r => (false, r)
    | _ => (false, body)
    end in
  match Py.split "." body with
  | [a] =>
      if nonempty a && all_digits a then Some (Make sign (digits_val 0 a) 0)
      else None
  | [a; b] =>
      if nonempty (a +:+ b) && all_digits a && all_digits b
      then Some (Make sign (digits_val 0 (a +:+ b)) (String.length b))
      else None
  | _ => None
  end.

(** Positional notation with the trailing zeros of the fraction removed:
    what [{:g}] prints for a value of at most six significant digits whose
    magnitude is zero or in [1e-4, 1e6). *)
Fixpoint trim (fuel : nat) (d : N) (k : nat) : N * nat :=
  match fuel, k with
  | S fuel', S k' => if (d mod 10 =? 0)%N then trim fuel' (d / 10)%N k' else (d, k)
  | _, _ => (d, k)
  end.

Fixpoint pad (k : nat) (s : string) : string :=
  match k with
  | O => s
  | S k' => if (String.length s <=? k')%nat then "0" +:+ pad k' s else s
  end.

Definition to_string (x : t) : string :=
  let '(d, k) := trim (scale x) (digits x) (scale x) in
  let sign := if neg x then "-" else "" in
  let whole := Py.str (Z.of_N (d / 10 ^ N.of_nat k)) in
  match k with
  | O => sign +:+ whole
  | _ => sign +:+ whole +:+ "." +:+ pad k (Py.str (Z.of_N (d mod 10 ^ N.of_nat k)))
  end.

End Dec.

(** ** Vocabulary of the statements *)

(** Concatenation of a list of strings *)
Definition sconcat (l : list string) : string := foldr String.append EmptyString l.

(** A string without a newline character: one line of a file *)
Fixpoint no_nl (s : string) : bool :=
  match s with
  | EmptyString => true
  | String c s' => negb (Ascii.eqb c "010") && no_nl s'
  end.

(** The record of one element in the destination grammar:
    [ID, PART_ID, n1, ..., n8] *)
Definition element_record (eid : Z) (conn : list Z) : string :=
  Py.join ", " (Py.str eid :: Py.str 1 :: (Py.str <$> conn)).

(** The elements that reach the output: ascending IDs, 8 node references *)
Definition emitted_elements (elements : gmap Z (list Z)) : list Z :=
  filter (λ eid, length <$> elements !! eid = Some 8%nat) (Py.sorted_keys elements).

(** The chunks of the chunk loop, as lists of IDs *)
Definition id_chunks (ids : list Z) : list (list Z) :=
  (λ i, Py.slice i (i + chunk_size) ids) <$> Py.range_step (length ids) chunk_size.

(** One output line per chunk *)
Definition chunk_lines (ids : list Z) : list string :=
  (λ chunk, Py.join ", " (Py.str <$> chunk)) <$> id_chunks ids.

(** What the element loop writes for one key of [elements] *)
Definition element_text (elements : gmap Z (list Z)) (eid : Z) : string :=
  if bool_decide (length (default [] (elements !! eid)) = 8%nat)
  then element_record eid (default [] (elements !! eid)) +:+ Py.nl else "".

(** How many of the three "current named collection" pointers are set *)
Definition active_count {float} (st : pstate float) : nat :=
  ((if current_nset_name st is Some _ then 1 else 0) +
   (if current_elset_name st is Some _ then 1 else 0) +
   (if current_surf_name st is Some _ then 1 else 0))%nat.

(** Every pointer that is set names a key of its dictionary *)
Definition opened {float} (st : pstate float) : Prop :=
  (∀ n, current_nset_name st = Some n → is_Some (od_get n (nsets st))) ∧
  (∀ n, current_elset_name st = Some n → is_Some (od_get n (elsets st))) ∧
  (∀ n, current_surf_name st = Some n → is_Some (od_get n (surfaces st))).

(** A step that moves no pointer and drops no key *)
Definition same_named {float} (st st' : pstate float) : Prop :=
  current_nset_name st' = current_nset_name st ∧
  current_elset_name st' = current_elset_name st ∧
  current_surf_name st' = current_surf_name st ∧
  (∀ n, is_Some (od_get n (nsets st)) → is_Some (od_get n (nsets st'))) ∧
  (∀ n, is_Some (od_get n (elsets st)) → is_Some (od_get n (elsets st'))) ∧
  (∀ n, is_Some (od_get n (surfaces st)) → is_Some (od_get n (surfaces st'))).

(** ** Vocabulary of the further properties *)

(** The record of one node in the destination grammar:
    [ID, X, Y, Z, 0, 0] *)
Definition node_record {float} (fmt_g : float → string) (nid : Z)
    (xyz : float * float * float) : string :=
  Py.join ", " [Py.str nid; fmt_g xyz.1.1; fmt_g xyz.1.2; fmt_g xyz.2; "0"; "0"].

(** What the node loop writes for one key of [nodes] *)
Definition node_text {float} (fmt_g : float → string)
    (nodes : gmap Z (float * float * float)) (nid : Z) : string :=
  match nodes !! nid with
  | Some xyz => node_record fmt_g nid xyz
  | None => ""
  end.

(** The record of one facet: the 4 node IDs, then 4 literal paddings *)
Definition facet_record (ns : list Z) : string :=
  Py.join ", " (Py.str <$> ns) +:+ ",0.0,0.0,0.0,0.0".

(** The three header lines of a block *)
Definition block_header (comment directive pad : string) (set_name : string)
    (curid : Z) : list string :=
  [comment +:+ set_name; directive; pad +:+ Py.str curid].

(** A facet that the resolver accepts *)
Definition resolves (elements : gmap Z (list Z)) (surf : Z * string) : Prop :=
  ∃ ns, get_surface_nodes elements surf.1 surf.2 = Ok ns.

(** A line that the reader skips: blank, or a [**] comment *)
Definition skipped (line : string) : bool :=
  negb (nonempty (Py.strip line)) || Py.startswith "**" (Py.strip line).

(** A character occurs in a string *)
Fixpoint has_char (c : ascii) (s : string) : bool :=
  match s with
  | EmptyString => false
  | String c' s' => Ascii.eqb c' c || has_char c s'
  end.

(** The form of the names the reader stores: not empty, no comma, no white
    space at either end, no lower-case letter *)
Definition normal_name (n : string) : Prop :=
  nonempty n = true ∧ has_char "," n = false ∧ Py.strip n = n ∧ Py.upper n = n.

(** A string without white space and without comma *)
Fixpoint plain (s : string) : bool :=
  match s with
  | EmptyString => true
  | String c s' => negb (Py.is_space c) && negb (Ascii.eqb c ",") && plain s'
  end.

(** The state of the reader of [Untitled-1.py] between two lines: a section
    that is being read has no current set, and the two sections are not read
    together *)
Definition section_without_set {float} (st : pstate float) : Prop :=
  (reading_nodes st = true ∨ reading_elements st = true →
   current_nset_name st = None ∧ current_elset_name st = None) ∧
  (reading_nodes st = true → reading_elements st = false).

(** The number of lines of a text whose lines are each closed by a newline *)
Fixpoint count_lines (s : string) : nat :=
  match s with
  | EmptyString => 0
  | String c s' => (if Ascii.eqb c "010" then 1 else 0) + count_lines s'
  end.

(** * Properties *)

(** ** The face-geometry resolver *)

Lemma surf_def_cases face pos :
  config.abq_surf_def !! face = Some pos →
  (face, pos) ∈ [("S1", [1; 2; 3; 4]); ("S2", [5; 8; 7; 6]); ("S3", [1; 5; 6; 2]);
                 ("S4", [2; 6; 7; 3]); ("S5", [3; 7; 8; 4]); ("S6", [4; 8; 5; 1])].
Proof. intros H. by apply elem_of_list_to_map_2 in H. Qed.

Lemma length_8_inv {A} (l : list A) :
  length l = 8%nat → ∃ a b c d e f g h, l = [a; b; c; d; e; f; g; h].
Proof.
  intros H. do 8 (destruct l as [|? l]; [discriminate|]).
  destruct l; [|discriminate]. by repeat eexists.
Qed.

(** C3. For a connectivity of 8 node IDs and a face label of the static
    table, [get_surface_nodes] returns the 4 global node IDs found at the
    table's 4 local positions, each position turned into a 0-based index, in
    the table's order; face "S1" of [10..17] is [10,11,12,13]; an absent face
    label and an absent element ID both raise [KeyError]. *)
Theorem C3_get_surface_nodes :
  (∀ (elements : gmap Z (list Z)) elmid conn face pos,
     elements !! elmid = Some conn → length conn = 8%nat →
     config.abq_surf_def !! face = Some pos →
     ∃ p1 p2 p3 p4 n1 n2 n3 n4,
       pos = [p1; p2; p3; p4] ∧
       conn !! Z.to_nat (p1 - 1) = Some n1 ∧ conn !! Z.to_nat (p2 - 1) = Some n2 ∧
       conn !! Z.to_nat (p3 - 1) = Some n3 ∧ conn !! Z.to_nat (p4 - 1) = Some n4 ∧
       1 ≤ p1 ∧ 1 ≤ p2 ∧ 1 ≤ p3 ∧ 1 ≤ p4 ∧
       get_surface_nodes elements elmid face = Ok [n1; n2; n3; n4]) ∧
  (∀ (elements : gmap Z (list Z)) elmid,
     elements !! elmid = Some [10; 11; 12; 13; 14; 15; 16; 17] →
     get_surface_nodes elements elmid "S1" = Ok [10; 11; 12; 13]) ∧
  (∀ (elements : gmap Z (list Z)) elmid face,
     config.abq_surf_def !! face = None →
     get_surface_nodes elements elmid face = Raise KeyError) ∧
  (∀ (elements : gmap Z (list Z)) elmid face,
     elements !! elmid = None →
     get_surface_nodes elements elmid face = Raise KeyError).
Proof.
  repeat split.
  - intros elements elmid conn face pos Hel Hlen Hface.
    destruct (length_8_inv conn Hlen) as (a & b & c & d & e & f & g & h & ->).
    pose proof (surf_def_cases _ _ Hface) as Hin.
    unfold get_surface_nodes. rewrite Hel, Hface. clear Hel Hface.
    repeat (apply elem_of_cons in Hin as [Hin|Hin]).
    all: try (by apply elem_of_nil in Hin).
    all: injection Hin as -> ->.
    all: do 8 eexists; split; [reflexivity|].
    all: do 4 (split; [reflexivity|]); do 4 (split; [lia|]); reflexivity.
  - intros elements elmid Hel. unfold get_surface_nodes. by rewrite Hel.
  - intros elements elmid face Hface. unfold get_surface_nodes.
    rewrite Hface. by destruct (elements !! elmid).
  - intros elements elmid face Hel. unfold get_surface_nodes. by rewrite Hel.
Qed.

Lemma C3_get_surface_nodes_witness :
  get_surface_nodes {[ 7 := [10; 11; 12; 13; 14; 15; 16; 17] ]} 7 "S1"
    = Ok [10; 11; 12; 13] ∧
  get_surface_nodes {[ 7 := [10; 11; 12; 13; 14; 15; 16; 17] ]} 7 "S2"
    = Ok [14; 17; 16; 15] ∧
  get_surface_nodes {[ 7 := [10; 11; 12; 13; 14; 15; 16; 17] ]} 7 " S1"
    = Raise KeyError ∧
  get_surface_nodes {[ 7 := [10; 11; 12; 13; 14; 15; 16; 17] ]} 8 "S1"
    = Raise KeyError.
Proof.
  pose proof C3_get_surface_nodes as (Hface & Hs1 & Hnoface & Hnoel).
  split; [|split; [|split]].
  - apply Hs1. reflexivity.
  - destruct (Hface {[ 7 := [10; 11; 12; 13; 14; 15; 16; 17] ]} 7
      [10; 11; 12; 13; 14; 15; 16; 17] "S2" [5; 8; 7; 6])
      as (p1 & p2 & p3 & p4 & n1 & n2 & n3 & n4 & Hpos & H1 & H2 & H3 & H4 & _ & _ & _ & _ & Hres);
      [reflexivity ..|].
    injection Hpos as <- <- <- <-.
    injection H1 as <-. injection H2 as <-. injection H3 as <-. injection H4 as <-.
    exact Hres.
  - apply Hnoface. reflexivity.
  - apply Hnoel. reflexivity.
Defined.

(** ** Strings and lines *)

Lemma sapp_cons (x : ascii) (a b : string) : String x a +:+ b = String x (a +:+ b).
Proof. reflexivity. Qed.

Lemma sapp_nil_l (a : string) : "" +:+ a = a.
Proof. reflexivity. Qed.

Lemma sapp_assoc (a b c : string) : (a +:+ b) +:+ c = a +:+ b +:+ c.
Proof.
  induction a as [|x a IH]; [done|]. by rewrite !sapp_cons, IH.
Qed.

Lemma sapp_nil_r (a : string) : a +:+ "" = a.
Proof. induction a as [|x a IH]; [done|]. by rewrite sapp_cons, IH. Qed.

Lemma no_nl_app (a b : string) : no_nl (a +:+ b) = no_nl a && no_nl b.
Proof.
  induction a as [|x a IH]; [done|].
  rewrite sapp_cons. simpl. rewrite IH. by rewrite andb_assoc.
Qed.

Lemma no_nl_uint (d : Decimal.uint) : no_nl (NilEmpty.string_of_uint d) = true.
Proof. induction d; simpl; auto. Qed.

Lemma no_nl_str (n : Z) : no_nl (Py.str n) = true.
Proof.
  unfold Py.str, NilZero.string_of_int, NilZero.string_of_uint.
  destruct (Z.to_int n) as [d|d]; destruct d; simpl; auto using no_nl_uint.
Qed.

Lemma no_nl_join (sep : string) (l : list string) :
  no_nl sep = true → Forall (λ s, no_nl s = true) l → no_nl (Py.join sep l) = true.
Proof.
  intros Hsep Hl. induction Hl as [|x l Hx Hl IH]; [done|].
  destruct l as [|y l]; [done|].
  change (no_nl (x +:+ sep +:+ Py.join sep (y :: l)) = true).
  rewrite !no_nl_app, Hx, Hsep, IH. done.
Qed.

Lemma no_nl_join_str (l : list Z) : no_nl (Py.join ", " (Py.str <$> l)) = true.
Proof.
  apply no_nl_join; [done|]. apply Forall_fmap, Forall_forall.
  intros x _. apply no_nl_str.
Qed.

Lemma sconcat_app (l1 l2 : list string) :
  sconcat (l1 ++ l2) = sconcat l1 +:+ sconcat l2.
Proof.
  induction l1 as [|x l1 IH]; simpl; [done|]. by rewrite IH, sapp_assoc.
Qed.

Lemma unlines_sconcat (l : list string) :
  unlines l = sconcat ((λ s, s +:+ Py.nl) <$> l).
Proof.
  induction l as [|x l IH]; simpl; [done|]. by rewrite IH, sapp_assoc.
Qed.

(** ** The writer monad *)

Lemma wbind_ok {A B} (m : writer A) (k : A → writer B) o a :
  m = (o, Ok a) → (m ≫= k) = (o +:+ (k a).1, (k a).2).
Proof. intros ->. reflexivity. Qed.

Lemma wbind_raise {A B} (m : writer A) (k : A → writer B) o e :
  m = (o, Raise e) → (m ≫= k) = (o, Raise e).
Proof. intros ->. reflexivity. Qed.

Lemma wbind_write {B} (s : string) (k : unit → writer B) :
  (write s ≫= k) = (s +:+ (k ()).1, (k ()).2).
Proof. reflexivity. Qed.

Lemma wbind_lift_ok {A B} (a : A) (k : A → writer B) : (lift (Ok a) ≫= k) = k a.
Proof. unfold mbind, writer_bind, lift. simpl. by destruct (k a). Qed.

Lemma wbind_lift_raise {A B} (e : exn) (k : A → writer B) :
  (lift (Raise e) ≫= k) = (EmptyString, Raise e).
Proof. reflexivity. Qed.

Lemma for_ok {X} (l : list X) (body : X → writer unit) (out : X → string) :
  (∀ x, x ∈ l → body x = (out x, Ok ())) →
  for_ l body = (sconcat (out <$> l), Ok ()).
Proof.
  induction l as [|x l IH]; intros Hbody; [done|]. simpl.
  rewrite (wbind_ok _ _ (out x) ()) by (apply Hbody; left).
  rewrite IH by (intros y Hy; apply Hbody; by right). done.
Qed.

Lemma for_app {X} (l1 l2 : list X) (body : X → writer unit) :
  for_ (l1 ++ l2) body = (for_ l1 body ≫= λ _, for_ l2 body).
Proof.
  induction l1 as [|x l1 IH]; simpl.
  - unfold mbind, writer_bind, mret, writer_ret. simpl. by destruct (for_ l2 body).
  - rewrite IH. unfold mbind, writer_bind.
    destruct (body x) as [o [[]|e]]; simpl; [|done].
    destruct (for_ l1 body) as [o1 [[]|e1]]; simpl; [|done].
    by rewrite sapp_assoc.
Qed.

(** ** The element block *)

Lemma join_cons2 (sep x y : string) (l : list string) :
  Py.join sep (x :: y :: l) = x +:+ sep +:+ Py.join sep (y :: l).
Proof. reflexivity. Qed.

Lemma join_fields (x : string) (l : list Z) :
  Py.join ", " (x :: (Py.str <$> l)) = x +:+ sconcat ((λ n, ", " +:+ Py.str n) <$> l).
Proof.
  revert x. induction l as [|n l IH]; intros x.
  - simpl. by rewrite sapp_nil_r.
  - rewrite !fmap_cons, join_cons2, IH. simpl. by rewrite sapp_assoc.
Qed.

Lemma elem_of_sorted_keys {V} (d : gmap Z V) (k : Z) :
  k ∈ Py.sorted_keys d ↔ is_Some (d !! k).
Proof.
  unfold Py.sorted_keys. rewrite merge_sort_Permutation, list_elem_of_fmap. split.
  - intros ([k' v] & -> & Hin). apply elem_of_map_to_list in Hin. by exists v.
  - intros [v Hv]. exists (k, v). split; [done|]. by apply elem_of_map_to_list.
Qed.

Lemma NoDup_sorted_keys {V} (d : gmap Z V) : NoDup (Py.sorted_keys d).
Proof.
  unfold Py.sorted_keys. rewrite merge_sort_Permutation.
  apply NoDup_fst_map_to_list.
Qed.

Lemma strictly_sorted (l : list Z) :
  StronglySorted Z.le l → NoDup l → StronglySorted Z.lt l.
Proof.
  induction 1 as [|x l Hs IH Hall]; intros Hnd; [constructor|].
  apply NoDup_cons in Hnd as [Hx Hnd]. constructor; [auto|].
  rewrite Forall_forall in Hall |- *. intros y Hy.
  assert (x ≠ y) by (intros ->; done). specialize (Hall y Hy). lia.
Qed.

Lemma StronglySorted_filter_lt (P : Z → Prop) `{∀ x, Decision (P x)} (l : list Z) :
  StronglySorted Z.lt l → StronglySorted Z.lt (filter P l).
Proof.
  induction 1 as [|x l Hs IH Hall]; [constructor|].
  rewrite filter_cons. case_decide; [|done]. constructor; [done|].
  rewrite Forall_forall in Hall |- *. intros y Hy.
  apply list_elem_of_filter in Hy as [_ Hy]. auto.
Qed.

Lemma sorted_keys_ascending {V} (d : gmap Z V) :
  StronglySorted Z.lt (Py.sorted_keys d).
Proof.
  apply strictly_sorted; [|apply NoDup_sorted_keys].
  unfold Py.sorted_keys. apply StronglySorted_merge_sort; apply _.
Qed.

Lemma write_element_body (elements : gmap Z (list Z)) (eid : Z) (conn : list Z) :
  elements !! eid = Some conn →
  (conn ← lift (of_option KeyError (elements !! eid));
   if bool_decide (length conn = 8%nat) then
     write (Py.str eid +:+ ", " +:+ Py.str pid) ≫= λ _,
     for_ conn (λ nn, write (", " +:+ Py.str nn)) ≫= λ _,
     write Py.nl
   else mret ())
  = ((if bool_decide (length conn = 8%nat)
      then element_record eid conn +:+ Py.nl else ""), Ok ()).
Proof.
  intros ->. simpl of_option. rewrite wbind_lift_ok.
  case_bool_decide; [|done].
  rewrite wbind_write.
  rewrite (for_ok conn _ (λ nn, ", " +:+ Py.str nn)) by done.
  unfold element_record. rewrite join_cons2, join_fields.
  rewrite (wbind_ok _ _ (sconcat ((λ nn, ", " +:+ Py.str nn) <$> conn)) ()) by done.
  simpl. unfold pid. by rewrite !sapp_assoc.
Qed.

Lemma sconcat_cons (x : string) (l : list string) :
  sconcat (x :: l) = x +:+ sconcat l.
Proof. reflexivity. Qed.

Lemma unlines_cons (x : string) (l : list string) :
  unlines (x :: l) = x +:+ Py.nl +:+ unlines l.
Proof. reflexivity. Qed.

Lemma element_lines_filter (elements : gmap Z (list Z)) (keys : list Z) :
  sconcat (element_text elements <$> keys)
  = unlines ((λ eid, element_record eid (default [] (elements !! eid))) <$>
      filter (λ eid, length <$> elements !! eid = Some 8%nat) keys).
Proof.
  induction keys as [|k keys IH]; [done|].
  rewrite fmap_cons, filter_cons, sconcat_cons, IH. unfold element_text at 1.
  destruct (elements !! k) as [conn|] eqn:Hk; simpl.
  - destruct (decide (Some (length conn) = Some 8%nat)) as [Hlen'|Hlen'];
      case_bool_decide as Hlen.
    + by rewrite fmap_cons, unlines_cons, Hk, sapp_assoc.
    + injection Hlen' as Hlen'. done.
    + destruct Hlen'. by rewrite Hlen.
    + done.
  - destruct (decide (None = Some 8%nat)); done.
Qed.

Lemma write_elements_text (elements : gmap Z (list Z)) :
  write_elements elements =
    (unlines ("*DUALCESE_ELE3D" ::
       ((λ eid, element_record eid (default [] (elements !! eid))) <$>
          emitted_elements elements)), Ok ()).
Proof.
  unfold write_elements. rewrite wbind_write.
  rewrite (for_ok _ _ (element_text elements)).
  - rewrite unlines_cons, element_lines_filter. simpl. by rewrite sapp_assoc.
  - intros eid Hin. apply elem_of_sorted_keys in Hin as [conn Hconn].
    rewrite (write_element_body _ _ conn Hconn).
    unfold element_text. by rewrite Hconn.
Qed.

(** C7. The element block is the directive line followed by one record per
    element of the model whose connectivity has exactly 8 entries, in
    ascending element-ID order, each record being the element ID, the part
    ID 1 and the 8 node IDs joined by ", "; the other elements leave no
    trace in the output, and the block never raises. *)
Theorem C7_element_block (elements : gmap Z (list Z)) :
  write_elements elements =
    (unlines ("*DUALCESE_ELE3D" ::
       ((λ eid, element_record eid (default [] (elements !! eid))) <$>
          emitted_elements elements)), Ok ()) ∧
  StronglySorted Z.lt (emitted_elements elements) ∧
  (∀ eid, eid ∈ emitted_elements elements ↔
          ∃ conn, elements !! eid = Some conn ∧ length conn = 8%nat) ∧
  (∀ eid, eid ∈ emitted_elements elements →
          no_nl (element_record eid (default [] (elements !! eid))) = true).
Proof.
  split; [|split; [|split]].
  - apply write_elements_text.
  - apply StronglySorted_filter_lt, sorted_keys_ascending.
  - intros eid. unfold emitted_elements.
    rewrite list_elem_of_filter, elem_of_sorted_keys. split.
    + intros [Hlen [conn Hconn]]. exists conn. rewrite Hconn in Hlen.
      by injection Hlen as Hlen.
    + intros (conn & Hconn & Hlen). rewrite Hconn. simpl. by rewrite Hlen.
  - intros eid _. unfold element_record.
    change (Py.str eid :: Py.str 1 :: (Py.str <$> default [] (elements !! eid)))
      with (Py.str <$> eid :: 1 :: default [] (elements !! eid)).
    apply no_nl_join_str.
Qed.

(** ** Sorted, deduplicated member lists and their chunks *)

Lemma elem_of_sorted_set (l : list Z) (x : Z) : x ∈ Py.sorted_set l ↔ x ∈ l.
Proof.
  unfold Py.sorted_set. by rewrite merge_sort_Permutation, elem_of_remove_dups.
Qed.

Lemma sorted_set_ascending (l : list Z) : StronglySorted Z.lt (Py.sorted_set l).
Proof.
  apply strictly_sorted.
  - unfold Py.sorted_set. apply StronglySorted_merge_sort; apply _.
  - unfold Py.sorted_set. rewrite merge_sort_Permutation. apply NoDup_remove_dups.
Qed.

Lemma sorted_set_ext (l1 l2 : list Z) :
  (∀ x, x ∈ l1 ↔ x ∈ l2) → Py.sorted_set l1 = Py.sorted_set l2.
Proof.
  intros Heq. unfold Py.sorted_set.
  apply (Sorted_unique Z.le); try apply Sorted_merge_sort; try apply _.
  rewrite !merge_sort_Permutation.
  apply NoDup_Permutation; try apply NoDup_remove_dups.
  intros x. by rewrite !elem_of_remove_dups.
Qed.

Lemma chunk_count_bounds (n : nat) :
  (n ≤ (n + chunk_size - 1) / chunk_size * chunk_size
   ∧ (n + chunk_size - 1) / chunk_size * chunk_size < n + chunk_size)%nat.
Proof.
  unfold chunk_size.
  pose proof (Nat.div_mod_eq (n + 8 - 1) 8) as Hdm.
  pose proof (Nat.mod_upper_bound (n + 8 - 1) 8) as Hub. lia.
Qed.

Lemma id_chunks_eq (ids : list Z) :
  id_chunks ids =
    (λ k, take chunk_size (drop (k * chunk_size) ids)) <$>
      seq 0 ((length ids + chunk_size - 1) / chunk_size).
Proof.
  unfold id_chunks, Py.range_step. rewrite <- list_fmap_compose.
  apply list_fmap_ext. intros i k _. unfold Py.slice. simpl.
  by replace (k * chunk_size + chunk_size - k * chunk_size)%nat
    with chunk_size by lia.
Qed.

Lemma concat_take_chunks (ids : list Z) (m : nat) :
  concat ((λ k, take chunk_size (drop (k * chunk_size) ids)) <$> seq 0 m)
  = take (m * chunk_size) ids.
Proof.
  induction m as [|m IH]; [done|].
  rewrite seq_S, fmap_app, concat_app, IH.
  change (concat (_ <$> [(0 + m)%nat]))
    with (take chunk_size (drop ((0 + m) * chunk_size) ids) ++ []).
  rewrite app_nil_r, Nat.add_0_l, take_take_drop. f_equal. lia.
Qed.

Lemma concat_id_chunks (ids : list Z) : concat (id_chunks ids) = ids.
Proof.
  rewrite id_chunks_eq, concat_take_chunks. apply take_ge.
  apply chunk_count_bounds.
Qed.

Lemma id_chunks_lookup (ids : list Z) (k : nat) (chunk : list Z) :
  id_chunks ids !! k = Some chunk →
  chunk = take chunk_size (drop (k * chunk_size) ids) ∧
  (k < (length ids + chunk_size - 1) / chunk_size)%nat.
Proof.
  rewrite id_chunks_eq, list_lookup_fmap. intros H.
  apply fmap_Some in H as (k' & Hk & ->).
  apply lookup_seq in Hk as [-> Hlt]. done.
Qed.

Lemma id_chunks_length (ids : list Z) (k : nat) (chunk : list Z) :
  id_chunks ids !! k = Some chunk →
  (1 ≤ length chunk ≤ chunk_size)%nat ∧
  (S k < length (id_chunks ids) → length chunk = chunk_size)%nat.
Proof.
  intros H. pose proof (chunk_count_bounds (length ids)) as [Hlo Hhi].
  rewrite id_chunks_eq, length_fmap, length_seq.
  apply id_chunks_lookup in H as [-> Hk].
  rewrite length_take, length_drop.
  set (m := ((length ids + chunk_size - 1) / chunk_size)%nat) in *.
  unfold chunk_size in *. nia.
Qed.

Lemma write_chunks_lines (ids : list Z) :
  write_chunks ids = (unlines (chunk_lines ids), Ok ()).
Proof.
  unfold write_chunks.
  rewrite (for_ok _ _ (λ i,
    Py.join ", " (Py.str <$> Py.slice i (i + chunk_size) ids) +:+ Py.nl)) by done.
  unfold chunk_lines, id_chunks. by rewrite unlines_sconcat, <- !list_fmap_compose.
Qed.

Lemma unlines_app (a b : list string) : unlines (a ++ b) = unlines a +:+ unlines b.
Proof.
  induction a as [|x a IH]; [done|].
  rewrite <- app_comm_cons, !unlines_cons, IH. by rewrite !sapp_assoc.
Qed.

(** ** The set blocks *)

Lemma write_nset_ok (set_name : string) (node_list : list Z) (curid : Z) :
  config.nodeset_ssid !! set_name = Some curid →
  write_nset (set_name, node_list) =
    (unlines (["$ Node set: " +:+ set_name; "*DUALCESE_NODESET";
               "       " +:+ Py.str curid]
              ++ chunk_lines (Py.sorted_set node_list)), Ok ()).
Proof.
  intros H. unfold write_nset. rewrite H. simpl of_option.
  rewrite !wbind_write, wbind_lift_ok, wbind_write, write_chunks_lines.
  rewrite unlines_app. simpl. by rewrite !sapp_assoc.
Qed.

Lemma write_elset_ok (set_name : string) (elem_list : list Z) (curid : Z) :
  config.elementset_ssid !! set_name = Some curid →
  write_elset (set_name, elem_list) =
    (unlines (["$ Element set: " +:+ set_name; "*DUALCESE_ELEMENTSET";
               "      " +:+ Py.str curid]
              ++ chunk_lines (Py.sorted_set elem_list)), Ok ()).
Proof.
  intros H. unfold write_elset. rewrite H. simpl of_option.
  rewrite !wbind_write, wbind_lift_ok, wbind_write, write_chunks_lines.
  rewrite unlines_app. simpl. by rewrite !sapp_assoc.
Qed.

(** C4. The member list emitted for a node set or an element set is the
    ascending, duplicate-free list of the accumulated members, so it depends
    only on which IDs occur (not on their order or multiplicity across the
    input lines), and it is written in chunks of 8 IDs joined by ", ", one
    chunk per line, only the last chunk being possibly shorter. *)
Theorem C4_member_lists :
  (∀ set_name node_list curid,
     config.nodeset_ssid !! set_name = Some curid →
     write_nset (set_name, node_list) =
       (unlines (["$ Node set: " +:+ set_name; "*DUALCESE_NODESET";
                  "       " +:+ Py.str curid]
                 ++ chunk_lines (Py.sorted_set node_list)), Ok ())) ∧
  (∀ set_name elem_list curid,
     config.elementset_ssid !! set_name = Some curid →
     write_elset (set_name, elem_list) =
       (unlines (["$ Element set: " +:+ set_name; "*DUALCESE_ELEMENTSET";
                  "      " +:+ Py.str curid]
                 ++ chunk_lines (Py.sorted_set elem_list)), Ok ())) ∧
  (∀ members,
     concat (id_chunks (Py.sorted_set members)) = Py.sorted_set members ∧
     StronglySorted Z.lt (Py.sorted_set members) ∧
     (∀ x, x ∈ Py.sorted_set members ↔ x ∈ members)) ∧
  (∀ ids k chunk,
     id_chunks ids !! k = Some chunk →
     (1 ≤ length chunk ≤ 8)%nat ∧
     (S k < length (id_chunks ids) → length chunk = 8)%nat) ∧
  (∀ members1 members2,
     (∀ x, x ∈ members1 ↔ x ∈ members2) →
     Py.sorted_set members1 = Py.sorted_set members2 ∧
     chunk_lines (Py.sorted_set members1) = chunk_lines (Py.sorted_set members2)) ∧
  Py.sorted_set ([1; 2] ++ [2; 3]) = [1; 2; 3] ∧
  Py.sorted_set ([3; 1] ++ [2]) = [1; 2; 3].
Proof.
  split; [exact write_nset_ok|]. split; [exact write_elset_ok|].
  split; [|split; [|split; [|split]]].
  - intros members. split; [apply concat_id_chunks|].
    split; [apply sorted_set_ascending|]. intros x. apply elem_of_sorted_set.
  - intros ids k chunk H. by apply id_chunks_length.
  - intros l1 l2 H. by rewrite (sorted_set_ext l1 l2 H).
  - reflexivity.
  - reflexivity.
Qed.

Lemma C4_member_lists_witness :
  write_nset ("K1A", [9; 8; 7; 6; 5; 4; 3; 2; 1; 1; 9; 10]) =
    (unlines ["$ Node set: K1A"; "*DUALCESE_NODESET"; "       999";
              "1, 2, 3, 4, 5, 6, 7, 8"; "9, 10"], Ok ()) ∧
  write_elset ("FLUID1", [2; 1; 2]) =
    (unlines ["$ Element set: FLUID1"; "*DUALCESE_ELEMENTSET"; "      2222";
              "1, 2"], Ok ()) ∧
  (1 ≤ length [9; 10]%Z ≤ 8)%nat ∧
  Py.sorted_set [1; 2; 2; 3] = Py.sorted_set [3; 1; 2] ∧
  main Dec.to_string Dec.of_string ["*Nset, nset=K1A"; "1, 2"; "2, 3"] =
    main Dec.to_string Dec.of_string ["*Nset, nset=K1A"; "3 1"; "2,"].
Proof.
  pose proof C4_member_lists as (Hn & He & _ & Hc & Hinv & _ & _).
  split; [|split; [|split; [|split; [|reflexivity]]]].
  - rewrite (Hn "K1A" _ 999) by reflexivity. reflexivity.
  - rewrite (He "FLUID1" _ 2222) by reflexivity. reflexivity.
  - apply (Hc [1; 2; 3; 4; 5; 6; 7; 8; 9; 10] 1%nat [9; 10]). reflexivity.
  - apply Hinv. intros x. rewrite !elem_of_cons, !elem_of_nil. tauto.
Defined.

(** ** A name missing from its ID table *)

Lemma for_abort {X} (pre post : list X) (x : X) (body : X → writer unit) o ox e :
  for_ pre body = (o, Ok ()) → body x = (ox, Raise e) →
  for_ (pre ++ x :: post) body = (o +:+ ox, Raise e).
Proof.
  intros Hpre Hx. rewrite for_app, (wbind_ok _ _ o ()) by done.
  simpl. by rewrite (wbind_raise _ _ ox e).
Qed.

Lemma write_nset_absent (set_name : string) (node_list : list Z) :
  config.nodeset_ssid !! set_name = None →
  write_nset (set_name, node_list) =
    (unlines ["$ Node set: " +:+ set_name; "*DUALCESE_NODESET"], Raise KeyError).
Proof.
  intros H. unfold write_nset. rewrite H. simpl of_option.
  rewrite !wbind_write, wbind_lift_raise. simpl. by rewrite !sapp_assoc.
Qed.

Lemma write_surface_absent (elements : gmap Z (list Z)) (set_name : string)
    (surf_list : list (Z * string)) :
  config.segmentset_ssid !! set_name = None →
  write_surface elements (set_name, surf_list) =
    (unlines ["$ Surface set: " +:+ set_name; "*DUALCESE_SEGMENTSET"], Raise KeyError).
Proof.
  intros H. unfold write_surface. rewrite H. simpl of_option.
  rewrite !wbind_write, wbind_lift_raise. simpl. by rewrite !sapp_assoc.
Qed.

Lemma write_elset_absent (set_name : string) (elem_list : list Z) :
  config.elementset_ssid !! set_name = None →
  write_elset (set_name, elem_list) =
    (unlines ["$ Element set: " +:+ set_name; "*DUALCESE_ELEMENTSET"], Raise KeyError).
Proof.
  intros H. unfold write_elset. rewrite H. simpl of_option.
  rewrite !wbind_write, wbind_lift_raise. simpl. by rewrite !sapp_assoc.
Qed.

Lemma write_nodes_ok {float} (fmt_g : float → string)
    (nodes : gmap Z (float * float * float)) :
  (write_nodes fmt_g nodes).2 = Ok ().
Proof.
  unfold write_nodes. rewrite wbind_write. simpl.
  rewrite (for_ok _ _ (λ nid,
    match nodes !! nid with
    | Some (x, y, z) =>
        Py.str nid +:+ ", " +:+ fmt_g x +:+ ", " +:+ fmt_g y +:+ ", "
        +:+ fmt_g z +:+ ", " +:+ "0" +:+ ", " +:+ "0" +:+ Py.nl
    | None => ""
    end)); [done|].
  intros nid Hin. apply elem_of_sorted_keys in Hin as [[[x y] z] Hxyz].
  rewrite Hxyz. reflexivity.
Qed.

Lemma surjective_writer {A} (w : writer A) (r : result A) :
  w.2 = r → w = (w.1, r).
Proof. intros <-. by destruct w. Qed.

Lemma write_k_abort_nsets {float} (fmt_g : float → string) nodes elements
    nsets elsets surfaces o e :
  for_ nsets write_nset = (o, Raise e) →
  write_k fmt_g nodes elements nsets elsets surfaces =
    ((write_nodes fmt_g nodes).1 +:+ (write_elements elements).1 +:+ o, Raise e).
Proof.
  intros H. unfold write_k.
  rewrite (wbind_ok _ _ _ () (surjective_writer _ _ (write_nodes_ok fmt_g nodes))).
  rewrite (wbind_ok (write_elements elements) _ _ ()
             (surjective_writer _ _ (f_equal snd (write_elements_text elements)))).
  by rewrite (wbind_raise _ _ o e H).
Qed.

Lemma write_k_abort_surfaces {float} (fmt_g : float → string) nodes elements
    nsets elsets surfaces o1 o e :
  for_ nsets write_nset = (o1, Ok ()) →
  for_ surfaces (write_surface elements) = (o, Raise e) →
  write_k fmt_g nodes elements nsets elsets surfaces =
    ((write_nodes fmt_g nodes).1 +:+ (write_elements elements).1 +:+ o1 +:+ o,
     Raise e).
Proof.
  intros H1 H. unfold write_k.
  rewrite (wbind_ok _ _ _ () (surjective_writer _ _ (write_nodes_ok fmt_g nodes))).
  rewrite (wbind_ok (write_elements elements) _ _ ()
             (surjective_writer _ _ (f_equal snd (write_elements_text elements)))).
  rewrite (wbind_ok _ _ o1 () H1). by rewrite (wbind_raise _ _ o e H).
Qed.

Lemma write_k_abort_elsets {float} (fmt_g : float → string) nodes elements
    nsets elsets surfaces o1 o2 o e :
  for_ nsets write_nset = (o1, Ok ()) →
  for_ surfaces (write_surface elements) = (o2, Ok ()) →
  for_ elsets write_elset = (o, Raise e) →
  write_k fmt_g nodes elements nsets elsets surfaces =
    ((write_nodes fmt_g nodes).1 +:+ (write_elements elements).1 +:+ o1 +:+ o2 +:+ o,
     Raise e).
Proof.
  intros H1 H2 H. unfold write_k.
  rewrite (wbind_ok _ _ _ () (surjective_writer _ _ (write_nodes_ok fmt_g nodes))).
  rewrite (wbind_ok (write_elements elements) _ _ ()
             (surjective_writer _ _ (f_equal snd (write_elements_text elements)))).
  rewrite (wbind_ok _ _ o1 () H1), (wbind_ok _ _ o2 () H2).
  by rewrite (wbind_raise _ _ o e H).
Qed.

Lemma for_nsets_ok (nsets : odict (list Z)) :
  Forall (λ entry, is_Some (config.nodeset_ssid !! entry.1)) nsets →
  for_ nsets write_nset = ((for_ nsets write_nset).1, Ok ()).
Proof.
  intros Hall. apply surjective_writer.
  rewrite (for_ok _ _ (λ entry, (write_nset entry).1)); [done|].
  intros [name l] Hin. rewrite Forall_forall in Hall.
  destruct (Hall _ Hin) as [curid Hid]. simpl in Hid.
  by rewrite (write_nset_ok _ _ _ Hid).
Qed.

(** The file when the loop over the node sets, over the surfaces or over the
    element sets reaches a name without ID, the loops before it and the
    entries before it having ended without exception. *)
Lemma write_k_absent_name {float}
    (fmt_g : float → string) (nodes : gmap Z (float * float * float))
    (elements : gmap Z (list Z)) (nsets elsets : odict (list Z))
    (surfaces : odict (list (Z * string))) :
  (∀ pre set_name node_list post,
     nsets = pre ++ (set_name, node_list) :: post →
     Forall (λ entry, is_Some (config.nodeset_ssid !! entry.1)) pre →
     config.nodeset_ssid !! set_name = None →
     write_k fmt_g nodes elements nsets elsets surfaces =
       ((write_nodes fmt_g nodes).1 +:+ (write_elements elements).1 +:+
        (for_ pre write_nset).1 +:+
        unlines ["$ Node set: " +:+ set_name; "*DUALCESE_NODESET"],
        Raise KeyError)) ∧
  (∀ pre set_name surf_list post,
     surfaces = pre ++ (set_name, surf_list) :: post →
     (for_ nsets write_nset).2 = Ok () →
     (for_ pre (write_surface elements)).2 = Ok () →
     config.segmentset_ssid !! set_name = None →
     write_k fmt_g nodes elements nsets elsets surfaces =
       ((write_nodes fmt_g nodes).1 +:+ (write_elements elements).1 +:+
        (for_ nsets write_nset).1 +:+ (for_ pre (write_surface elements)).1 +:+
        unlines ["$ Surface set: " +:+ set_name; "*DUALCESE_SEGMENTSET"],
        Raise KeyError)) ∧
  (∀ pre set_name elem_list post,
     elsets = pre ++ (set_name, elem_list) :: post →
     (for_ nsets write_nset).2 = Ok () →
     (for_ surfaces (write_surface elements)).2 = Ok () →
     (for_ pre write_elset).2 = Ok () →
     config.elementset_ssid !! set_name = None →
     write_k fmt_g nodes elements nsets elsets surfaces =
       ((write_nodes fmt_g nodes).1 +:+ (write_elements elements).1 +:+
        (for_ nsets write_nset).1 +:+ (for_ surfaces (write_surface elements)).1 +:+
        (for_ pre write_elset).1 +:+
        unlines ["$ Element set: " +:+ set_name; "*DUALCESE_ELEMENTSET"],
        Raise KeyError)).
Proof.
  split; [|split].
  - intros pre set_name node_list post -> Hpre Habsent.
    rewrite (write_k_abort_nsets fmt_g nodes elements _ elsets surfaces
               ((for_ pre write_nset).1 +:+
                unlines ["$ Node set: " +:+ set_name; "*DUALCESE_NODESET"]) KeyError).
    + by rewrite ?sapp_assoc.
    + apply for_abort; [by apply for_nsets_ok|by apply write_nset_absent].
  - intros pre set_name surf_list post -> Hnsets Hpre Habsent.
    rewrite (write_k_abort_surfaces fmt_g nodes elements nsets elsets _
               (for_ nsets write_nset).1
               ((for_ pre (write_surface elements)).1 +:+
                unlines ["$ Surface set: " +:+ set_name; "*DUALCESE_SEGMENTSET"])
               KeyError).
    + by rewrite ?sapp_assoc.
    + by apply surjective_writer.
    + apply for_abort; [by apply surjective_writer|by apply write_surface_absent].
  - intros pre set_name elem_list post -> Hnsets Hsurfs Hpre Habsent.
    rewrite (write_k_abort_elsets fmt_g nodes elements nsets _ surfaces
               (for_ nsets write_nset).1 (for_ surfaces (write_surface elements)).1
               ((for_ pre write_elset).1 +:+
                unlines ["$ Element set: " +:+ set_name; "*DUALCESE_ELEMENTSET"])
               KeyError).
    + by rewrite ?sapp_assoc.
    + by apply surjective_writer.
    + by apply surjective_writer.
    + apply for_abort; [by apply surjective_writer|by apply write_elset_absent].
Qed.

(** The all-or-nothing wording does not hold of [write_k]: for a node set
    [FOO], missing from [nodeset_ssid], the comment line and the directive
    line of its block are in the file when [KeyError] is raised. *)
Lemma C1_partial_block_is_emitted :
  config.nodeset_ssid !! "FOO" = None ∧
  write_k Dec.to_string ∅ ∅ [("FOO", [1])] [] [] =
    (unlines ["*DUALCESE_NODE3D"; "*DUALCESE_ELE3D";
              "$ Node set: FOO"; "*DUALCESE_NODESET"], Raise KeyError) ∧
  "$ Node set: FOO" ∈
    Py.split "010" (write_k Dec.to_string ∅ ∅ [("FOO", [1])] [] []).1 ∧
  "*DUALCESE_NODESET" ∈
    Py.split "010" (write_k Dec.to_string ∅ ∅ [("FOO", [1])] [] []).1.
Proof.
  split; [reflexivity|]. split; [reflexivity|].
  split; vm_compute; set_solver.
Qed.

(** ** Keyword lines *)

Lemma prefix_cons_inv (a : ascii) (p s : string) :
  String.prefix (String a p) s = true → ∃ s', s = String a s' ∧ String.prefix p s' = true.
Proof.
  destruct s as [|b s']; simpl; [done|].
  destruct (ascii_dec a b) as [->|]; [|done]. eauto.
Qed.

Lemma startswith_node (l : string) :
  Py.startswith "*node" l = true →
  Py.startswith "*element" l = false.
Proof.
  unfold Py.startswith. intros H.
  apply prefix_cons_inv in H as (s1 & -> & H).
  apply prefix_cons_inv in H as (s2 & -> & H). reflexivity.
Qed.

Lemma startswith_element (l : string) :
  Py.startswith "*element" l = true → Py.startswith "*node" l = false.
Proof.
  unfold Py.startswith. intros H.
  apply prefix_cons_inv in H as (s1 & -> & H).
  apply prefix_cons_inv in H as (s2 & -> & H). reflexivity.
Qed.

Lemma startswith_nset (l : string) :
  Py.startswith "*nset" l = true →
  Py.startswith "*node" l = false ∧ Py.startswith "*element" l = false.
Proof.
  unfold Py.startswith. intros H.
  apply prefix_cons_inv in H as (s1 & -> & H).
  apply prefix_cons_inv in H as (s2 & -> & H).
  apply prefix_cons_inv in H as (s3 & -> & H). done.
Qed.

Lemma startswith_elset (l : string) :
  Py.startswith "*elset" l = true →
  Py.startswith "*node" l = false ∧ Py.startswith "*element" l = false ∧
  Py.startswith "*nset" l = false.
Proof.
  unfold Py.startswith. intros H.
  apply prefix_cons_inv in H as (s1 & -> & H).
  apply prefix_cons_inv in H as (s2 & -> & H).
  apply prefix_cons_inv in H as (s3 & -> & H).
  apply prefix_cons_inv in H as (s4 & -> & H). done.
Qed.

Lemma startswith_surface (l : string) :
  Py.startswith "*surface" l = true →
  Py.startswith "*node" l = false ∧ Py.startswith "*element" l = false ∧
  Py.startswith "*nset" l = false ∧ Py.startswith "*elset" l = false.
Proof.
  unfold Py.startswith. intros H.
  apply prefix_cons_inv in H as (s1 & -> & H).
  apply prefix_cons_inv in H as (s2 & -> & H). done.
Qed.

(** ** Results and ordered dictionaries *)

Lemma bind_ok_inv {A B} (m : result A) (k : A → result B) (b : B) :
  (m ≫= k) = Ok b → ∃ a, m = Ok a ∧ k a = Ok b.
Proof. destruct m as [a|e]; [|done]. intros H. by exists a. Qed.

Lemma of_option_ok_inv {A} (e : exn) (o : option A) (a : A) :
  of_option e o = Ok a → o = Some a.
Proof. destruct o; [|done]. by intros [= ->]. Qed.

Lemma od_get_set_eq {V} (k : string) (v : V) (d : odict V) :
  od_get k (od_set k v d) = Some v.
Proof.
  induction d as [|[k' v'] d IH]; simpl.
  - by rewrite String.eqb_refl.
  - destruct (String.eqb k' k) eqn:E; simpl; by rewrite E.
Qed.

Lemma od_get_set_ne {V} (k k' : string) (v : V) (d : odict V) :
  k ≠ k' → od_get k' (od_set k v d) = od_get k' d.
Proof.
  intros Hne. induction d as [|[k0 v0] d IH]; simpl.
  - by apply String.eqb_neq in Hne as ->.
  - destruct (String.eqb k0 k) eqn:E; simpl; [|by rewrite IH].
    apply String.eqb_eq in E as ->. by apply String.eqb_neq in Hne as ->.
Qed.

Lemma od_get_set_is_Some {V} (k k' : string) (v : V) (d : odict V) :
  is_Some (od_get k' d) → is_Some (od_get k' (od_set k v d)).
Proof.
  destruct (decide (k = k')) as [->|Hne].
  - by rewrite od_get_set_eq.
  - by rewrite od_get_set_ne.
Qed.

Lemma od_get_setdefault_eq {V} (k : string) (v : V) (d : odict V) :
  is_Some (od_get k (od_setdefault k v d)).
Proof.
  unfold od_setdefault. destruct (od_get k d) eqn:E.
  - by rewrite E.
  - by rewrite od_get_set_eq.
Qed.

Lemma od_get_setdefault_is_Some {V} (k k' : string) (v : V) (d : odict V) :
  is_Some (od_get k' d) → is_Some (od_get k' (od_setdefault k v d)).
Proof.
  unfold od_setdefault. destruct (od_get k d); [done|].
  apply od_get_set_is_Some.
Qed.

Section ReaderFacts.
Context {float : Type} (py_float : string → option float).
Implicit Types st : pstate float.



Lemma keyword_nset st ls :
  Py.startswith "*nset" (Py.lower ls) = true →
  keyword st ls =
    let st0 := set_reading false false st in
    let name := attr_name "nset=" (Py.lower ls) in
    if truthy name then
      set_current None name None
        (set_nsets (od_setdefault (default "" name) [] (nsets st0)) st0)
    else set_current (current_elset_name st0) None (current_surf_name st0) st0.
Proof.
  intros H. destruct (startswith_nset _ H) as (H1 & H2).
  unfold keyword. by rewrite H1, H2, H.
Qed.

Lemma keyword_elset st ls :
  Py.startswith "*elset" (Py.lower ls) = true →
  keyword st ls =
    let st0 := set_reading false false st in
    let name := attr_name "elset=" (Py.lower ls) in
    if truthy name then
      set_current name None None
        (set_elsets (od_setdefault (default "" name) [] (elsets st0)) st0)
    else set_current None (current_nset_name st0) (current_surf_name st0) st0.
Proof.
  intros H. destruct (startswith_elset _ H) as (H1 & H2 & H3).
  unfold keyword. by rewrite H1, H2, H3, H.
Qed.

Lemma keyword_surface st ls :
  Py.startswith "*surface" (Py.lower ls) = true →
  keyword st ls =
    let st0 := set_reading false false st in
    let name := attr_name "name=" (Py.lower ls) in
    if truthy name then
      set_current None None name
        (set_surfaces (od_setdefault (default "" name) [] (surfaces st0)) st0)
    else st0.
Proof.
  intros H. destruct (startswith_surface _ H) as (H1 & H2 & H3 & H4).
  unfold keyword. by rewrite H1, H2, H3, H4, H.
Qed.

(** *** Data lines *)

Lemma index_nat {A} (l : list A) (i : nat) :
  (i < length l)%nat → Py.index l (Z.of_nat i) = l !! i.
Proof.
  intros Hi. unfold Py.index. rewrite bool_decide_true by lia.
  by rewrite Nat2Z.id.
Qed.

Lemma startswith_star2 (ls : string) :
  Py.startswith "**" ls = true → Py.startswith "*" ls = true.
Proof.
  unfold Py.startswith. intros H.
  apply prefix_cons_inv in H as (s1 & -> & H). by destruct s1.
Qed.

Lemma process_line_data st line :
  is_data (Py.strip line) = true →
  process_line py_float st line =
    (st1 ← section_line py_float st (Py.strip line);
     st2 ← nset_line st1 (Py.strip line);
     st3 ← elset_line st2 (Py.strip line);
     surf_line st3 (Py.strip line)).
Proof.
  unfold is_data. intros H. apply andb_true_iff in H as [Hne Hstar].
  apply negb_true_iff in Hstar. unfold process_line.
  rewrite Hne, Hstar. simpl.
  destruct (Py.startswith "**" (Py.strip line)) eqn:E; [|done].
  apply startswith_star2 in E. congruence.
Qed.

Lemma process_line_keyword st line :
  Py.startswith "*" (Py.strip line) = true →
  Py.startswith "**" (Py.strip line) = false →
  process_line py_float st line = Ok (keyword st (Py.strip line)).
Proof.
  intros H1 H2. unfold process_line. rewrite H1, H2.
  destruct (Py.strip line); [done|]. reflexivity.
Qed.

Lemma process_line_cases st line :
  process_line py_float st line = Ok st ∨
  process_line py_float st line = Ok (keyword st (Py.strip line)) ∨
  is_data (Py.strip line) = true.
Proof.
  unfold process_line, is_data.
  destruct (nonempty (Py.strip line)); simpl; [|by left].
  destruct (Py.startswith "**" (Py.strip line)); [by left|].
  destruct (Py.startswith "*" (Py.strip line)); [by right; left|by right; right].
Qed.

Lemma node_line_fields st ls p0 p1 p2 p3 rest :
  Py.split "," ls = p0 :: p1 :: p2 :: p3 :: rest →
  node_line py_float st ls =
    (nid ← of_option ValueError (Py.int p0);
     x ← of_option ValueError (py_float p1);
     y ← of_option ValueError (py_float p2);
     z ← of_option ValueError (py_float p3);
     Ok (set_nodes (<[nid := (x, y, z)]> (nodes st)) st)).
Proof.
  intros H. unfold node_line. rewrite H.
  rewrite bool_decide_true by (simpl; lia).
  rewrite (index_nat _ 0), (index_nat _ 1), (index_nat _ 2), (index_nat _ 3)
    by (simpl; lia).
  reflexivity.
Qed.

Lemma node_line_short st ls :
  (length (Py.split "," ls) < 4)%nat → node_line py_float st ls = Ok st.
Proof.
  intros H. unfold node_line. by rewrite bool_decide_false by lia.
Qed.

Lemma element_line_fields st ls p0 rest :
  Py.split "," ls = p0 :: rest → (8 ≤ length rest)%nat →
  element_line st ls =
    (eid ← of_option ValueError (Py.int p0);
     conn ← of_option ValueError (mapM Py.int (take 8 rest));
     Ok (set_elements (<[eid := conn]> (elements st)) st)).
Proof.
  intros H Hlen. unfold element_line. rewrite H.
  rewrite bool_decide_true by (simpl; lia).
  rewrite (index_nat _ 0) by (simpl; lia). reflexivity.
Qed.

Lemma element_line_short st ls :
  (length (Py.split "," ls) < 9)%nat → element_line st ls = Ok st.
Proof.
  intros H. unfold element_line. by rewrite bool_decide_false by lia.
Qed.

(** *** What the three named-collection blocks change *)

Lemma nset_line_effect st ls st' :
  nset_line st ls = Ok st' →
  ∃ v, st' = set_nsets v st ∧
       ∀ n, is_Some (od_get n (nsets st)) → is_Some (od_get n v).
Proof.
  unfold nset_line. intros H.
  destruct (current_nset_name st) as [name|];
    [destruct (is_data ls)|]; try (injection H as <-; exists (nsets st); by destruct st).
  apply bind_ok_inv in H as (ids & _ & H).
  apply bind_ok_inv in H as (old & _ & H). injection H as <-.
  eexists. split; [done|]. intros n. apply od_get_set_is_Some.
Qed.

Lemma elset_line_effect st ls st' :
  elset_line st ls = Ok st' →
  ∃ v, st' = set_elsets v st ∧
       ∀ n, is_Some (od_get n (elsets st)) → is_Some (od_get n v).
Proof.
  unfold elset_line. intros H.
  destruct (current_elset_name st) as [name|];
    [destruct (is_data ls)|]; try (injection H as <-; exists (elsets st); by destruct st).
  apply bind_ok_inv in H as (ids & _ & H).
  apply bind_ok_inv in H as (old & _ & H). injection H as <-.
  eexists. split; [done|]. intros n. apply od_get_set_is_Some.
Qed.

Lemma surf_line_effect st ls st' :
  surf_line st ls = Ok st' →
  ∃ v, st' = set_surfaces v st ∧
       ∀ n, is_Some (od_get n (surfaces st)) → is_Some (od_get n v).
Proof.
  unfold surf_line. intros H.
  destruct (current_surf_name st) as [name|];
    [destruct (is_data ls)|]; try (injection H as <-; exists (surfaces st); by destruct st).
  destruct (Py.split "," ls) as [|id [|surf [|? ?]]]; try done.
  apply bind_ok_inv in H as (old & _ & H).
  apply bind_ok_inv in H as (i & _ & H). injection H as <-.
  eexists. split; [done|]. intros n. apply od_get_set_is_Some.
Qed.

Lemma named_lines_effect st ls st' :
  (st2 ← nset_line st ls; st3 ← elset_line st2 ls; surf_line st3 ls) = Ok st' →
  nodes st' = nodes st ∧ elements st' = elements st ∧
  reading_nodes st' = reading_nodes st ∧ reading_elements st' = reading_elements st ∧
  same_named st st'.
Proof.
  intros H. apply bind_ok_inv in H as (st2 & H2 & H).
  apply bind_ok_inv in H as (st3 & H3 & H4).
  apply nset_line_effect in H2 as (v2 & -> & Hv2).
  apply elset_line_effect in H3 as (v3 & -> & Hv3).
  apply surf_line_effect in H4 as (v4 & -> & Hv4).
  unfold same_named. simpl. repeat split; auto.
Qed.

Lemma named_lines_inactive st ls :
  current_nset_name st = None → current_elset_name st = None →
  current_surf_name st = None →
  (st2 ← nset_line st ls; st3 ← elset_line st2 ls; surf_line st3 ls) = Ok st.
Proof.
  intros Hn He Hs. unfold nset_line. rewrite Hn. simpl.
  unfold elset_line. rewrite He. simpl. unfold surf_line. by rewrite Hs.
Qed.

Lemma section_line_effect st ls st' :
  section_line py_float st ls = Ok st' →
  (∃ v, st' = set_nodes v st) ∨ (∃ v, st' = set_elements v st).
Proof.
  unfold section_line, node_line, element_line. intros H.
  destruct (reading_nodes st); [|destruct (reading_elements st)].
  - left. case_bool_decide; [|injection H as <-; exists (nodes st); by destruct st].
    apply bind_ok_inv in H as (nid & _ & H). apply bind_ok_inv in H as (x & _ & H).
    apply bind_ok_inv in H as (y & _ & H). apply bind_ok_inv in H as (z & _ & H).
    injection H as <-. by eexists.
  - right. case_bool_decide; [|injection H as <-; exists (elements st); by destruct st].
    apply bind_ok_inv in H as (eid & _ & H). apply bind_ok_inv in H as (conn & _ & H).
    injection H as <-. by eexists.
  - left. injection H as <-. exists (nodes st). by destruct st.
Qed.

Lemma section_line_same_named st ls st' :
  section_line py_float st ls = Ok st' → same_named st st'.
Proof.
  intros H. apply section_line_effect in H as [[v ->]|[v ->]];
    unfold same_named; simpl; repeat split; auto.
Qed.

Lemma same_named_trans st1 st2 st3 :
  same_named st1 st2 → same_named st2 st3 → same_named st1 st3.
Proof.
  unfold same_named. intros (A1 & A2 & A3 & A4 & A5 & A6) (B1 & B2 & B3 & B4 & B5 & B6).
  repeat split; try congruence; auto.
Qed.

Lemma process_data_same_named st line st' :
  is_data (Py.strip line) = true →
  process_line py_float st line = Ok st' → same_named st st'.
Proof.
  intros Hd H. rewrite process_line_data in H by done.
  apply bind_ok_inv in H as (st1 & H1 & H).
  apply section_line_same_named in H1.
  apply named_lines_effect in H as (_ & _ & _ & _ & H).
  by eapply same_named_trans.
Qed.

Lemma process_line_section st line st1 :
  is_data (Py.strip line) = true →
  section_line py_float st (Py.strip line) = Ok st1 →
  process_line py_float st line =
    (st2 ← nset_line st1 (Py.strip line);
     st3 ← elset_line st2 (Py.strip line);
     surf_line st3 (Py.strip line)) ∧
  (∀ st', process_line py_float st line = Ok st' →
          nodes st' = nodes st1 ∧ elements st' = elements st1) ∧
  (current_nset_name st = None → current_elset_name st = None →
   current_surf_name st = None → process_line py_float st line = Ok st1).
Proof.
  intros Hd H1. rewrite process_line_data, H1 by done.
  split; [done|]. split.
  - intros st' H. apply named_lines_effect in H as (Hn & He & _). done.
  - intros Hn He Hs. apply section_line_same_named in H1 as (A1 & A2 & A3 & _).
    apply named_lines_inactive; congruence.
Qed.

(** The node block. While the Nodes section is active, a data line with at
    least 4 comma fields whose first field is an integer and whose next
    three are floats stores, under that integer, the three floats (whatever
    fields follow); a data line with fewer than 4 comma fields stores nothing
    and the node block does not raise. The named-collection blocks run
    afterwards, on the same line: they leave [nodes] alone, and when no
    named collection is active the line does nothing else. *)
Lemma node_line_records st line :
  reading_nodes st = true → is_data (Py.strip line) = true →
  (∀ p0 p1 p2 p3 rest nid x y z,
     Py.split "," (Py.strip line) = p0 :: p1 :: p2 :: p3 :: rest →
     Py.int p0 = Some nid → py_float p1 = Some x →
     py_float p2 = Some y → py_float p3 = Some z →
     node_line py_float st (Py.strip line) =
       Ok (set_nodes (<[nid := (x, y, z)]> (nodes st)) st) ∧
     process_line py_float st line =
       (st2 ← nset_line (set_nodes (<[nid := (x, y, z)]> (nodes st)) st) (Py.strip line);
        st3 ← elset_line st2 (Py.strip line);
        surf_line st3 (Py.strip line)) ∧
     (∀ st', process_line py_float st line = Ok st' →
             nodes st' = <[nid := (x, y, z)]> (nodes st)) ∧
     (current_nset_name st = None → current_elset_name st = None →
      current_surf_name st = None →
      process_line py_float st line =
        Ok (set_nodes (<[nid := (x, y, z)]> (nodes st)) st))) ∧
  ((length (Py.split "," (Py.strip line)) < 4)%nat →
     node_line py_float st (Py.strip line) = Ok st ∧
     (∀ st', process_line py_float st line = Ok st' → nodes st' = nodes st) ∧
     (current_nset_name st = None → current_elset_name st = None →
      current_surf_name st = None → process_line py_float st line = Ok st)).
Proof.
  intros Hrn Hd. split.
  - intros p0 p1 p2 p3 rest nid x y z Hsplit H0 H1 H2 H3.
    assert (node_line py_float st (Py.strip line) =
            Ok (set_nodes (<[nid := (x, y, z)]> (nodes st)) st)) as Hnode.
    { rewrite (node_line_fields _ _ _ _ _ _ _ Hsplit), H0, H1, H2, H3. done. }
    split; [done|].
    destruct (process_line_section st line
                (set_nodes (<[nid := (x, y, z)]> (nodes st)) st) Hd)
      as (Hp & Hnodes & Hidle).
    { unfold section_line. rewrite Hrn. exact Hnode. }
    split; [done|]. split; [|done].
    intros st' H. by apply Hnodes in H as [-> _].
  - intros Hlen. pose proof (node_line_short st _ Hlen) as Hnode.
    split; [done|].
    destruct (process_line_section st line st Hd) as (Hp & Hnodes & Hidle).
    { unfold section_line. by rewrite Hrn. }
    split; [|done]. intros st' H. by apply Hnodes in H as [-> _].
Qed.

(** The element block. In [main_Convert.py], while the Elements section is
    active, a data line with at least 9 comma fields whose first 9 fields
    are integers stores, under the first, the list of the next 8 (whatever
    fields follow); a data line with fewer than 9 comma fields stores nothing
    and the element block does not raise. In [Untitled-1.py] the threshold
    is 2 fields and every field after the first goes into the
    connectivity. *)
Lemma element_line_records st line :
  reading_nodes st = false → reading_elements st = true →
  is_data (Py.strip line) = true →
  (∀ p0 fs rest eid conn,
     Py.split "," (Py.strip line) = p0 :: fs ++ rest → length fs = 8%nat →
     Py.int p0 = Some eid → mapM Py.int fs = Some conn →
     length conn = 8%nat ∧
     element_line st (Py.strip line) =
       Ok (set_elements (<[eid := conn]> (elements st)) st) ∧
     (∀ st', process_line py_float st line = Ok st' →
             elements st' = <[eid := conn]> (elements st)) ∧
     (current_nset_name st = None → current_elset_name st = None →
      current_surf_name st = None →
      process_line py_float st line =
        Ok (set_elements (<[eid := conn]> (elements st)) st))) ∧
  ((length (Py.split "," (Py.strip line)) < 9)%nat →
     element_line st (Py.strip line) = Ok st ∧
     (∀ st', process_line py_float st line = Ok st' → elements st' = elements st) ∧
     (current_nset_name st = None → current_elset_name st = None →
      current_surf_name st = None → process_line py_float st line = Ok st)) ∧
  (∀ p0 rest eid conn,
     Py.split "," (Py.strip line) = p0 :: rest → rest ≠ [] →
     Py.int p0 = Some eid → mapM Py.int rest = Some conn →
     Untitled1.element_line st (Py.strip line) =
       Ok (set_elements (<[eid := conn]> (elements st)) st)).
Proof.
  intros Hrn Hre Hd. split; [|split].
  - intros p0 fs rest eid conn Hsplit Hlen H0 Hconn.
    assert (element_line st (Py.strip line) =
            Ok (set_elements (<[eid := conn]> (elements st)) st)) as Hel.
    { rewrite (element_line_fields _ _ _ _ Hsplit) by (rewrite length_app; lia).
      rewrite <- Hlen, take_app_length, H0, Hconn. done. }
    split; [by rewrite <- (length_mapM _ _ _ Hconn)|]. split; [done|].
    destruct (process_line_section st line
                (set_elements (<[eid := conn]> (elements st)) st) Hd)
      as (Hp & Hels & Hidle).
    { unfold section_line. rewrite Hrn, Hre. exact Hel. }
    split; [|done]. intros st' H. by apply Hels in H as [_ ->].
  - intros Hlen. pose proof (element_line_short st _ Hlen) as Hel.
    split; [done|].
    destruct (process_line_section st line st Hd) as (Hp & Hels & Hidle).
    { unfold section_line. by rewrite Hrn, Hre. }
    split; [|done]. intros st' H. by apply Hels in H as [_ ->].
  - intros p0 rest eid conn Hsplit Hrest H0 Hconn.
    unfold Untitled1.element_line. rewrite Hsplit.
    rewrite bool_decide_true by (destruct rest; [done|simpl; lia]).
    rewrite (index_nat _ 0) by (simpl; lia). simpl.
    rewrite H0. simpl. rewrite drop_0, Hconn. done.
Qed.

(** *** The pointer invariant *)

Lemma truthy_Some (name : option string) :
  truthy name = true → ∃ n, name = Some n ∧ nonempty n = true.
Proof. destruct name as [n|]; [|done]. intros H. by exists n. Qed.

Lemma keyword_count st ls :
  (active_count st ≤ 1)%nat → (active_count (keyword st ls) ≤ 1)%nat.
Proof.
  intros Hc. unfold keyword.
  destruct (Py.startswith "*node" _); [done|].
  destruct (Py.startswith "*element" _); [done|].
  destruct (Py.startswith "*nset" _).
  { destruct (truthy _) eqn:Ht.
    - by apply truthy_Some in Ht as (n & -> & _).
    - revert Hc. unfold active_count. simpl. destruct (current_nset_name st); lia. }
  destruct (Py.startswith "*elset" _).
  { destruct (truthy _) eqn:Ht.
    - by apply truthy_Some in Ht as (n & -> & _).
    - revert Hc. unfold active_count. simpl. destruct (current_elset_name st); lia. }
  destruct (Py.startswith "*surface" _); [|done].
  destruct (truthy _) eqn:Ht; [|done].
  by apply truthy_Some in Ht as (n & -> & _).
Qed.

Lemma keyword_opened st ls : opened st → opened (keyword st ls).
Proof.
  intros (Hn & He & Hs). unfold keyword.
  destruct (Py.startswith "*node" _); [done|].
  destruct (Py.startswith "*element" _); [done|].
  destruct (Py.startswith "*nset" _).
  { destruct (truthy _) eqn:Ht.
    - apply truthy_Some in Ht as (n & -> & _).
      unfold opened. simpl. repeat split; try done.
      intros n' [= <-]. apply od_get_setdefault_eq.
    - unfold opened. simpl. repeat split; done. }
  destruct (Py.startswith "*elset" _).
  { destruct (truthy _) eqn:Ht.
    - apply truthy_Some in Ht as (n & -> & _).
      unfold opened. simpl. repeat split; try done.
      intros n' [= <-]. apply od_get_setdefault_eq.
    - unfold opened. simpl. repeat split; done. }
  destruct (Py.startswith "*surface" _); [|done].
  destruct (truthy _) eqn:Ht; [|done].
  apply truthy_Some in Ht as (n & -> & _).
  unfold opened. simpl. repeat split; try done.
  intros n' [= <-]. apply od_get_setdefault_eq.
Qed.

Lemma keyword_invariant st ls :
  (active_count st ≤ 1)%nat → opened st →
  (active_count (keyword st ls) ≤ 1)%nat ∧ opened (keyword st ls).
Proof. intros Hc Ho. split; [by apply keyword_count|by apply keyword_opened]. Qed.

Lemma same_named_invariant st st' :
  same_named st st' → (active_count st ≤ 1)%nat → opened st →
  (active_count st' ≤ 1)%nat ∧ opened st'.
Proof.
  intros (A1 & A2 & A3 & A4 & A5 & A6) Hc (Hn & He & Hs).
  unfold active_count, opened in *. rewrite A1, A2, A3. split; [done|].
  repeat split; intros n Hn'; auto.
Qed.

Lemma process_line_invariant st line st' :
  process_line py_float st line = Ok st' →
  (active_count st ≤ 1)%nat → opened st →
  (active_count st' ≤ 1)%nat ∧ opened st'.
Proof.
  intros H Hc Ho.
  destruct (process_line_cases st line) as [E|[E|Hd]].
  - rewrite E in H. by injection H as <-.
  - rewrite E in H. injection H as <-. by apply keyword_invariant.
  - eapply same_named_invariant; [|done..]. by eapply process_data_same_named.
Qed.

Lemma parse_lines_invariant lines st st' :
  parse_lines py_float st lines = Ok st' →
  (active_count st ≤ 1)%nat → opened st →
  (active_count st' ≤ 1)%nat ∧ opened st'.
Proof.
  revert st. induction lines as [|line lines IH]; intros st H Hc Ho.
  - by injection H as <-.
  - simpl in H. apply bind_ok_inv in H as (st1 & H1 & H).
    destruct (process_line_invariant _ _ _ H1 Hc Ho). by eapply IH.
Qed.

Lemma parse_inp_invariant lines st :
  parse_inp py_float lines = Ok st → (active_count st ≤ 1)%nat ∧ opened st.
Proof.
  intros H. eapply parse_lines_invariant; [exact H|cbv; lia|].
  unfold opened. simpl. repeat split; done.
Qed.

Lemma parse_lines_app st l1 l2 :
  parse_lines py_float st (l1 ++ l2) =
    (st' ← parse_lines py_float st l1; parse_lines py_float st' l2).
Proof.
  revert st. induction l1 as [|x l1 IH]; intros st; [done|].
  simpl. destruct (process_line py_float st x); [apply IH|done].
Qed.

(** C8. After any number of input lines at most one of the three pointers
    (current node set, current element set, current surface) is set; a
    directive that sets one of them resets the other two, no other line
    raises the count, and data lines move no pointer. ([lines] ranges over
    every prefix of an input.) *)
Theorem C8_at_most_one_active :
  (∀ lines st, parse_inp py_float lines = Ok st → (active_count st ≤ 1)%nat) ∧
  (∀ st line st',
     (active_count st ≤ 1)%nat → process_line py_float st line = Ok st' →
     (active_count st' ≤ 1)%nat) ∧
  (∀ st ls n,
     Py.startswith "*nset" (Py.lower ls) = true →
     attr_name "nset=" (Py.lower ls) = Some n → nonempty n = true →
     current_nset_name (keyword st ls) = Some n ∧
     current_elset_name (keyword st ls) = None ∧
     current_surf_name (keyword st ls) = None) ∧
  (∀ st ls n,
     Py.startswith "*elset" (Py.lower ls) = true →
     attr_name "elset=" (Py.lower ls) = Some n → nonempty n = true →
     current_elset_name (keyword st ls) = Some n ∧
     current_nset_name (keyword st ls) = None ∧
     current_surf_name (keyword st ls) = None) ∧
  (∀ st ls n,
     Py.startswith "*surface" (Py.lower ls) = true →
     attr_name "name=" (Py.lower ls) = Some n → nonempty n = true →
     current_surf_name (keyword st ls) = Some n ∧
     current_nset_name (keyword st ls) = None ∧
     current_elset_name (keyword st ls) = None) ∧
  (∀ st line st',
     is_data (Py.strip line) = true → process_line py_float st line = Ok st' →
     current_nset_name st' = current_nset_name st ∧
     current_elset_name st' = current_elset_name st ∧
     current_surf_name st' = current_surf_name st).
Proof.
  split; [|split; [|split; [|split; [|split]]]].
  - intros lines st H. by apply parse_inp_invariant in H as [H _].
  - intros st line st' Hc H.
    destruct (process_line_cases st line) as [E|[E|Hd]].
    + rewrite E in H. by injection H as <-.
    + rewrite E in H. injection H as <-. by apply keyword_count.
    + apply (process_data_same_named st line st' Hd) in H as (A1 & A2 & A3 & _).
      unfold active_count. by rewrite A1, A2, A3.
  - intros st ls n Hk Hname Hne. rewrite (keyword_nset st ls Hk). simpl.
    rewrite Hname. simpl. by rewrite Hne.
  - intros st ls n Hk Hname Hne. rewrite (keyword_elset st ls Hk). simpl.
    rewrite Hname. simpl. by rewrite Hne.
  - intros st ls n Hk Hname Hne. rewrite (keyword_surface st ls Hk). simpl.
    rewrite Hname. simpl. by rewrite Hne.
  - intros st line st' Hd H.
    by apply (process_data_same_named st line st' Hd) in H as (A1 & A2 & A3 & _).
Qed.

(** *** Keyword lines are not comment lines *)

Lemma lower_char_star (c : ascii) : Py.lower_char c = "*"%char → c = "*"%char.
Proof. destruct c as [[] [] [] [] [] [] [] []]; by vm_compute. Qed.

Lemma keyword_not_comment (c : ascii) (p ls : string) :
  c ≠ "*"%char →
  Py.startswith (String "*" (String c p)) (Py.lower ls) = true →
  Py.startswith "*" ls = true ∧ Py.startswith "**" ls = false.
Proof.
  unfold Py.startswith. intros Hc H.
  apply prefix_cons_inv in H as (s1 & E1 & H).
  apply prefix_cons_inv in H as (s2 & E2 & H). subst s1.
  destruct ls as [|c1 [|c2 ls]]; try done.
  injection E1 as E1 E2 E3. apply lower_char_star in E1 as ->.
  split; [by destruct ls|].
  change (String.prefix "**" (String "*" (String c2 ls)))
    with (if ascii_dec "*" c2 then String.prefix "" ls else false).
  destruct (ascii_dec "*" c2) as [<-|]; [|done].
  by vm_compute in E2.
Qed.

Lemma process_line_directive st line (c : ascii) (p : string) :
  c ≠ "*"%char →
  Py.startswith (String "*" (String c p)) (Py.lower (Py.strip line)) = true →
  process_line py_float st line = Ok (keyword st (Py.strip line)).
Proof.
  intros Hc H. destruct (keyword_not_comment c p _ Hc H).
  by apply process_line_keyword.
Qed.

(** *** A facet line *)

Lemma surf_line_pair st ls name old id_s face :
  current_surf_name st = Some name → is_data ls = true →
  od_get name (surfaces st) = Some old →
  Py.split "," ls = [id_s; face] →
  surf_line st ls =
    (i ← of_option ValueError (Py.int id_s);
     Ok (set_surfaces (od_set name (old ++ [(i, face)]) (surfaces st)) st)).
Proof.
  intros Hs Hd Hold Hsplit. unfold surf_line. by rewrite Hs, Hd, Hsplit, Hold.
Qed.

Lemma surf_line_unpack st ls name :
  current_surf_name st = Some name → is_data ls = true →
  length (Py.split "," ls) ≠ 2%nat →
  surf_line st ls = Raise ValueError.
Proof.
  intros Hs Hd Hlen. unfold surf_line. rewrite Hs, Hd.
  by destruct (Py.split "," ls) as [|? [|? [|? ?]]].
Qed.

Lemma section_line_pair st ls :
  length (Py.split "," ls) = 2%nat → section_line py_float st ls = Ok st.
Proof.
  intros Hlen. unfold section_line.
  rewrite node_line_short, element_line_short by lia.
  by destruct (reading_nodes st), (reading_elements st).
Qed.

Lemma process_line_facet st line name old id_s face :
  current_surf_name st = Some name →
  current_nset_name st = None → current_elset_name st = None →
  is_data (Py.strip line) = true →
  od_get name (surfaces st) = Some old →
  Py.split "," (Py.strip line) = [id_s; face] →
  process_line py_float st line =
    (i ← of_option ValueError (Py.int id_s);
     Ok (set_surfaces (od_set name (old ++ [(i, face)]) (surfaces st)) st)).
Proof.
  intros Hs Hn He Hd Hold Hsplit. rewrite process_line_data by done.
  rewrite section_line_pair by (by rewrite Hsplit). simpl.
  unfold nset_line. rewrite Hn. simpl. unfold elset_line. rewrite He. simpl.
  by eapply surf_line_pair.
Qed.

(** C10. A [*surface] line without a usable [name=] leaves the three
    pointers as they were (only the section flags are dropped), so the next
    facet line still goes to the surface opened before; a [*nset] (or
    [*elset]) line without a usable name resets the node-set (or
    element-set) pointer. *)
Theorem C10_unnamed_directives :
  (∀ st ls,
     Py.startswith "*surface" (Py.lower ls) = true →
     truthy (attr_name "name=" (Py.lower ls)) = false →
     keyword st ls = set_reading false false st ∧
     current_surf_name (keyword st ls) = current_surf_name st) ∧
  (∀ st ls,
     Py.startswith "*nset" (Py.lower ls) = true →
     truthy (attr_name "nset=" (Py.lower ls)) = false →
     keyword st ls =
       set_current (current_elset_name st) None (current_surf_name st)
         (set_reading false false st) ∧
     current_nset_name (keyword st ls) = None) ∧
  (∀ st ls,
     Py.startswith "*elset" (Py.lower ls) = true →
     truthy (attr_name "elset=" (Py.lower ls)) = false →
     keyword st ls =
       set_current None (current_nset_name st) (current_surf_name st)
         (set_reading false false st) ∧
     current_elset_name (keyword st ls) = None) ∧
  (∀ st dline line name old id_s face i,
     Py.startswith "*surface" (Py.lower (Py.strip dline)) = true →
     truthy (attr_name "name=" (Py.lower (Py.strip dline))) = false →
     current_surf_name st = Some name →
     current_nset_name st = None → current_elset_name st = None →
     od_get name (surfaces st) = Some old →
     is_data (Py.strip line) = true →
     Py.split "," (Py.strip line) = [id_s; face] → Py.int id_s = Some i →
     parse_lines py_float st [dline; line] =
       Ok (set_surfaces (od_set name (old ++ [(i, face)]) (surfaces st))
             (set_reading false false st))).
Proof.
  split; [|split; [|split]].
  - intros st ls Hk Ht. rewrite (keyword_surface st ls Hk). simpl. by rewrite Ht.
  - intros st ls Hk Ht. rewrite (keyword_nset st ls Hk). simpl. by rewrite Ht.
  - intros st ls Hk Ht. rewrite (keyword_elset st ls Hk). simpl. by rewrite Ht.
  - intros st dline line name old id_s face i Hk Ht Hs Hn He Hold Hd Hsplit Hi.
    simpl. rewrite (process_line_directive st dline "s" "urface") by done.
    simpl. rewrite (keyword_surface st _ Hk). simpl. rewrite Ht.
    rewrite (process_line_facet _ line name old id_s face) by done.
    by rewrite Hi.
Qed.

(** *** Only [ValueError] comes out of the section block *)

Lemma node_line_raise st ls e :
  node_line py_float st ls = Raise e → e = ValueError.
Proof.
  destruct (Py.split "," ls) as [|p0 [|p1 [|p2 [|p3 rest]]]] eqn:E;
    try (rewrite node_line_short by (rewrite E; simpl; lia); done).
  rewrite (node_line_fields _ _ _ _ _ _ _ E).
  destruct (Py.int p0), (py_float p1), (py_float p2), (py_float p3);
    simpl; congruence.
Qed.

Lemma element_line_raise st ls e :
  element_line st ls = Raise e → e = ValueError.
Proof.
  destruct (decide (length (Py.split "," ls) < 9)%nat) as [Hlt|Hge].
  - by rewrite element_line_short.
  - destruct (Py.split "," ls) as [|p0 rest] eqn:E; [simpl in Hge; lia|].
    rewrite (element_line_fields _ _ _ _ E) by (simpl in Hge; lia).
    destruct (Py.int p0), (mapM Py.int (take 8 rest)); simpl; congruence.
Qed.

Lemma section_line_raise st ls e :
  section_line py_float st ls = Raise e → e = ValueError.
Proof.
  unfold section_line.
  destruct (reading_nodes st); [apply node_line_raise|].
  destruct (reading_elements st); [apply element_line_raise|done].
Qed.

(** C5. While a surface is active, a data line that splits on commas into
    exactly two tokens, the first an integer, appends the pair (integer,
    second token) to that surface's list and does nothing else; with two
    tokens the first of which is no integer the line raises [ValueError];
    with any other number of tokens the unpacking in the surface block
    raises [ValueError] and so does the line. A line that raises ends the
    whole run: no output file is opened. *)
Theorem C5_surface_line pre st name line :
  parse_inp py_float pre = Ok st → current_surf_name st = Some name →
  is_data (Py.strip line) = true →
  ∃ old, od_get name (surfaces st) = Some old ∧
    (∀ id_s face i,
       Py.split "," (Py.strip line) = [id_s; face] → Py.int id_s = Some i →
       process_line py_float st line =
         Ok (set_surfaces (od_set name (old ++ [(i, face)]) (surfaces st)) st)) ∧
    (∀ id_s face,
       Py.split "," (Py.strip line) = [id_s; face] → Py.int id_s = None →
       process_line py_float st line = Raise ValueError) ∧
    (length (Py.split "," (Py.strip line)) ≠ 2%nat →
       surf_line st (Py.strip line) = Raise ValueError ∧
       process_line py_float st line = Raise ValueError) ∧
    (process_line py_float st line = Raise ValueError →
       ∀ (fmt_g : float → string) rest,
         main fmt_g py_float (pre ++ line :: rest) = (None, Raise ValueError)).
Proof.
  intros Hpre Hs Hd.
  destruct (parse_inp_invariant _ _ Hpre) as (Hc & _ & _ & Hopen).
  destruct (Hopen name Hs) as [old Hold]. exists old. split; [done|].
  assert (current_nset_name st = None ∧ current_elset_name st = None) as [Hn He].
  { revert Hc. unfold active_count. rewrite Hs.
    destruct (current_nset_name st), (current_elset_name st); simpl; (done || lia). }
  split; [|split; [|split]].
  - intros id_s face i Hsplit Hi.
    rewrite (process_line_facet st line name old id_s face) by done.
    by rewrite Hi.
  - intros id_s face Hsplit Hi.
    rewrite (process_line_facet st line name old id_s face) by done.
    by rewrite Hi.
  - intros Hlen. split; [by apply (surf_line_unpack st _ name)|].
    rewrite process_line_data by done.
    destruct (section_line py_float st (Py.strip line)) as [st1|e] eqn:E.
    + apply section_line_same_named in E as (A1 & A2 & A3 & _). simpl.
      unfold nset_line. rewrite A1, Hn. simpl.
      unfold elset_line. rewrite A2, He. simpl.
      apply (surf_line_unpack st1 _ name); [congruence|done..].
    + by apply section_line_raise in E as ->.
  - intros Hraise fmt_g rest. unfold main, parse_inp.
    unfold parse_inp in Hpre. rewrite parse_lines_app, Hpre. simpl.
    by rewrite Hraise.
Qed.

(** *** Members of an active set *)

Lemma split_ws_nonempty (s : string) :
  Forall (λ x, nonempty x = true) (Py.split_ws s).
Proof.
  induction s as [|c s IH]; [constructor|]. simpl.
  destruct (Py.is_space c); [done|].
  destruct s as [|c' s']; [by repeat constructor|].
  destruct (Py.is_space c'); [by constructor|].
  destruct (Py.split_ws (String c' s')) as [|h t]; [by repeat constructor|].
  apply Forall_cons in IH as [_ IH]. by constructor.
Qed.

Lemma filter_nonempty_split_ws (s : string) :
  filter (λ x, nonempty x = true) (Py.split_ws s) = Py.split_ws s.
Proof.
  induction (split_ws_nonempty s) as [|x l Hx Hl IH]; [done|].
  by rewrite filter_cons_True, IH.
Qed.






End ReaderFacts.

(** ** The properties on concrete inputs *)

Lemma node_line_records_example :
  process_line Dec.of_string (set_reading true false init_state)
      " 7, 0.5, 1.0, -2.5, 99 " =
    Ok (set_nodes
          {[ 7 := (Dec.Make false 5 1, Dec.Make false 10 1, Dec.Make true 25 1) ]}
          (set_reading true false init_state)) ∧
  process_line Dec.of_string (set_reading true false init_state) "7, 0.5, 1.0" =
    Ok (set_reading true false init_state).
Proof.
  destruct (node_line_records Dec.of_string (set_reading true false init_state)
              " 7, 0.5, 1.0, -2.5, 99 " eq_refl eq_refl) as [Hlong _].
  destruct (node_line_records Dec.of_string (set_reading true false init_state)
              "7, 0.5, 1.0" eq_refl eq_refl) as [_ Hshort].
  split.
  - destruct (Hlong "7" " 0.5" " 1.0" " -2.5" [" 99"] 7
                (Dec.Make false 5 1) (Dec.Make false 10 1) (Dec.Make true 25 1)
                eq_refl eq_refl eq_refl eq_refl eq_refl) as (_ & _ & _ & H).
    exact (H eq_refl eq_refl eq_refl).
  - destruct Hshort as (_ & _ & H); [vm_compute; lia|].
    exact (H eq_refl eq_refl eq_refl).
Defined.

Lemma element_line_records_example :
  process_line Dec.of_string (set_reading false true init_state)
      "1, 11, 12, 13, 14, 15, 16, 17, 18, 19" =
    Ok (set_elements {[ 1 := [11; 12; 13; 14; 15; 16; 17; 18] ]}
          (set_reading false true init_state)) ∧
  process_line Dec.of_string (set_reading false true init_state)
      "1, 11, 12, 13" = Ok (set_reading false true init_state) ∧
  Untitled1.element_line (set_reading false true (@init_state Dec.t))
      "1, 11, 12, 13, 14, 15, 16, 17, 18, 19" =
    Ok (set_elements {[ 1 := [11; 12; 13; 14; 15; 16; 17; 18; 19] ]}
          (set_reading false true init_state)).
Proof.
  destruct (element_line_records Dec.of_string (set_reading false true init_state)
              "1, 11, 12, 13, 14, 15, 16, 17, 18, 19" eq_refl eq_refl eq_refl)
    as (Hlong & _ & Hu1).
  destruct (element_line_records Dec.of_string (set_reading false true init_state)
              "1, 11, 12, 13" eq_refl eq_refl eq_refl) as (_ & Hshort & _).
  split; [|split].
  - destruct (Hlong "1" [" 11"; " 12"; " 13"; " 14"; " 15"; " 16"; " 17"; " 18"]
                [" 19"] 1 [11; 12; 13; 14; 15; 16; 17; 18]
                eq_refl eq_refl eq_refl eq_refl) as (_ & _ & _ & H).
    exact (H eq_refl eq_refl eq_refl).
  - destruct Hshort as (_ & _ & H); [vm_compute; lia|].
    exact (H eq_refl eq_refl eq_refl).
  - apply (Hu1 "1" [" 11"; " 12"; " 13"; " 14"; " 15"; " 16"; " 17"; " 18"; " 19"]
             1 [11; 12; 13; 14; 15; 16; 17; 18; 19]); done.
Defined.

(** The 9-field rule does not hold of the reader of [Untitled-1.py]: a line
    of 4 comma fields records an element (of 3 node references), and a line
    of 10 fields records 9 node references. Nor does it hold of
    [main_Convert.py] on every element line: with a surface still current
    when [*Element] is read, a line of 9 integers raises, and so does a line
    of fewer than 9 fields. *)
Lemma C2_element_lines_against_the_rule :
  (length (Py.split "," "5, 1, 2, 3") < 9)%nat ∧
  (∃ st, Untitled1.parse_inp Dec.of_string ["*Element, type=C3D4"; "5, 1, 2, 3"]
           = Ok st ∧ elements st !! 5 = Some [1; 2; 3]) ∧
  (∃ st, Untitled1.parse_inp Dec.of_string
           ["*Element, type=C3D8R"; "1, 11, 12, 13, 14, 15, 16, 17, 18, 19"]
           = Ok st ∧
         elements st !! 1 = Some [11; 12; 13; 14; 15; 16; 17; 18; 19]) ∧
  parse_inp Dec.of_string
    ["*Surface, name=A"; "*Element, type=C3D8R"; "1,1,2,3,4,5,6,7,8"] =
    Raise ValueError ∧
  parse_inp Dec.of_string
    ["*Surface, name=A"; "*Element, type=C3D8R"; "1,2,3"] = Raise ValueError.
Proof.
  split; [vm_compute; lia|].
  split; [eexists; split; reflexivity|].
  split; [eexists; split; reflexivity|].
  split; reflexivity.
Qed.

Lemma C5_surface_line_witness :
  process_line Dec.of_string
      (set_current None None (Some "FACEK1A")
         (set_surfaces [("FACEK1A", [])] init_state)) "1,S1" =
    Ok (set_current None None (Some "FACEK1A")
          (set_surfaces [("FACEK1A", [(1, "S1")])] init_state)) ∧
  process_line Dec.of_string
      (set_current None None (Some "FACEK1A")
         (set_surfaces [("FACEK1A", [])] init_state)) "1,S1,S2" =
    Raise ValueError ∧
  main Dec.to_string Dec.of_string
      ["*Surface, type=ELEMENT, name=FaceK1A"; "1,S1,S2"; "2,S1"] =
    (None, Raise ValueError).
Proof.
  destruct (C5_surface_line Dec.of_string
              ["*Surface, type=ELEMENT, name=FaceK1A"]
              (set_current None None (Some "FACEK1A")
                 (set_surfaces [("FACEK1A", [])] init_state))
              "FACEK1A" "1,S1" eq_refl eq_refl eq_refl)
    as (old & Hold & Hpair & _).
  destruct (C5_surface_line Dec.of_string
              ["*Surface, type=ELEMENT, name=FaceK1A"]
              (set_current None None (Some "FACEK1A")
                 (set_surfaces [("FACEK1A", [])] init_state))
              "FACEK1A" "1,S1,S2" eq_refl eq_refl eq_refl)
    as (old' & _ & _ & _ & Hbad & Hmain).
  injection Hold as <-.
  split; [|split].
  - exact (Hpair "1" "S1" 1 eq_refl eq_refl).
  - apply Hbad. vm_compute. lia.
  - apply (Hmain (proj2 (Hbad ltac:(vm_compute; lia))) Dec.to_string ["2,S1"]).
Defined.

Lemma C8_at_most_one_active_witness :
  (active_count
     (set_current None None (Some "C")
        (set_surfaces [("C", [])]
           (set_elsets [("B", [])]
              (set_nsets [("A", [1; 2]%Z)] (@init_state Dec.t))))) ≤ 1)%nat ∧
  current_nset_name
    (keyword (set_current (Some "B") None (Some "C") (@init_state Dec.t))
       "*Nset, nset=K1A, generate") = Some "K1A" ∧
  current_elset_name
    (keyword (set_current (Some "B") None (Some "C") (@init_state Dec.t))
       "*Nset, nset=K1A, generate") = None ∧
  current_surf_name
    (keyword (set_current (Some "B") None (Some "C") (@init_state Dec.t))
       "*Nset, nset=K1A, generate") = None.
Proof.
  destruct (C8_at_most_one_active Dec.of_string) as (Hinv & _ & Hnset & _).
  split.
  - apply (Hinv ["*Nset, nset=a"; "1, 2"; "*Elset, elset=b"; "*Surface, name=c"]).
    reflexivity.
  - apply (Hnset (set_current (Some "B") None (Some "C") init_state)
             "*Nset, nset=K1A, generate" "K1A"); reflexivity.
Defined.


Lemma C10_unnamed_directives_witness :
  parse_lines Dec.of_string
      (set_current None None (Some "A") (set_surfaces [("A", [])] init_state))
      ["*Surface, type=ELEMENT"; "1,S1"] =
    Ok (set_current None None (Some "A")
          (set_surfaces [("A", [(1, "S1")])] init_state)) ∧
  current_nset_name
    (keyword (set_current None (Some "A") None
                (set_nsets [("A", [])] (@init_state Dec.t))) "*Nset, generate")
    = None.
Proof.
  destruct (C10_unnamed_directives Dec.of_string) as (_ & Hnset & _ & Hsurf).
  split.
  - apply (Hsurf (set_current None None (Some "A")
                    (set_surfaces [("A", [])] init_state))
             "*Surface, type=ELEMENT" "1,S1" "A" [] "1" "S1" 1); reflexivity.
  - apply (Hnset (set_current None (Some "A") None
                    (set_nsets [("A", [])] init_state)) "*Nset, generate");
      reflexivity.
Defined.

(** The unit cube: 8 nodes, 1 element, a node set, an element set and a
    surface, through the whole pipeline. *)
Example main_unit_cube :
  main Dec.to_string Dec.of_string
    ["*Heading"; "** unit cube"; "*Node";
     "1, 0.0, 0.0, 0.0"; "2, 1.0, 0.0, 0.0"; "3, 1.0, 1.0, 0.0"; "4, 0.0, 1.0, 0.0";
     "5, 0.0, 0.0, 1.0"; "6, 1.0, 0.0, 1.0"; "7, 1.0, 1.0, 1.0"; "8, 0.0, 1.0, 1.0";
     "*Element, type=C3D8R"; "1, 1, 2, 3, 4, 5, 6, 7, 8";
     "*Nset, nset=K1A"; "1, 2, 3, 4, 5, 6, 7, 8";
     "*Elset, elset=Fluid1"; "1,";
     "*Surface, type=ELEMENT, name=FaceK1A"; "1,S1"]
  = (Some (unlines
       ["*DUALCESE_NODE3D";
        "1, 0, 0, 0, 0, 0"; "2, 1, 0, 0, 0, 0"; "3, 1, 1, 0, 0, 0"; "4, 0, 1, 0, 0, 0";
        "5, 0, 0, 1, 0, 0"; "6, 1, 0, 1, 0, 0"; "7, 1, 1, 1, 0, 0"; "8, 0, 1, 1, 0, 0";
        "*DUALCESE_ELE3D"; "1, 1, 1, 2, 3, 4, 5, 6, 7, 8";
        "$ Node set: K1A"; "*DUALCESE_NODESET"; "       999"; "1, 2, 3, 4, 5, 6, 7, 8";
        "$ Surface set: FACEK1A"; "*DUALCESE_SEGMENTSET"; "       555";
        "1, 2, 3, 4,0.0,0.0,0.0,0.0";
        "$ Element set: FLUID1"; "*DUALCESE_ELEMENTSET"; "      2222"; "1";
        "*END"]), Ok ()).
Proof. reflexivity. Qed.

(** * Further properties of the writer *)

(** ** The node block *)

(** X1. The node block is the directive line followed by one record per node
    of the model, in ascending node-ID order, each record being the ID, the
    three coordinates under [{:g}] and two literal zeros joined by ", "; the
    block never raises, and for an empty model it is the directive line
    alone. *)
Theorem X1_node_block {float} (fmt_g : float → string)
    (nodes : gmap Z (float * float * float)) :
  write_nodes fmt_g nodes =
    (unlines ("*DUALCESE_NODE3D" :: (node_text fmt_g nodes <$> Py.sorted_keys nodes)),
     Ok ()) ∧
  StronglySorted Z.lt (Py.sorted_keys nodes) ∧
  (∀ nid, nid ∈ Py.sorted_keys nodes ↔ is_Some (nodes !! nid)) ∧
  (∀ nid xyz, nodes !! nid = Some xyz →
     node_text fmt_g nodes nid = node_record fmt_g nid xyz) ∧
  write_nodes fmt_g ∅ = (unlines ["*DUALCESE_NODE3D"], Ok ()).
Proof.
  split; [|split; [|split; [|split]]].
  - unfold write_nodes. rewrite wbind_write.
    rewrite (for_ok _ _ (λ nid, node_text fmt_g nodes nid +:+ Py.nl)).
    + by rewrite unlines_cons, unlines_sconcat, <- list_fmap_compose, sapp_assoc.
    + intros nid Hin. apply elem_of_sorted_keys in Hin as [[[x y] z] Hxyz].
      unfold node_text. rewrite Hxyz. simpl of_option. rewrite wbind_lift_ok.
      unfold write, node_record. simpl. by rewrite ?sapp_assoc.
  - apply sorted_keys_ascending.
  - apply elem_of_sorted_keys.
  - intros nid xyz H. unfold node_text. by rewrite H.
  - reflexivity.
Qed.

(** ** The face-geometry resolver on any connectivity *)

Lemma index_nonneg {A} (l : list A) (i : Z) :
  0 ≤ i → Py.index l i = l !! Z.to_nat i.
Proof.
  intros Hi. unfold Py.index. case_bool_decide as H1; [done|].
  rewrite bool_decide_false by lia. symmetry. apply lookup_ge_None. lia.
Qed.

Lemma get_surface_nodes_lookups (elements : gmap Z (list Z)) elmid conn face
    p1 p2 p3 p4 :
  elements !! elmid = Some conn →
  config.abq_surf_def !! face = Some [p1; p2; p3; p4] →
  1 ≤ p1 → 1 ≤ p2 → 1 ≤ p3 → 1 ≤ p4 →
  get_surface_nodes elements elmid face =
    (n1 ← of_option IndexError (conn !! Z.to_nat (p1 - 1));
     n2 ← of_option IndexError (conn !! Z.to_nat (p2 - 1));
     n3 ← of_option IndexError (conn !! Z.to_nat (p3 - 1));
     n4 ← of_option IndexError (conn !! Z.to_nat (p4 - 1));
     Ok [n1; n2; n3; n4]).
Proof.
  intros Hel Hface H1 H2 H3 H4. unfold get_surface_nodes.
  rewrite Hel, Hface. simpl.
  rewrite !index_nonneg by lia.
  destruct (conn !! Z.to_nat (p1 - 1)); [|done].
  destruct (conn !! Z.to_nat (p2 - 1)); [|done].
  destruct (conn !! Z.to_nat (p3 - 1)); [|done].
  by destruct (conn !! Z.to_nat (p4 - 1)).
Qed.

Lemma surf_def_shape face pos :
  config.abq_surf_def !! face = Some pos →
  ∃ p1 p2 p3 p4, pos = [p1; p2; p3; p4] ∧
    1 ≤ p1 ≤ 8 ∧ 1 ≤ p2 ≤ 8 ∧ 1 ≤ p3 ≤ 8 ∧ 1 ≤ p4 ≤ 8.
Proof.
  intros H. apply surf_def_cases in H.
  repeat (apply elem_of_cons in H as [H|H]).
  all: try (by apply elem_of_nil in H).
  all: injection H as -> ->; do 4 eexists; split; [reflexivity|lia].
Qed.

(** X2. The resolver uses the connectivity only at the positions of the
    face: whatever the length of the connectivity, it succeeds with 4 node
    IDs when every position of the face is within the connectivity, and it
    raises [IndexError] when one is beyond it. Positions are at least 1, so
    no index is negative and nothing wraps around. *)
Theorem X2_get_surface_nodes_bounds (elements : gmap Z (list Z)) elmid conn
    face pos :
  elements !! elmid = Some conn → config.abq_surf_def !! face = Some pos →
  (Forall (λ p, p ≤ Z.of_nat (length conn)) pos →
     ∃ ns, get_surface_nodes elements elmid face = Ok ns ∧ length ns = 4%nat ∧
           ∀ k p, pos !! k = Some p → 1 ≤ p ∧ ns !! k = conn !! Z.to_nat (p - 1)) ∧
  (Exists (λ p, Z.of_nat (length conn) < p) pos →
     get_surface_nodes elements elmid face = Raise IndexError).
Proof.
  intros Hel Hface.
  destruct (surf_def_shape _ _ Hface) as (p1 & p2 & p3 & p4 & -> & B1 & B2 & B3 & B4).
  rewrite (get_surface_nodes_lookups _ _ _ _ _ _ _ _ Hel Hface) by lia.
  split.
  - intros Hall.
    apply Forall_cons in Hall as [L1 Hall]. apply Forall_cons in Hall as [L2 Hall].
    apply Forall_cons in Hall as [L3 Hall]. apply Forall_cons in Hall as [L4 _].
    destruct (lookup_lt_is_Some_2 conn (Z.to_nat (p1 - 1))) as [n1 E1]; [lia|].
    destruct (lookup_lt_is_Some_2 conn (Z.to_nat (p2 - 1))) as [n2 E2]; [lia|].
    destruct (lookup_lt_is_Some_2 conn (Z.to_nat (p3 - 1))) as [n3 E3]; [lia|].
    destruct (lookup_lt_is_Some_2 conn (Z.to_nat (p4 - 1))) as [n4 E4]; [lia|].
    rewrite E1, E2, E3, E4. exists [n1; n2; n3; n4].
    split; [done|]. split; [done|].
    intros [|[|[|[|k]]]] p Hp; simplify_eq/=; (split; [lia|done]).
  - intros Hex.
    assert (∀ p, 1 ≤ p → Z.of_nat (length conn) < p →
                 conn !! Z.to_nat (p - 1) = None) as Hnone.
    { intros p Hp Hlt. apply lookup_ge_None. lia. }
    destruct (conn !! Z.to_nat (p1 - 1)) as [n1|] eqn:E1; [|done].
    destruct (conn !! Z.to_nat (p2 - 1)) as [n2|] eqn:E2; [|done].
    destruct (conn !! Z.to_nat (p3 - 1)) as [n3|] eqn:E3; [|done].
    destruct (conn !! Z.to_nat (p4 - 1)) as [n4|] eqn:E4; [|done].
    repeat (apply Exists_cons in Hex as [Hex|Hex]);
      try (by apply Exists_nil in Hex);
      rewrite Hnone in * by lia; done.
Qed.

Lemma X2_get_surface_nodes_bounds_witness :
  get_surface_nodes {[ 3 := [40; 41; 42; 43] ]} 3 "S1" = Ok [40; 41; 42; 43] ∧
  get_surface_nodes {[ 3 := [40; 41; 42; 43] ]} 3 "S2" = Raise IndexError.
Proof.
  destruct (X2_get_surface_nodes_bounds {[ 3 := [40; 41; 42; 43] ]} 3
              [40; 41; 42; 43] "S1" [1; 2; 3; 4]) as [Hok _];
    [by vm_compute..|].
  destruct (X2_get_surface_nodes_bounds {[ 3 := [40; 41; 42; 43] ]} 3
              [40; 41; 42; 43] "S2" [5; 8; 7; 6]) as [_ Hbad];
    [by vm_compute..|].
  split.
  - destruct Hok as (ns & -> & Hlen & Hns).
    { repeat constructor; simpl; lia. }
    destruct ns as [|a [|b [|c [|d [|? ?]]]]]; try done.
    destruct (Hns 0%nat 1 eq_refl) as [_ Ha].
    destruct (Hns 1%nat 2 eq_refl) as [_ Hb].
    destruct (Hns 2%nat 3 eq_refl) as [_ Hc].
    destruct (Hns 3%nat 4 eq_refl) as [_ Hd].
    simpl in *. congruence.
  - apply Hbad. left. simpl. lia.
Defined.

(** ** The surface blocks *)

Lemma get_surface_nodes_ok_inv (elements : gmap Z (list Z)) elmid face ns :
  get_surface_nodes elements elmid face = Ok ns →
  ∃ n1 n2 n3 n4, ns = [n1; n2; n3; n4].
Proof.
  intros H. unfold get_surface_nodes in H.
  destruct (elements !! elmid) as [conn|] eqn:Hel; [|done].
  destruct (config.abq_surf_def !! face) as [pos|] eqn:Hface; [|done].
  destruct (surf_def_shape _ _ Hface) as (p1 & p2 & p3 & p4 & -> & B1 & B2 & B3 & B4).
  assert (get_surface_nodes elements elmid face = Ok ns) as H'.
  { unfold get_surface_nodes. by rewrite Hel, Hface. }
  rewrite (get_surface_nodes_lookups _ _ _ _ _ _ _ _ Hel Hface) in H' by lia.
  destruct (conn !! Z.to_nat (p1 - 1)) as [n1|]; [|done].
  destruct (conn !! Z.to_nat (p2 - 1)) as [n2|]; [|done].
  destruct (conn !! Z.to_nat (p3 - 1)) as [n3|]; [|done].
  destruct (conn !! Z.to_nat (p4 - 1)) as [n4|]; [|done].
  injection H' as <-. by exists n1, n2, n3, n4.
Qed.

Lemma get_surface_nodes_raise_inv (elements : gmap Z (list Z)) elmid face e :
  get_surface_nodes elements elmid face = Raise e →
  e = KeyError ∨ e = IndexError.
Proof.
  intros H. unfold get_surface_nodes in H.
  destruct (elements !! elmid) as [conn|] eqn:Hel; [|left; by injection H].
  destruct (config.abq_surf_def !! face) as [pos|] eqn:Hface;
    [|left; by injection H].
  destruct (surf_def_shape _ _ Hface) as (p1 & p2 & p3 & p4 & -> & B1 & B2 & B3 & B4).
  assert (get_surface_nodes elements elmid face = Raise e) as H'.
  { unfold get_surface_nodes. by rewrite Hel, Hface. }
  rewrite (get_surface_nodes_lookups _ _ _ _ _ _ _ _ Hel Hface) in H' by lia.
  right.
  destruct (conn !! Z.to_nat (p1 - 1)); [|by injection H'].
  destruct (conn !! Z.to_nat (p2 - 1)); [|by injection H'].
  destruct (conn !! Z.to_nat (p3 - 1)); [|by injection H'].
  destruct (conn !! Z.to_nat (p4 - 1)); [done|by injection H'].
Qed.

Lemma write_facet_ok (elements : gmap Z (list Z)) (surf : Z * string) ns :
  get_surface_nodes elements surf.1 surf.2 = Ok ns →
  write_facet elements surf = (facet_record ns +:+ Py.nl, Ok ()).
Proof.
  intros H. destruct (get_surface_nodes_ok_inv _ _ _ _ H) as (n1 & n2 & n3 & n4 & ->).
  unfold write_facet. rewrite H. rewrite wbind_lift_ok.
  unfold facet_record, write. simpl. by rewrite ?sapp_assoc.
Qed.

Lemma write_facet_raise (elements : gmap Z (list Z)) (surf : Z * string) e :
  get_surface_nodes elements surf.1 surf.2 = Raise e →
  write_facet elements surf = ("", Raise e).
Proof. intros H. unfold write_facet. by rewrite H. Qed.

Lemma for_facets_ok (elements : gmap Z (list Z)) surf_list nss :
  Forall2 (λ surf ns, get_surface_nodes elements surf.1 surf.2 = Ok ns)
    surf_list nss →
  for_ surf_list (write_facet elements) = (unlines (facet_record <$> nss), Ok ()).
Proof.
  induction 1 as [|surf ns surf_list nss H _ IH]; [done|].
  simpl for_. rewrite (wbind_ok _ _ _ () (write_facet_ok _ _ _ H)), IH.
  rewrite fmap_cons, unlines_cons. simpl. by rewrite sapp_assoc.
Qed.

Lemma write_surface_header (elements : gmap Z (list Z)) set_name surf_list curid :
  config.segmentset_ssid !! set_name = Some curid →
  write_surface elements (set_name, surf_list) =
    (unlines (block_header "$ Surface set: " "*DUALCESE_SEGMENTSET" "       "
                set_name curid) +:+ (for_ surf_list (write_facet elements)).1,
     (for_ surf_list (write_facet elements)).2).
Proof.
  intros H. unfold write_surface. rewrite H. simpl of_option.
  rewrite !wbind_write, wbind_lift_ok, wbind_write.
  simpl. by rewrite ?sapp_assoc.
Qed.

(** X3. For a surface whose name is in [segmentset_ssid] and whose facets
    all resolve, the block is the comment line, the directive line, the ID
    line (7 blanks, then the ID) and one line per facet, in the order of the
    surface's list: the 4 resolved node IDs joined by ", " and then the
    literal [,0.0,0.0,0.0,0.0]. A surface without facets gives the three
    header lines alone. *)
Theorem X3_surface_block (elements : gmap Z (list Z)) set_name surf_list curid nss :
  config.segmentset_ssid !! set_name = Some curid →
  Forall2 (λ surf ns, get_surface_nodes elements surf.1 surf.2 = Ok ns)
    surf_list nss →
  write_surface elements (set_name, surf_list) =
    (unlines (block_header "$ Surface set: " "*DUALCESE_SEGMENTSET" "       "
                set_name curid ++ (facet_record <$> nss)), Ok ()) ∧
  Forall (λ ns, length ns = 4%nat) nss.
Proof.
  intros Hid Hall. split.
  - rewrite (write_surface_header _ _ _ _ Hid), (for_facets_ok _ _ _ Hall).
    by rewrite unlines_app.
  - induction Hall as [|surf ns surf_list nss H _ IH]; constructor; [|done].
    by destruct (get_surface_nodes_ok_inv _ _ _ _ H) as (? & ? & ? & ? & ->).
Qed.

Lemma X3_surface_block_witness :
  write_surface {[ 1 := [11; 12; 13; 14; 15; 16; 17; 18] ]}
      ("OUTERS", [(1, "S2"); (1, "S1")]) =
    (unlines ["$ Surface set: OUTERS"; "*DUALCESE_SEGMENTSET"; "       111";
              "15, 18, 17, 16,0.0,0.0,0.0,0.0"; "11, 12, 13, 14,0.0,0.0,0.0,0.0"],
     Ok ()) ∧
  write_surface ∅ ("ELSURF", []) =
    (unlines ["$ Surface set: ELSURF"; "*DUALCESE_SEGMENTSET"; "       1111"],
     Ok ()).
Proof.
  split.
  - destruct (X3_surface_block {[ 1 := [11; 12; 13; 14; 15; 16; 17; 18] ]}
                "OUTERS" [(1, "S2"); (1, "S1")] 111
                [[15; 18; 17; 16]; [11; 12; 13; 14]]) as [H _];
      [by vm_compute|repeat constructor|].
    rewrite H. reflexivity.
  - destruct (X3_surface_block ∅ "ELSURF" [] 1111 []) as [H _];
      [by vm_compute|constructor|].
    rewrite H. reflexivity.
Defined.

(** X4. When a facet of a surface does not resolve, the block stops there:
    the header and the records of the facets before it are in the file,
    nothing of the failing facet or of the later ones is, and the exception
    is the resolver's, [KeyError] (unknown element ID or face label) or
    [IndexError] (connectivity too short for the face). *)
Theorem X4_surface_block_stops_at_bad_facet (elements : gmap Z (list Z))
    set_name curid pre surf post nss e :
  config.segmentset_ssid !! set_name = Some curid →
  Forall2 (λ surf ns, get_surface_nodes elements surf.1 surf.2 = Ok ns) pre nss →
  get_surface_nodes elements surf.1 surf.2 = Raise e →
  write_surface elements (set_name, pre ++ surf :: post) =
    (unlines (block_header "$ Surface set: " "*DUALCESE_SEGMENTSET" "       "
                set_name curid ++ (facet_record <$> nss)), Raise e) ∧
  (e = KeyError ∨ e = IndexError).
Proof.
  intros Hid Hpre Hbad. split; [|by eapply get_surface_nodes_raise_inv].
  rewrite (write_surface_header _ _ _ _ Hid).
  rewrite (for_abort pre post surf _ (unlines (facet_record <$> nss)) "" e);
    [|by apply for_facets_ok|by apply write_facet_raise].
  rewrite unlines_app. simpl fst. simpl snd. by rewrite sapp_nil_r.
Qed.

Lemma X4_surface_block_stops_witness :
  write_surface {[ 1 := [11; 12; 13; 14; 15; 16; 17; 18] ]}
      ("OUTERS", [(1, "S1"); (1, " S2"); (1, "S3")]) =
    (unlines ["$ Surface set: OUTERS"; "*DUALCESE_SEGMENTSET"; "       111";
              "11, 12, 13, 14,0.0,0.0,0.0,0.0"], Raise KeyError).
Proof.
  destruct (X4_surface_block_stops_at_bad_facet
              {[ 1 := [11; 12; 13; 14; 15; 16; 17; 18] ]} "OUTERS" 111
              [(1, "S1")] (1, " S2") [(1, "S3")] [[11; 12; 13; 14]] KeyError)
    as [H _]; [by vm_compute|repeat constructor|by vm_compute|].
  exact H.
Defined.

(** ** When [write_k] succeeds *)

Lemma wbind_snd {A B} (m : writer A) (k : A → writer B) :
  (m ≫= k).2 = (m.2 ≫= λ a, (k a).2).
Proof. by destruct m as [o [a|e]]. Qed.

Lemma wbind_fst_ok {A B} (m : writer A) (k : A → writer B) a :
  m.2 = Ok a → (m ≫= k).1 = m.1 +:+ (k a).1.
Proof. destruct m as [o r]. simpl. by intros ->. Qed.

Lemma wbind_fst_prefix {A B} (m : writer A) (k : A → writer B) :
  ∃ rest, (m ≫= k).1 = m.1 +:+ rest.
Proof.
  destruct m as [o [a|e]].
  - by exists (k a).1.
  - exists "". simpl. by rewrite sapp_nil_r.
Qed.

Lemma for_snd_ok_iff {X} (l : list X) (body : X → writer unit) :
  (for_ l body).2 = Ok () ↔ Forall (λ x, (body x).2 = Ok ()) l.
Proof.
  induction l as [|x l IH]; simpl.
  - split; [constructor|done].
  - rewrite wbind_snd, Forall_cons, <- IH.
    destruct (body x).2 as [[]|e]; simpl; [tauto|]. split; [done|by intros []].
Qed.

Lemma for_snd_raise {X} (l : list X) (body : X → writer unit) e :
  (for_ l body).2 = Raise e → Exists (λ x, (body x).2 = Raise e) l.
Proof.
  induction l as [|x l IH]; simpl; [done|].
  rewrite wbind_snd. destruct (body x).2 as [[]|e'] eqn:E; simpl.
  - intros H. right. by apply IH.
  - intros [= ->]. by left.
Qed.

Lemma write_nset_snd (entry : string * list Z) :
  (write_nset entry).2 =
    if config.nodeset_ssid !! entry.1 is Some _ then Ok () else Raise KeyError.
Proof.
  destruct entry as [name l]. change ((name, l).1) with name.
  destruct (config.nodeset_ssid !! name) as [curid|] eqn:E.
  - by rewrite (write_nset_ok _ _ _ E).
  - by rewrite (write_nset_absent _ _ E).
Qed.

Lemma write_elset_snd (entry : string * list Z) :
  (write_elset entry).2 =
    if config.elementset_ssid !! entry.1 is Some _ then Ok () else Raise KeyError.
Proof.
  destruct entry as [name l]. change ((name, l).1) with name.
  destruct (config.elementset_ssid !! name) as [curid|] eqn:E.
  - by rewrite (write_elset_ok _ _ _ E).
  - by rewrite (write_elset_absent _ _ E).
Qed.

Lemma write_facet_snd (elements : gmap Z (list Z)) (surf : Z * string) :
  (write_facet elements surf).2 =
    (get_surface_nodes elements surf.1 surf.2 ≫= λ _, Ok ()).
Proof.
  destruct (get_surface_nodes elements surf.1 surf.2) as [ns|e] eqn:E.
  - by rewrite (write_facet_ok _ _ _ E).
  - by rewrite (write_facet_raise _ _ _ E).
Qed.

Lemma write_surface_snd (elements : gmap Z (list Z))
    (entry : string * list (Z * string)) :
  (write_surface elements entry).2 =
    if config.segmentset_ssid !! entry.1 is Some _
    then (for_ entry.2 (write_facet elements)).2 else Raise KeyError.
Proof.
  destruct entry as [name l]. change ((name, l).1) with name.
  destruct (config.segmentset_ssid !! name) as [curid|] eqn:E.
  - by rewrite (write_surface_header _ _ _ _ E).
  - by rewrite (write_surface_absent _ _ _ E).
Qed.

Lemma write_surface_ok_iff (elements : gmap Z (list Z))
    (entry : string * list (Z * string)) :
  (write_surface elements entry).2 = Ok () ↔
  is_Some (config.segmentset_ssid !! entry.1) ∧ Forall (resolves elements) entry.2.
Proof.
  rewrite write_surface_snd.
  destruct (config.segmentset_ssid !! entry.1) as [curid|].
  - rewrite for_snd_ok_iff. split.
    + intros H. split; [done|]. eapply Forall_impl; [exact H|].
      intros surf Hs. cbv beta in Hs. rewrite write_facet_snd in Hs. unfold resolves.
      destruct (get_surface_nodes elements surf.1 surf.2) as [ns|]; [eauto|done].
    + intros [_ H]. eapply Forall_impl; [exact H|].
      intros surf [ns Hs]. cbv beta. by rewrite write_facet_snd, Hs.
  - split; [done|]. by intros [[? ?] _].
Qed.

Lemma write_surface_raise (elements : gmap Z (list Z))
    (entry : string * list (Z * string)) e :
  (write_surface elements entry).2 = Raise e → e = KeyError ∨ e = IndexError.
Proof.
  rewrite write_surface_snd.
  destruct (config.segmentset_ssid !! entry.1); [|intros [= <-]; by left].
  intros H. apply for_snd_raise, Exists_exists in H as (surf & _ & H).
  rewrite write_facet_snd in H.
  destruct (get_surface_nodes elements surf.1 surf.2) as [ns|e'] eqn:E; [done|].
  injection H as ->. by eapply get_surface_nodes_raise_inv.
Qed.

Lemma write_elements_snd (elements : gmap Z (list Z)) :
  (write_elements elements).2 = Ok ().
Proof. by rewrite write_elements_text. Qed.

Lemma write_k_snd {float} (fmt_g : float → string)
    (nodes : gmap Z (float * float * float)) (elements : gmap Z (list Z))
    (nsets elsets : odict (list Z)) (surfaces : odict (list (Z * string))) :
  (write_k fmt_g nodes elements nsets elsets surfaces).2 =
    ((for_ nsets write_nset).2 ≫= λ _,
     (for_ surfaces (write_surface elements)).2 ≫= λ _,
     (for_ elsets write_elset).2).
Proof.
  unfold write_k.
  rewrite !wbind_snd, (write_nodes_ok fmt_g nodes), (write_elements_snd elements).
  simpl.
  destruct (for_ nsets write_nset).2 as [[]|]; simpl; [|done].
  destruct (for_ surfaces (write_surface elements)).2 as [[]|]; simpl; [|done].
  by destruct (for_ elsets write_elset).2 as [[]|].
Qed.

Lemma write_k_fst_ok {float} (fmt_g : float → string)
    (nodes : gmap Z (float * float * float)) (elements : gmap Z (list Z))
    (nsets elsets : odict (list Z)) (surfaces : odict (list (Z * string))) :
  (write_k fmt_g nodes elements nsets elsets surfaces).2 = Ok () →
  (write_k fmt_g nodes elements nsets elsets surfaces).1 =
    (write_nodes fmt_g nodes).1 +:+ (write_elements elements).1 +:+
    (for_ nsets write_nset).1 +:+ (for_ surfaces (write_surface elements)).1 +:+
    (for_ elsets write_elset).1 +:+ "*END" +:+ Py.nl.
Proof.
  intros Hok. rewrite write_k_snd in Hok.
  destruct (for_ nsets write_nset).2 as [[]|] eqn:E1; [|done].
  destruct (for_ surfaces (write_surface elements)).2 as [[]|] eqn:E2; [|done].
  simpl in Hok. unfold write_k.
  rewrite (wbind_fst_ok _ _ () (write_nodes_ok fmt_g nodes)),
    (wbind_fst_ok _ _ () (write_elements_snd elements)),
    (wbind_fst_ok _ _ () E1), (wbind_fst_ok _ _ () E2), (wbind_fst_ok _ _ () Hok).
  done.
Qed.

Lemma write_k_raise_cases {float} (fmt_g : float → string)
    (nodes : gmap Z (float * float * float)) (elements : gmap Z (list Z))
    (nsets elsets : odict (list Z)) (surfaces : odict (list (Z * string))) e :
  (write_k fmt_g nodes elements nsets elsets surfaces).2 = Raise e →
  e = KeyError ∨
  ∃ entry surf, entry ∈ surfaces ∧ surf ∈ entry.2 ∧
                get_surface_nodes elements surf.1 surf.2 = Raise e.
Proof.
  rewrite write_k_snd.
  destruct (for_ nsets write_nset).2 as [[]|e1] eqn:E1; simpl.
  - destruct (for_ surfaces (write_surface elements)).2 as [[]|e2] eqn:E2; simpl.
    + intros H. apply for_snd_raise, Exists_exists in H as (x & _ & H).
      rewrite write_elset_snd in H.
      destruct (config.elementset_ssid !! x.1); [done|]. injection H as <-. by left.
    + intros [= <-]. apply for_snd_raise, Exists_exists in E2 as (x & Hx & H).
      rewrite write_surface_snd in H.
      destruct (config.segmentset_ssid !! x.1); [|injection H as <-; by left].
      apply for_snd_raise, Exists_exists in H as (surf & Hsurf & H).
      rewrite write_facet_snd in H.
      destruct (get_surface_nodes elements surf.1 surf.2) as [ns|e'] eqn:E; [done|].
      injection H as ->. right. by exists x, surf.
  - intros [= <-]. apply for_snd_raise, Exists_exists in E1 as (x & _ & H).
    rewrite write_nset_snd in H.
    destruct (config.nodeset_ssid !! x.1); [done|]. injection H as <-. by left.
Qed.

(** X5. [write_k] succeeds exactly when every node-set name is in
    [nodeset_ssid], every surface name is in [segmentset_ssid] with all its
    facets resolving, and every element-set name is in [elementset_ssid].
    Then the file is the node block, the element block, the node-set blocks,
    the surface blocks and the element-set blocks in this order, closed by
    the [*END] line. Otherwise the exception is [KeyError] or [IndexError].
    In every case the file starts with the node directive line. *)
Theorem X5_write_k_outcome {float} (fmt_g : float → string)
    (nodes : gmap Z (float * float * float)) (elements : gmap Z (list Z))
    (nsets elsets : odict (list Z)) (surfaces : odict (list (Z * string))) :
  ((write_k fmt_g nodes elements nsets elsets surfaces).2 = Ok () ↔
     Forall (λ entry, is_Some (config.nodeset_ssid !! entry.1)) nsets ∧
     Forall (λ entry, is_Some (config.segmentset_ssid !! entry.1) ∧
                      Forall (resolves elements) entry.2) surfaces ∧
     Forall (λ entry, is_Some (config.elementset_ssid !! entry.1)) elsets) ∧
  ((write_k fmt_g nodes elements nsets elsets surfaces).2 = Ok () →
     (write_k fmt_g nodes elements nsets elsets surfaces).1 =
       (write_nodes fmt_g nodes).1 +:+ (write_elements elements).1 +:+
       (for_ nsets write_nset).1 +:+ (for_ surfaces (write_surface elements)).1 +:+
       (for_ elsets write_elset).1 +:+ "*END" +:+ Py.nl) ∧
  (∀ e, (write_k fmt_g nodes elements nsets elsets surfaces).2 = Raise e →
        e = KeyError ∨ e = IndexError) ∧
  (∃ rest, (write_k fmt_g nodes elements nsets elsets surfaces).1 =
             "*DUALCESE_NODE3D" +:+ Py.nl +:+ rest).
Proof.
  pose proof (write_nodes_ok fmt_g nodes) as Hn.
  pose proof (write_elements_snd elements) as He.
  pose proof (write_k_snd fmt_g nodes elements nsets elsets surfaces) as Hsnd.
  split; [|split; [|split]].
  - rewrite Hsnd.
    transitivity ((for_ nsets write_nset).2 = Ok () ∧
                  (for_ surfaces (write_surface elements)).2 = Ok () ∧
                  (for_ elsets write_elset).2 = Ok ()).
    { destruct (for_ nsets write_nset).2 as [[]|]; simpl; [|by split; [|intros []]].
      destruct (for_ surfaces (write_surface elements)).2 as [[]|]; simpl;
        [|by split; [|intros (_ & ? & _)]].
      tauto. }
    rewrite !for_snd_ok_iff.
    assert (∀ l, Forall (λ x, (write_nset x).2 = Ok ()) l ↔
                 Forall (λ entry, is_Some (config.nodeset_ssid !! entry.1)) l) as A1.
    { intros l. apply Forall_iff. intros x. rewrite write_nset_snd.
      destruct (config.nodeset_ssid !! x.1); split; try done; by intros []. }
    assert (∀ l, Forall (λ x, (write_elset x).2 = Ok ()) l ↔
                 Forall (λ entry, is_Some (config.elementset_ssid !! entry.1)) l) as A3.
    { intros l. apply Forall_iff. intros x. rewrite write_elset_snd.
      destruct (config.elementset_ssid !! x.1); split; try done; by intros []. }
    assert (∀ l, Forall (λ x, (write_surface elements x).2 = Ok ()) l ↔
                 Forall (λ entry, is_Some (config.segmentset_ssid !! entry.1) ∧
                                  Forall (resolves elements) entry.2) l) as A2.
    { intros l. apply Forall_iff. intros x. apply write_surface_ok_iff. }
    by rewrite A1, A2, A3.
  - apply write_k_fst_ok.
  - intros e H. apply write_k_raise_cases in H as [->|(entry & surf & _ & _ & H)];
      [by left|by eapply get_surface_nodes_raise_inv].
  - unfold write_k, write_nodes. rewrite wbind_write.
    match goal with
    | |- ∃ rest, (?m ≫= ?k).1 = _ =>
        destruct (wbind_fst_prefix m k) as [rest ->]
    end.
    simpl. eexists. by rewrite sapp_assoc.
Qed.

Lemma X5_write_k_outcome_witness :
  (write_k Dec.to_string ∅ {[ 1 := [11; 12; 13; 14; 15; 16; 17; 18] ]}
     [("K1A", [1])] [("FLUID1", [1])] [("OUTERS", [(1, "S1")])]).2 = Ok () ∧
  (write_k Dec.to_string ∅ {[ 1 := [11; 12; 13; 14] ]}
     [] [] [("OUTERS", [(1, "S2")])]).2 = Raise IndexError.
Proof.
  split.
  - apply (X5_write_k_outcome Dec.to_string). repeat split.
    + repeat constructor. by exists 999.
    + repeat constructor; [by exists 111|].
      exists [11; 12; 13; 14]. by vm_compute.
    + repeat constructor. by exists 2222.
  - destruct (X5_write_k_outcome Dec.to_string ∅ {[ 1 := [11; 12; 13; 14] ]}
                [] [] [("OUTERS", [(1, "S2")])]) as (_ & _ & H & _).
    destruct (write_k Dec.to_string ∅ {[ 1 := [11; 12; 13; 14] ]}
                [] [] [("OUTERS", [(1, "S2")])]).2 as [[]|e] eqn:E.
    + by vm_compute in E.
    + destruct (H e eq_refl) as [->| ->]; [by vm_compute in E|done].
Defined.

(** * Further properties of the reader of [main_Convert.py] *)

Section ReaderMore.
Context {float : Type} (py_float : string → option float).
Implicit Types st : pstate float.

Lemma keyword_collections st ls :
  nodes (keyword st ls) = nodes st ∧ elements (keyword st ls) = elements st.
Proof.
  unfold keyword.
  repeat match goal with
         | |- context [if ?b then _ else _] => destruct b
         end; done.
Qed.

(** ** Every parsed element has 8 node references *)

Lemma section_line_elements st ls st1 :
  section_line py_float st ls = Ok st1 →
  elements st1 = elements st ∨
  ∃ eid conn, length conn = 8%nat ∧ elements st1 = <[eid := conn]> (elements st).
Proof.
  unfold section_line. destruct (reading_nodes st).
  { intros H. left. unfold node_line in H. case_bool_decide; [|by injection H as <-].
    apply bind_ok_inv in H as (nid & _ & H). apply bind_ok_inv in H as (x & _ & H).
    apply bind_ok_inv in H as (y & _ & H). apply bind_ok_inv in H as (z & _ & H).
    by injection H as <-. }
  destruct (reading_elements st); [|intros [= <-]; by left].
  intros H. destruct (decide (length (Py.split "," ls) < 9)%nat) as [Hlt|Hge].
  { rewrite element_line_short in H by done. injection H as <-. by left. }
  destruct (Py.split "," ls) as [|p0 rest] eqn:E; [simpl in Hge; lia|].
  rewrite (element_line_fields _ _ _ _ E) in H by (simpl in Hge; lia).
  apply bind_ok_inv in H as (eid & _ & H).
  apply bind_ok_inv in H as (conn & Hconn & H). injection H as <-.
  right. exists eid, conn. split; [|done].
  apply of_option_ok_inv, length_mapM in Hconn. rewrite <- Hconn, length_take.
  simpl in Hge. lia.
Qed.

Lemma process_line_elements st line st' :
  process_line py_float st line = Ok st' →
  elements st' = elements st ∨
  ∃ eid conn, length conn = 8%nat ∧ elements st' = <[eid := conn]> (elements st).
Proof.
  intros H. destruct (process_line_cases py_float st line) as [E|[E|Hd]].
  - rewrite E in H. injection H as <-. by left.
  - rewrite E in H. injection H as <-. left. apply keyword_collections.
  - rewrite process_line_data in H by done.
    apply bind_ok_inv in H as (st1 & H1 & H).
    apply named_lines_effect in H as (_ & -> & _).
    by apply section_line_elements in H1.
Qed.

Lemma parse_lines_elements lines st st' :
  parse_lines py_float st lines = Ok st' →
  map_Forall (λ _ conn, length conn = 8%nat) (elements st) →
  map_Forall (λ _ conn, length conn = 8%nat) (elements st').
Proof.
  revert st. induction lines as [|line lines IH]; intros st H Hall.
  - by injection H as <-.
  - simpl in H. apply bind_ok_inv in H as (st1 & H1 & H).
    apply (IH st1 H).
    apply process_line_elements in H1 as [->|(eid & conn & Hlen & ->)]; [done|].
    by apply map_Forall_insert_2.
Qed.

Lemma filter_all {A} (P : A → Prop) `{∀ x, Decision (P x)} (l : list A) :
  Forall P l → filter P l = l.
Proof.
  induction 1 as [|x l Hx _ IH]; [done|]. by rewrite filter_cons_True, IH.
Qed.

Lemma emitted_all_8 (elements : gmap Z (list Z)) :
  map_Forall (λ _ conn, length conn = 8%nat) elements →
  emitted_elements elements = Py.sorted_keys elements.
Proof.
  intros Hall. unfold emitted_elements. apply filter_all, Forall_forall.
  intros eid Hin. apply elem_of_sorted_keys in Hin as [conn Hconn].
  rewrite Hconn. simpl. f_equal. by apply (Hall eid).
Qed.

(** X7. Whatever the input, each element that [parse_inp] returns has
    exactly 8 node references, so the length test of the element loop of
    [write_k] never drops an element read by this reader: the element block
    has one record for every parsed element. *)
Theorem X7_parsed_elements_have_8_refs lines st :
  parse_inp py_float lines = Ok st →
  (∀ eid conn, elements st !! eid = Some conn → length conn = 8%nat) ∧
  emitted_elements (elements st) = Py.sorted_keys (elements st).
Proof.
  intros H.
  assert (map_Forall (λ _ conn, length conn = 8%nat) (elements st)) as Hall.
  { eapply parse_lines_elements; [exact H|]. apply map_Forall_empty. }
  split; [exact Hall|by apply emitted_all_8].
Qed.

(** ** The reader raises nothing but [ValueError] *)

Lemma same_named_opened st st' : same_named st st' → opened st → opened st'.
Proof.
  intros (A1 & A2 & A3 & A4 & A5 & A6) (Hn & He & Hs).
  unfold opened. rewrite A1, A2, A3. repeat split; intros n Hn'; auto.
Qed.

Lemma nset_line_raise st ls e :
  opened st → nset_line st ls = Raise e → e = ValueError.
Proof.
  intros (Hn & _ & _). unfold nset_line.
  destruct (current_nset_name st) as [name|]; [|done].
  destruct (is_data ls); [|done].
  destruct (mapM Py.int _); simpl; [|by intros [= <-]].
  by destruct (Hn name eq_refl) as [old ->].
Qed.

Lemma elset_line_raise st ls e :
  opened st → elset_line st ls = Raise e → e = ValueError.
Proof.
  intros (_ & He & _). unfold elset_line.
  destruct (current_elset_name st) as [name|]; [|done].
  destruct (is_data ls); [|done].
  destruct (mapM Py.int _); simpl; [|by intros [= <-]].
  by destruct (He name eq_refl) as [old ->].
Qed.

Lemma surf_line_raise st ls e :
  opened st → surf_line st ls = Raise e → e = ValueError.
Proof.
  intros (_ & _ & Hs). unfold surf_line.
  destruct (current_surf_name st) as [name|]; [|done].
  destruct (is_data ls); [|done].
  destruct (Py.split "," ls) as [|id [|surf [|? ?]]]; try by intros [= <-].
  destruct (Hs name eq_refl) as [old ->]. simpl.
  destruct (Py.int id); simpl; [done|by intros [= <-]].
Qed.

Lemma process_line_raise st line e :
  opened st → process_line py_float st line = Raise e → e = ValueError.
Proof.
  intros Ho H. destruct (process_line_cases py_float st line) as [E|[E|Hd]];
    try congruence.
  rewrite process_line_data in H by done.
  destruct (section_line py_float st (Py.strip line)) as [st1|e1] eqn:E1;
    [|injection H as <-; by eapply section_line_raise].
  assert (opened st1) as Ho1
    by (eapply same_named_opened; [by eapply section_line_same_named|done]).
  simpl in H.
  destruct (nset_line st1 (Py.strip line)) as [st2|e2] eqn:E2;
    [|injection H as <-; by eapply nset_line_raise].
  assert (opened st2) as Ho2.
  { apply nset_line_effect in E2 as (v & -> & Hv).
    destruct Ho1 as (A & B & C). unfold opened. simpl. repeat split; auto. }
  simpl in H.
  destruct (elset_line st2 (Py.strip line)) as [st3|e3] eqn:E3;
    [|injection H as <-; by eapply elset_line_raise].
  assert (opened st3) as Ho3.
  { apply elset_line_effect in E3 as (v & -> & Hv).
    destruct Ho2 as (A & B & C). unfold opened. simpl. repeat split; auto. }
  simpl in H. by eapply surf_line_raise.
Qed.

Lemma parse_lines_raise lines st e :
  (active_count st ≤ 1)%nat → opened st →
  parse_lines py_float st lines = Raise e → e = ValueError.
Proof.
  revert st. induction lines as [|line lines IH]; intros st Hc Ho H; [done|].
  simpl in H. destruct (process_line py_float st line) as [st1|e1] eqn:E1.
  - destruct (process_line_invariant py_float _ _ _ E1 Hc Ho). by eapply IH.
  - injection H as <-. by eapply process_line_raise.
Qed.

(** X8. Whatever the input, the only exception [parse_inp] raises is
    [ValueError]: the dictionary look-ups of the three named-collection
    blocks and the indexing of the split fields never fail. *)
Theorem X8_parse_raises_only_ValueError lines e :
  parse_inp py_float lines = Raise e → e = ValueError.
Proof.
  apply parse_lines_raise; [cbv; lia|].
  unfold opened. simpl. repeat split; done.
Qed.

(** ** What a run of [main] can end in *)

Lemma get_surface_nodes_raise_8 (elements : gmap Z (list Z)) elmid face e :
  map_Forall (λ _ conn, length conn = 8%nat) elements →
  get_surface_nodes elements elmid face = Raise e → e = KeyError.
Proof.
  intros Hall H.
  destruct (elements !! elmid) as [conn|] eqn:Hel;
    [|unfold get_surface_nodes in H; rewrite Hel in H; by injection H as <-].
  destruct (config.abq_surf_def !! face) as [pos|] eqn:Hface;
    [|unfold get_surface_nodes in H; rewrite Hel, Hface in H; by injection H as <-].
  destruct (surf_def_shape _ _ Hface) as (p1 & p2 & p3 & p4 & -> & B1 & B2 & B3 & B4).
  rewrite (get_surface_nodes_lookups _ _ _ _ _ _ _ _ Hel Hface) in H by lia.
  pose proof (Hall _ _ Hel) as Hlen. simpl in Hlen.
  destruct (lookup_lt_is_Some_2 conn (Z.to_nat (p1 - 1))) as [n1 E1]; [lia|].
  destruct (lookup_lt_is_Some_2 conn (Z.to_nat (p2 - 1))) as [n2 E2]; [lia|].
  destruct (lookup_lt_is_Some_2 conn (Z.to_nat (p3 - 1))) as [n3 E3]; [lia|].
  destruct (lookup_lt_is_Some_2 conn (Z.to_nat (p4 - 1))) as [n4 E4]; [lia|].
  by rewrite E1, E2, E3, E4 in H.
Qed.

(** X9. A run of [main] ends in one of three ways. Either the reader raises
    [ValueError] and no output file is opened; or the file is written to the
    end and its last line is [*END]; or the writer raises [KeyError] (a name
    missing from its ID table, or a facet with an unknown element or face
    label) and leaves what it wrote until then. As every parsed element has
    8 node references, [IndexError] never occurs. *)
Theorem X9_main_outcome (fmt_g : float → string) lines :
  main fmt_g py_float lines = (None, Raise ValueError) ∨
  (∃ body, main fmt_g py_float lines = (Some (body +:+ "*END" +:+ Py.nl), Ok ())) ∨
  (∃ out, main fmt_g py_float lines = (Some out, Raise KeyError)).
Proof.
  unfold main. destruct (parse_inp py_float lines) as [st|e] eqn:E.
  - right.
    assert (map_Forall (λ _ conn, length conn = 8%nat) (elements st)) as Hall.
    { eapply parse_lines_elements; [exact E|]. apply map_Forall_empty. }
    destruct (write_k fmt_g (nodes st) (elements st) (nsets st) (elsets st)
                (surfaces st)).2 as [[]|e] eqn:Ew.
    + left. eexists. by rewrite (write_k_fst_ok _ _ _ _ _ _ Ew), <- !sapp_assoc.
    + right. eexists.
      apply write_k_raise_cases in Ew as [->|(entry & surf & _ & _ & H)]; [done|].
      by rewrite (get_surface_nodes_raise_8 _ _ _ _ Hall H).
  - left. assert (e = ValueError) as ->; [|done].
    apply (parse_lines_raise lines init_state); [cbv; lia| |exact E].
    unfold opened. simpl. repeat split; done.
Qed.

(** ** Lines that are skipped *)

Lemma process_line_skipped st line :
  skipped line = true → process_line py_float st line = Ok st.
Proof. unfold skipped, process_line. by intros ->. Qed.

Lemma process_line_not_skipped st line :
  skipped line = false →
  process_line py_float st line =
    if Py.startswith "*" (Py.strip line) then Ok (keyword st (Py.strip line))
    else (st1 ← section_line py_float st (Py.strip line);
          st2 ← nset_line st1 (Py.strip line);
          st3 ← elset_line st2 (Py.strip line);
          surf_line st3 (Py.strip line)).
Proof. unfold skipped, process_line. by intros ->. Qed.

(** X10. Blank lines and [**] comment lines have no effect wherever they
    stand: removing all of them from the input changes neither the result
    nor the exception of the parse. *)
Theorem X10_skipped_lines st lines :
  parse_lines py_float st (filter (λ line, skipped line = false) lines) =
  parse_lines py_float st lines.
Proof.
  revert st. induction lines as [|line lines IH]; intros st; [done|].
  rewrite filter_cons. destruct (skipped line) eqn:E.
  - rewrite decide_False by done. simpl.
    by rewrite (process_line_skipped _ _ E).
  - rewrite decide_True by done. simpl.
    destruct (process_line py_float st line); [apply IH|done].
Qed.

(** ** Data lines outside every section *)

Lemma process_line_idle st line :
  reading_nodes st = false → reading_elements st = false →
  current_nset_name st = None → current_elset_name st = None →
  current_surf_name st = None →
  Py.startswith "*" (Py.strip line) = false →
  process_line py_float st line = Ok st.
Proof.
  intros Hrn Hre Hn He Hs Hstar. unfold process_line.
  destruct (nonempty (Py.strip line)); [|done]. simpl.
  destruct (Py.startswith "**" (Py.strip line)) eqn:E2; [done|].
  rewrite Hstar. unfold section_line. rewrite Hrn, Hre. simpl.
  by apply named_lines_inactive.
Qed.

(** X11. While no section and no named collection is active, a line that is
    not a keyword line is dropped without being looked at: it cannot fail
    and it changes nothing. In particular everything before the first
    keyword line of a file is ignored. *)
Theorem X11_lines_outside_sections st pre rest :
  reading_nodes st = false → reading_elements st = false →
  current_nset_name st = None → current_elset_name st = None →
  current_surf_name st = None →
  Forall (λ line, Py.startswith "*" (Py.strip line) = false) pre →
  parse_lines py_float st (pre ++ rest) = parse_lines py_float st rest.
Proof.
  intros Hrn Hre Hn He Hs Hpre.
  induction Hpre as [|line pre Hline _ IH]; [done|].
  simpl. by rewrite (process_line_idle st line).
Qed.

End ReaderMore.

(** * The names of the named collections *)

Lemma upper_char_space (c : ascii) : Py.is_space (Py.upper_char c) = Py.is_space c.
Proof. destruct c as [[] [] [] [] [] [] [] []]; reflexivity. Qed.

Lemma upper_char_idem (c : ascii) : Py.upper_char (Py.upper_char c) = Py.upper_char c.
Proof. destruct c as [[] [] [] [] [] [] [] []]; reflexivity. Qed.

Lemma upper_char_comma (c : ascii) :
  Ascii.eqb (Py.upper_char c) "," = Ascii.eqb c ",".
Proof. destruct c as [[] [] [] [] [] [] [] []]; reflexivity. Qed.

Lemma upper_cons (c : ascii) (s : string) :
  Py.upper (String c s) = String (Py.upper_char c) (Py.upper s).
Proof. reflexivity. Qed.

Lemma upper_idem (s : string) : Py.upper (Py.upper s) = Py.upper s.
Proof.
  induction s as [|c s IH]; [done|]. by rewrite !upper_cons, upper_char_idem, IH.
Qed.

Lemma has_comma_upper (s : string) : has_char "," (Py.upper s) = has_char "," s.
Proof.
  induction s as [|c s IH]; [done|].
  rewrite upper_cons. simpl. by rewrite upper_char_comma, IH.
Qed.

Lemma lstrip_upper (s : string) : Py.lstrip (Py.upper s) = Py.upper (Py.lstrip s).
Proof.
  induction s as [|c s IH]; [done|].
  rewrite upper_cons. simpl. rewrite upper_char_space.
  destruct (Py.is_space c); [done|]. by rewrite upper_cons.
Qed.

Lemma rstrip_cons (c : ascii) (s : string) :
  Py.rstrip (String c s) =
    match Py.rstrip s with
    | EmptyString => if Py.is_space c then EmptyString else String c EmptyString
    | r => String c r
    end.
Proof. reflexivity. Qed.

Lemma rstrip_upper (s : string) : Py.rstrip (Py.upper s) = Py.upper (Py.rstrip s).
Proof.
  induction s as [|c s IH]; [done|].
  rewrite upper_cons, !rstrip_cons, IH, upper_char_space.
  destruct (Py.rstrip s) as [|c' r]; [by destruct (Py.is_space c)|done].
Qed.

Lemma rstrip_idem (s : string) : Py.rstrip (Py.rstrip s) = Py.rstrip s.
Proof.
  induction s as [|c s IH]; [done|]. rewrite rstrip_cons.
  destruct (Py.rstrip s) as [|c' r] eqn:E.
  - destruct (Py.is_space c) eqn:Ec; [done|]. simpl. by rewrite Ec.
  - by rewrite rstrip_cons, IH.
Qed.

Lemma lstrip_rstrip_lstrip (s : string) :
  Py.lstrip (Py.rstrip (Py.lstrip s)) = Py.rstrip (Py.lstrip s).
Proof.
  induction s as [|c s IH]; [done|]. simpl Py.lstrip at 2 3.
  destruct (Py.is_space c) eqn:Ec; [exact IH|].
  rewrite rstrip_cons. destruct (Py.rstrip s) as [|c' r]; rewrite ?Ec; simpl;
    by rewrite Ec.
Qed.

Lemma strip_idem (s : string) : Py.strip (Py.strip s) = Py.strip s.
Proof. unfold Py.strip. by rewrite lstrip_rstrip_lstrip, rstrip_idem. Qed.

Lemma strip_upper (s : string) : Py.strip (Py.upper s) = Py.upper (Py.strip s).
Proof. unfold Py.strip. by rewrite lstrip_upper, rstrip_upper. Qed.

Lemma has_char_lstrip (c : ascii) (s : string) :
  has_char c s = false → has_char c (Py.lstrip s) = false.
Proof.
  induction s as [|c' s IH]; [done|]. simpl. intros H.
  apply orb_false_iff in H as [H1 H2].
  destruct (Py.is_space c'); [auto|]. simpl. by rewrite H1, H2.
Qed.

Lemma has_char_cons (c c' : ascii) (s : string) :
  has_char c (String c' s) = Ascii.eqb c' c || has_char c s.
Proof. reflexivity. Qed.

Lemma has_char_rstrip (c : ascii) (s : string) :
  has_char c s = false → has_char c (Py.rstrip s) = false.
Proof.
  induction s as [|c' s IH]; [done|]. intros H. simpl in H.
  apply orb_false_iff in H as [H1 H2]. rewrite rstrip_cons.
  specialize (IH H2). destruct (Py.rstrip s) as [|c'' r].
  - destruct (Py.is_space c'); [done|]. simpl. by rewrite H1.
  - by rewrite has_char_cons, H1, IH.
Qed.

Lemma split_nonempty (sep : ascii) (s : string) :
  ∃ h t, Py.split sep s = h :: t ∧ has_char sep h = false.
Proof.
  induction s as [|c s (h & t & IH & Hh)]; [by exists "", []|]. simpl.
  destruct (Ascii.eqb c sep) eqn:E; [by exists "", (Py.split sep s)|].
  rewrite IH. exists (String c h), t. split; [done|]. simpl. by rewrite E, Hh.
Qed.

Lemma upper_nonempty (s : string) : nonempty (Py.upper s) = nonempty s.
Proof. by destruct s. Qed.

Lemma attr_name_Some (key l n : string) :
  attr_name key l = Some n →
  ∃ rest, has_char "," rest = false ∧ n = Py.upper (Py.strip rest).
Proof.
  unfold attr_name. destruct (Py.contains key l); [|done].
  destruct (Py.find key l) as [i|]; [|done]. simpl.
  destruct (split_nonempty "," (Py.drop_str (i + String.length key) l))
    as (h & t & -> & Hh).
  simpl. intros [= <-]. by exists h.
Qed.

Lemma attr_name_normal (key l n : string) :
  attr_name key l = Some n → nonempty n = true → normal_name n.
Proof.
  intros H Hne. apply attr_name_Some in H as (rest & Hrest & ->).
  split; [done|]. split; [|split].
  - rewrite has_comma_upper. unfold Py.strip.
    by apply has_char_rstrip, has_char_lstrip.
  - by rewrite strip_upper, strip_idem.
  - apply upper_idem.
Qed.

(** X12. The name that a directive carries is taken in a fixed form: it
    holds no comma, no white space at either end and no lower-case letter,
    so that [strip] and [upper] leave it as it is. A directive has a name
    exactly when its key ([nset=], [elset=], [name=]) occurs in the line;
    the name may then still be empty. *)
Theorem X12_attr_name_form :
  (∀ key l n,
     attr_name key l = Some n →
     has_char "," n = false ∧ Py.strip n = n ∧ Py.upper n = n) ∧
  (∀ key l, attr_name key l = None ↔ Py.find key l = None).
Proof.
  split.
  - intros key l n H. apply attr_name_Some in H as (rest & Hrest & ->).
    split; [|split].
    + rewrite has_comma_upper. unfold Py.strip.
      by apply has_char_rstrip, has_char_lstrip.
    + by rewrite strip_upper, strip_idem.
    + apply upper_idem.
  - intros key l. unfold attr_name, Py.contains.
    destruct (Py.find key l) as [i|] eqn:E.
    + rewrite bool_decide_true by eauto. simpl.
      destruct (split_nonempty "," (Py.drop_str (i + String.length key) l))
        as (h & t & -> & _).
      done.
    + by rewrite bool_decide_false by (by intros [? ?]).
Qed.

Lemma X12_attr_name_form_witness :
  attr_name "nset=" "*nset, nset=  k1a , generate" = Some "K1A" ∧
  has_char "," "K1A" = false ∧ Py.strip "K1A" = "K1A" ∧ Py.upper "K1A" = "K1A".
Proof.
  destruct X12_attr_name_form as [H _].
  split; [reflexivity|].
  apply (H "nset=" "*nset, nset=  k1a , generate" "K1A"). reflexivity.
Defined.

(** * The order and the uniqueness of the named collections *)

Lemma od_get_None_keys {V} (k : string) (d : odict V) :
  od_get k d = None ↔ k ∉ d.*1.
Proof.
  induction d as [|[k' v] d IH]; simpl.
  - split; [intros _; apply not_elem_of_nil|done].
  - rewrite not_elem_of_cons, <- IH.
    destruct (String.eqb_spec k' k) as [->|Hne]; split; try done.
    + by intros [? _].
    + by intros [_ ?].
Qed.

Lemma od_set_absent {V} (k : string) (v : V) (d : odict V) :
  od_get k d = None → od_set k v d = d ++ [(k, v)].
Proof.
  induction d as [|[k' v'] d IH]; simpl; [done|].
  destruct (String.eqb k' k); [done|]. intros H. by rewrite IH.
Qed.

Lemma od_set_present_keys {V} (k : string) (v : V) (d : odict V) :
  is_Some (od_get k d) → (od_set k v d).*1 = d.*1.
Proof.
  induction d as [|[k' v'] d IH]; simpl od_get; simpl od_set; [by intros [? ?]|].
  destruct (String.eqb k' k); [done|]. intros H.
  rewrite !fmap_cons. f_equal. by apply IH.
Qed.

Lemma od_setdefault_cases {V} (k : string) (v : V) (d : odict V) :
  od_setdefault k v d = if od_get k d is Some _ then d else d ++ [(k, v)].
Proof.
  unfold od_setdefault. destruct (od_get k d) eqn:E; [done|].
  by apply od_set_absent.
Qed.

(** X13. A directive that names a collection seen before makes it current
    again and keeps its members and its place; a name seen for the first
    time is added, empty, behind the collections already there. In both
    cases the two other dictionaries are left alone, so the blocks come out
    in the order in which the names first occur in the input. *)
Theorem X13_first_seen_order {float} (st : pstate float) (ls n : string) :
  nonempty n = true →
  (Py.startswith "*nset" (Py.lower ls) = true →
   attr_name "nset=" (Py.lower ls) = Some n →
   nsets (keyword st ls) =
     (if od_get n (nsets st) is Some _ then nsets st else nsets st ++ [(n, [])]) ∧
   elsets (keyword st ls) = elsets st ∧ surfaces (keyword st ls) = surfaces st) ∧
  (Py.startswith "*elset" (Py.lower ls) = true →
   attr_name "elset=" (Py.lower ls) = Some n →
   elsets (keyword st ls) =
     (if od_get n (elsets st) is Some _ then elsets st else elsets st ++ [(n, [])]) ∧
   nsets (keyword st ls) = nsets st ∧ surfaces (keyword st ls) = surfaces st) ∧
  (Py.startswith "*surface" (Py.lower ls) = true →
   attr_name "name=" (Py.lower ls) = Some n →
   surfaces (keyword st ls) =
     (if od_get n (surfaces st) is Some _ then surfaces st
      else surfaces st ++ [(n, [])]) ∧
   nsets (keyword st ls) = nsets st ∧ elsets (keyword st ls) = elsets st).
Proof.
  intros Hne. split; [|split].
  - intros Hk Hname. rewrite (keyword_nset st ls Hk). simpl.
    rewrite Hname. simpl. rewrite Hne. simpl. by rewrite od_setdefault_cases.
  - intros Hk Hname. rewrite (keyword_elset st ls Hk). simpl.
    rewrite Hname. simpl. rewrite Hne. simpl. by rewrite od_setdefault_cases.
  - intros Hk Hname. rewrite (keyword_surface st ls Hk). simpl.
    rewrite Hname. simpl. rewrite Hne. simpl. by rewrite od_setdefault_cases.
Qed.

Lemma X13_first_seen_order_witness :
  nsets (keyword (set_nsets [("A", [1; 2]); ("B", [3])] (@init_state Dec.t))
           "*Nset, nset=a") = [("A", [1; 2]); ("B", [3])] ∧
  nsets (keyword (set_nsets [("A", [1; 2]); ("B", [3])] (@init_state Dec.t))
           "*Nset, nset=c") = [("A", [1; 2]); ("B", [3]); ("C", [])].
Proof.
  split.
  - destruct (X13_first_seen_order
                (set_nsets [("A", [1; 2]); ("B", [3])] (@init_state Dec.t))
                "*Nset, nset=a" "A" eq_refl) as [H _].
    destruct (H eq_refl eq_refl) as [-> _]. reflexivity.
  - destruct (X13_first_seen_order
                (set_nsets [("A", [1; 2]); ("B", [3])] (@init_state Dec.t))
                "*Nset, nset=c" "C" eq_refl) as [H _].
    destruct (H eq_refl eq_refl) as [-> _]. reflexivity.
Defined.

Section NamedCollections.
Context {float : Type} (py_float : string → option float).
Implicit Types st : pstate float.

(** The keys of a dictionary are distinct and in the stored form *)
Lemma keys_snoc {V} (d : odict V) (n : string) (v : V) :
  NoDup d.*1 ∧ Forall normal_name d.*1 → normal_name n →
  NoDup (od_setdefault n v d).*1 ∧ Forall normal_name (od_setdefault n v d).*1.
Proof.
  intros [Hnd Hall] Hn. rewrite od_setdefault_cases.
  destruct (od_get n d) eqn:E; [done|].
  rewrite fmap_app. simpl. split.
  - apply NoDup_app. split; [done|]. split; [|apply NoDup_singleton].
    intros x Hx Hx'. apply list_elem_of_singleton in Hx' as ->.
    by apply od_get_None_keys in E.
  - apply Forall_app. split; [done|]. apply Forall_cons. split; [done|constructor].
Qed.

Lemma keyword_keys st ls :
  (NoDup (nsets st).*1 ∧ Forall normal_name (nsets st).*1) →
  (NoDup (elsets st).*1 ∧ Forall normal_name (elsets st).*1) →
  (NoDup (surfaces st).*1 ∧ Forall normal_name (surfaces st).*1) →
  (NoDup (nsets (keyword st ls)).*1 ∧ Forall normal_name (nsets (keyword st ls)).*1) ∧
  (NoDup (elsets (keyword st ls)).*1 ∧ Forall normal_name (elsets (keyword st ls)).*1) ∧
  (NoDup (surfaces (keyword st ls)).*1 ∧
   Forall normal_name (surfaces (keyword st ls)).*1).
Proof.
  intros Hn He Hs. unfold keyword.
  destruct (Py.startswith "*node" _); [done|].
  destruct (Py.startswith "*element" _); [done|].
  destruct (Py.startswith "*nset" _).
  { destruct (truthy _) eqn:Ht; [|done].
    apply truthy_Some in Ht as (n & Hname & Hne). rewrite Hname. simpl.
    split; [|done]. apply keys_snoc; [done|]. by eapply attr_name_normal. }
  destruct (Py.startswith "*elset" _).
  { destruct (truthy _) eqn:Ht; [|done].
    apply truthy_Some in Ht as (n & Hname & Hne). rewrite Hname. simpl.
    split; [done|]. split; [|done].
    apply keys_snoc; [done|]. by eapply attr_name_normal. }
  destruct (Py.startswith "*surface" _); [|done].
  destruct (truthy _) eqn:Ht; [|done].
  apply truthy_Some in Ht as (n & Hname & Hne). rewrite Hname. simpl.
  split; [done|]. split; [done|].
  apply keys_snoc; [done|]. by eapply attr_name_normal.
Qed.

Lemma nset_line_keys st ls st' :
  nset_line st ls = Ok st' →
  (nsets st').*1 = (nsets st).*1 ∧ elsets st' = elsets st ∧ surfaces st' = surfaces st.
Proof.
  unfold nset_line. intros H.
  destruct (current_nset_name st) as [name|];
    [destruct (is_data ls)|]; try (by injection H as <-).
  apply bind_ok_inv in H as (ids & _ & H).
  apply bind_ok_inv in H as (old & Hold & H). injection H as <-. simpl.
  apply of_option_ok_inv in Hold. split; [|done].
  apply od_set_present_keys. by rewrite Hold.
Qed.

Lemma elset_line_keys st ls st' :
  elset_line st ls = Ok st' →
  nsets st' = nsets st ∧ (elsets st').*1 = (elsets st).*1 ∧ surfaces st' = surfaces st.
Proof.
  unfold elset_line. intros H.
  destruct (current_elset_name st) as [name|];
    [destruct (is_data ls)|]; try (by injection H as <-).
  apply bind_ok_inv in H as (ids & _ & H).
  apply bind_ok_inv in H as (old & Hold & H). injection H as <-. simpl.
  apply of_option_ok_inv in Hold. split; [done|]. split; [|done].
  apply od_set_present_keys. by rewrite Hold.
Qed.

Lemma surf_line_keys st ls st' :
  surf_line st ls = Ok st' →
  nsets st' = nsets st ∧ elsets st' = elsets st ∧ (surfaces st').*1 = (surfaces st).*1.
Proof.
  unfold surf_line. intros H.
  destruct (current_surf_name st) as [name|];
    [destruct (is_data ls)|]; try (by injection H as <-).
  destruct (Py.split "," ls) as [|id [|surf [|? ?]]]; try done.
  apply bind_ok_inv in H as (old & Hold & H).
  apply bind_ok_inv in H as (i & _ & H). injection H as <-. simpl.
  apply of_option_ok_inv in Hold. split; [done|]. split; [done|].
  apply od_set_present_keys. by rewrite Hold.
Qed.

Lemma process_data_keys st line st' :
  is_data (Py.strip line) = true → process_line py_float st line = Ok st' →
  (nsets st').*1 = (nsets st).*1 ∧ (elsets st').*1 = (elsets st).*1 ∧
  (surfaces st').*1 = (surfaces st).*1.
Proof.
  intros Hd H. rewrite process_line_data in H by done.
  apply bind_ok_inv in H as (st1 & H1 & H).
  apply bind_ok_inv in H as (st2 & H2 & H).
  apply bind_ok_inv in H as (st3 & H3 & H4).
  apply nset_line_keys in H2 as (A1 & A2 & A3).
  apply elset_line_keys in H3 as (B1 & B2 & B3).
  apply surf_line_keys in H4 as (C1 & C2 & C3).
  rewrite C1, C2, C3, B1, B2, B3, A1, A2, A3.
  by apply section_line_effect in H1 as [[v ->]|[v ->]].
Qed.

Lemma parse_lines_keys lines st st' :
  parse_lines py_float st lines = Ok st' →
  (NoDup (nsets st).*1 ∧ Forall normal_name (nsets st).*1) →
  (NoDup (elsets st).*1 ∧ Forall normal_name (elsets st).*1) →
  (NoDup (surfaces st).*1 ∧ Forall normal_name (surfaces st).*1) →
  (NoDup (nsets st').*1 ∧ Forall normal_name (nsets st').*1) ∧
  (NoDup (elsets st').*1 ∧ Forall normal_name (elsets st').*1) ∧
  (NoDup (surfaces st').*1 ∧ Forall normal_name (surfaces st').*1).
Proof.
  revert st. induction lines as [|line lines IH]; intros st H Hn He Hs.
  - by injection H as <-.
  - simpl in H. apply bind_ok_inv in H as (st1 & H1 & H).
    destruct (process_line_cases py_float st line) as [E|[E|Hd]].
    + rewrite E in H1. injection H1 as <-. by apply (IH st).
    + rewrite E in H1. injection H1 as <-.
      destruct (keyword_keys st (Py.strip line) Hn He Hs) as (A & B & C).
      by apply (IH (keyword st (Py.strip line))).
    + destruct (process_data_keys st line st1 Hd H1) as (A & B & C).
      apply (IH st1 H); by rewrite ?A, ?B, ?C.
Qed.

(** X14. In the model that [parse_inp] returns, the names of the node sets
    are pairwise distinct, and so are those of the element sets and of the
    surfaces: each name gets one block in the output. Every name is not
    empty and in the stored form (no comma, no surrounding white space, no
    lower-case letter), which is the form a key of the ID tables must have
    to be found. *)
Theorem X14_names_distinct_and_normal lines st :
  parse_inp py_float lines = Ok st →
  (NoDup (nsets st).*1 ∧ Forall normal_name (nsets st).*1) ∧
  (NoDup (elsets st).*1 ∧ Forall normal_name (elsets st).*1) ∧
  (NoDup (surfaces st).*1 ∧ Forall normal_name (surfaces st).*1).
Proof.
  intros H. apply (parse_lines_keys lines init_state st H);
    (split; [apply NoDup_nil_2|constructor]).
Qed.

End NamedCollections.

(** * Repeated IDs *)

Section RepeatedIds.
Context {float : Type} (py_float : string → option float).
Implicit Types st : pstate float.

Lemma process_node_line st line p0 p1 p2 p3 rest nid x y z :
  reading_nodes st = true → is_data (Py.strip line) = true →
  current_nset_name st = None → current_elset_name st = None →
  current_surf_name st = None →
  Py.split "," (Py.strip line) = p0 :: p1 :: p2 :: p3 :: rest →
  Py.int p0 = Some nid → py_float p1 = Some x →
  py_float p2 = Some y → py_float p3 = Some z →
  process_line py_float st line =
    Ok (set_nodes (<[nid := (x, y, z)]> (nodes st)) st).
Proof.
  intros Hrn Hd Hn He Hs Hsplit H0 H1 H2 H3.
  apply process_line_section; try done.
  unfold section_line. rewrite Hrn.
  by rewrite (node_line_fields _ _ _ _ _ _ _ _ Hsplit), H0, H1, H2, H3.
Qed.

Lemma process_element_line st line p0 fs rest eid conn :
  reading_nodes st = false → reading_elements st = true →
  is_data (Py.strip line) = true →
  current_nset_name st = None → current_elset_name st = None →
  current_surf_name st = None →
  Py.split "," (Py.strip line) = p0 :: fs ++ rest → length fs = 8%nat →
  Py.int p0 = Some eid → mapM Py.int fs = Some conn →
  process_line py_float st line =
    Ok (set_elements (<[eid := conn]> (elements st)) st).
Proof.
  intros Hrn Hre Hd Hn He Hs Hsplit Hlen H0 Hconn.
  apply process_line_section; try done.
  unfold section_line. rewrite Hrn, Hre.
  rewrite (element_line_fields _ _ _ _ Hsplit) by (rewrite length_app; lia).
  by rewrite <- Hlen, take_app_length, H0, Hconn.
Qed.

(** X15. While no named collection is current, a node ID (or element ID)
    that occurs on two data lines of its section is not an error: the later
    line replaces the earlier one, and reading both lines leaves the same
    state as reading the second alone. *)
Theorem X15_repeated_id_last_wins st line1 line2 :
  current_nset_name st = None → current_elset_name st = None →
  current_surf_name st = None →
  is_data (Py.strip line1) = true → is_data (Py.strip line2) = true →
  (∀ p0 p1 p2 p3 rest q0 q1 q2 q3 rest' nid x y z x' y' z',
     reading_nodes st = true →
     Py.split "," (Py.strip line1) = p0 :: p1 :: p2 :: p3 :: rest →
     Py.split "," (Py.strip line2) = q0 :: q1 :: q2 :: q3 :: rest' →
     Py.int p0 = Some nid → Py.int q0 = Some nid →
     py_float p1 = Some x → py_float p2 = Some y → py_float p3 = Some z →
     py_float q1 = Some x' → py_float q2 = Some y' → py_float q3 = Some z' →
     parse_lines py_float st [line1; line2] = parse_lines py_float st [line2] ∧
     parse_lines py_float st [line1; line2] =
       Ok (set_nodes (<[nid := (x', y', z')]> (nodes st)) st)) ∧
  (∀ p0 fs rest q0 fs' rest' eid conn conn',
     reading_nodes st = false → reading_elements st = true →
     Py.split "," (Py.strip line1) = p0 :: fs ++ rest → length fs = 8%nat →
     Py.split "," (Py.strip line2) = q0 :: fs' ++ rest' → length fs' = 8%nat →
     Py.int p0 = Some eid → Py.int q0 = Some eid →
     mapM Py.int fs = Some conn → mapM Py.int fs' = Some conn' →
     parse_lines py_float st [line1; line2] = parse_lines py_float st [line2] ∧
     parse_lines py_float st [line1; line2] =
       Ok (set_elements (<[eid := conn']> (elements st)) st)).
Proof.
  intros Hn He Hs Hd1 Hd2. split.
  - intros p0 p1 p2 p3 rest q0 q1 q2 q3 rest' nid x y z x' y' z'
      Hrn S1 S2 I1 I2 F1 F2 F3 G1 G2 G3.
    simpl.
    rewrite (process_node_line st line1 p0 p1 p2 p3 rest nid x y z) by done.
    rewrite (process_node_line st line2 q0 q1 q2 q3 rest' nid x' y' z') by done.
    simpl.
    rewrite (process_node_line _ line2 q0 q1 q2 q3 rest' nid x' y' z') by done.
    simpl. unfold set_nodes. simpl. by rewrite insert_insert_eq.
  - intros p0 fs rest q0 fs' rest' eid conn conn' Hrn Hre S1 L1 S2 L2 I1 I2 M1 M2.
    simpl.
    rewrite (process_element_line st line1 p0 fs rest eid conn) by done.
    rewrite (process_element_line st line2 q0 fs' rest' eid conn') by done.
    simpl.
    rewrite (process_element_line _ line2 q0 fs' rest' eid conn') by done.
    simpl. unfold set_elements. simpl. by rewrite insert_insert_eq.
Qed.

End RepeatedIds.

(** * The reader of [Untitled-1.py] *)

Section Untitled1Facts.
Context {float : Type} (py_float : string → option float).
Implicit Types st : pstate float.

Lemma u1_keyword_node st ls :
  Py.startswith "*node" (Py.lower ls) = true →
  Untitled1.keyword st ls =
    set_current None None (current_surf_name st) (set_reading true false st).
Proof. intros H. unfold Untitled1.keyword. by rewrite H. Qed.

Lemma u1_keyword_element st ls :
  Py.startswith "*element" (Py.lower ls) = true →
  Untitled1.keyword st ls =
    set_current None None (current_surf_name st) (set_reading false true st).
Proof.
  intros H. unfold Untitled1.keyword. by rewrite (startswith_element _ H), H.
Qed.

Lemma u1_keyword_nset st ls n :
  Py.startswith "*nset" (Py.lower ls) = true →
  attr_name "nset=" (Py.lower ls) = Some n → nonempty n = true →
  Untitled1.keyword st ls =
    set_current (current_elset_name st) (Some n) (current_surf_name st)
      (set_nsets (od_setdefault n [] (nsets st)) (set_reading false false st)).
Proof.
  intros H Hname Hne. destruct (startswith_nset _ H) as (H1 & H2).
  unfold Untitled1.keyword. rewrite H1, H2, H, Hname. simpl. by rewrite Hne.
Qed.

Lemma u1_keyword_elset st ls n :
  Py.startswith "*elset" (Py.lower ls) = true →
  attr_name "elset=" (Py.lower ls) = Some n → nonempty n = true →
  Untitled1.keyword st ls =
    set_current (Some n) (current_nset_name st) (current_surf_name st)
      (set_elsets (od_setdefault n [] (elsets st)) (set_reading false false st)).
Proof.
  intros H Hname Hne. destruct (startswith_elset _ H) as (H1 & H2 & H3).
  unfold Untitled1.keyword. rewrite H1, H2, H3, H, Hname. simpl. by rewrite Hne.
Qed.

(** X16. In [Untitled-1.py] a [*node] or [*element] line closes both the
    current node set and the current element set, whereas a named [*nset]
    line leaves the element-set pointer, and a named [*elset] line the
    node-set pointer, as it was. Both sets can thus be current together,
    and a data line is then read as integers and appended to both. *)
Theorem X16_untitled1_set_pointers :
  (∀ st ls,
     Py.startswith "*node" (Py.lower ls) = true ∨
     Py.startswith "*element" (Py.lower ls) = true →
     current_nset_name (Untitled1.keyword st ls) = None ∧
     current_elset_name (Untitled1.keyword st ls) = None) ∧
  (∀ st ls n,
     Py.startswith "*nset" (Py.lower ls) = true →
     attr_name "nset=" (Py.lower ls) = Some n → nonempty n = true →
     current_nset_name (Untitled1.keyword st ls) = Some n ∧
     current_elset_name (Untitled1.keyword st ls) = current_elset_name st) ∧
  (∀ st ls n,
     Py.startswith "*elset" (Py.lower ls) = true →
     attr_name "elset=" (Py.lower ls) = Some n → nonempty n = true →
     current_elset_name (Untitled1.keyword st ls) = Some n ∧
     current_nset_name (Untitled1.keyword st ls) = current_nset_name st) ∧
  (∀ st line n1 n2 old1 old2 ids,
     reading_nodes st = false → reading_elements st = false →
     nonempty (Py.strip line) = true →
     Py.startswith "*" (Py.strip line) = false →
     current_nset_name st = Some n1 → current_elset_name st = Some n2 →
     od_get n1 (nsets st) = Some old1 → od_get n2 (elsets st) = Some old2 →
     mapM Py.int (Py.split_ws (Py.replace_char "," " " (Py.strip line))) = Some ids →
     Untitled1.process_line py_float st line =
       Ok (set_elsets (od_set n2 (old2 ++ ids) (elsets st))
             (set_nsets (od_set n1 (old1 ++ ids) (nsets st)) st))).
Proof.
  split; [|split; [|split]].
  - intros st ls [H|H].
    + by rewrite (u1_keyword_node st ls H).
    + by rewrite (u1_keyword_element st ls H).
  - intros st ls n H Hname Hne. by rewrite (u1_keyword_nset st ls n H Hname Hne).
  - intros st ls n H Hname Hne. by rewrite (u1_keyword_elset st ls n H Hname Hne).
  - intros st line n1 n2 old1 old2 ids Hrn Hre Hne Hstar Hn He Ho1 Ho2 Hids.
    unfold Untitled1.process_line. rewrite Hne, Hstar. simpl.
    destruct (Py.startswith "**" (Py.strip line)) eqn:E2;
      [apply startswith_star2 in E2; congruence|].
    unfold Untitled1.section_line. rewrite Hrn, Hre. simpl.
    unfold Untitled1.nset_line. rewrite Hn, Hstar. simpl.
    rewrite Hids, Ho1. simpl.
    unfold Untitled1.elset_line. simpl. rewrite He, Hstar. simpl.
    by rewrite Hids, Ho2.
Qed.

(** ** Surfaces are only registered *)

Lemma u1_keyword_surfaces st ls :
  Forall (λ entry, entry.2 = []) (surfaces st) → current_surf_name st = None →
  Forall (λ entry, entry.2 = []) (surfaces (Untitled1.keyword st ls)) ∧
  current_surf_name (Untitled1.keyword st ls) = None.
Proof.
  intros Hall Hs. unfold Untitled1.keyword.
  destruct (Py.startswith "*node" _); [done|].
  destruct (Py.startswith "*element" _); [done|].
  destruct (Py.startswith "*nset" _); [by destruct (truthy _)|].
  destruct (Py.startswith "*elset" _); [by destruct (truthy _)|].
  destruct (Py.startswith "*surface" _); [|done].
  destruct (truthy _); [|done]. simpl. split; [|done].
  rewrite od_setdefault_cases. destruct (od_get _ _); [done|].
  apply Forall_app. split; [done|]. apply Forall_cons. split; [done|constructor].
Qed.

Lemma u1_data_surfaces st line st' :
  (st1 ← Untitled1.section_line py_float st line;
   st2 ← Untitled1.nset_line st1 line;
   Untitled1.elset_line st2 line) = Ok st' →
  surfaces st' = surfaces st ∧ current_surf_name st' = current_surf_name st.
Proof.
  intros H. apply bind_ok_inv in H as (st1 & H1 & H).
  apply bind_ok_inv in H as (st2 & H2 & H3).
  assert (surfaces st1 = surfaces st ∧ current_surf_name st1 = current_surf_name st)
    as [A1 A2].
  { unfold Untitled1.section_line, node_line, Untitled1.element_line in H1.
    destruct (reading_nodes st); [|destruct (reading_elements st)].
    - case_bool_decide; [|by injection H1 as <-].
      apply bind_ok_inv in H1 as (? & _ & H1). apply bind_ok_inv in H1 as (? & _ & H1).
      apply bind_ok_inv in H1 as (? & _ & H1). apply bind_ok_inv in H1 as (? & _ & H1).
      by injection H1 as <-.
    - case_bool_decide; [|by injection H1 as <-].
      apply bind_ok_inv in H1 as (? & _ & H1). apply bind_ok_inv in H1 as (? & _ & H1).
      by injection H1 as <-.
    - by injection H1 as <-. }
  assert (surfaces st2 = surfaces st1 ∧ current_surf_name st2 = current_surf_name st1)
    as [B1 B2].
  { unfold Untitled1.nset_line in H2.
    destruct (current_nset_name st1); [|by injection H2 as <-].
    destruct (negb _); [|by injection H2 as <-].
    apply bind_ok_inv in H2 as (? & _ & H2). apply bind_ok_inv in H2 as (? & _ & H2).
    by injection H2 as <-. }
  assert (surfaces st' = surfaces st2 ∧ current_surf_name st' = current_surf_name st2)
    as [C1 C2].
  { unfold Untitled1.elset_line in H3.
    destruct (current_elset_name st2); [|by injection H3 as <-].
    destruct (negb _); [|by injection H3 as <-].
    apply bind_ok_inv in H3 as (? & _ & H3). apply bind_ok_inv in H3 as (? & _ & H3).
    by injection H3 as <-. }
  split; congruence.
Qed.

Lemma u1_process_line_surfaces st line st' :
  Untitled1.process_line py_float st line = Ok st' →
  Forall (λ entry, entry.2 = []) (surfaces st) → current_surf_name st = None →
  Forall (λ entry, entry.2 = []) (surfaces st') ∧ current_surf_name st' = None.
Proof.
  unfold Untitled1.process_line. intros H Hall Hs.
  destruct (negb _ || _); [by injection H as <-|].
  destruct (Py.startswith "*" (Py.strip line)).
  - injection H as <-. by apply u1_keyword_surfaces.
  - apply u1_data_surfaces in H as [-> ->]. done.
Qed.

(** X17. The reader of [Untitled-1.py] records the names of the surfaces
    and nothing else about them: in the model it returns every surface has
    an empty list, and no surface is ever current, so a facet line is never
    stored as a facet. *)
Theorem X17_untitled1_surfaces_stay_empty lines st :
  Untitled1.parse_inp py_float lines = Ok st →
  Forall (λ entry, entry.2 = []) (surfaces st) ∧ current_surf_name st = None.
Proof.
  unfold Untitled1.parse_inp.
  assert (∀ st0, Forall (λ entry, entry.2 = []) (surfaces st0) →
                 current_surf_name st0 = None →
                 Untitled1.parse_lines py_float st0 lines = Ok st →
                 Forall (λ entry, entry.2 = []) (surfaces st) ∧
                 current_surf_name st = None) as Hgen.
  { induction lines as [|line lines IH]; intros st0 Hall Hs H.
    - by injection H as <-.
    - simpl in H. apply bind_ok_inv in H as (st1 & H1 & H).
      destruct (u1_process_line_surfaces _ _ _ H1 Hall Hs).
      by apply (IH st1). }
  apply Hgen; [constructor|done].
Qed.

End Untitled1Facts.

(** * Face labels are kept as written *)

Lemma surf_def_keys_form face pos :
  config.abq_surf_def !! face = Some pos → Py.strip face = face ∧ Py.upper face = face.
Proof.
  intros H. apply surf_def_cases in H.
  repeat (apply elem_of_cons in H as [H|H]).
  all: try (by apply elem_of_nil in H).
  all: by injection H as -> ->.
Qed.

(** X18. The reader stores the face label of a facet line exactly as the
    text after the comma, neither stripped nor upper-cased, and the resolver
    looks it up as it is. A facet line such as [1, S1], with a blank after
    the comma, or [1,s1] is therefore read without error and then makes the
    resolver raise [KeyError]. *)
Theorem X18_face_label_verbatim {float} (py_float : string → option float)
    (st : pstate float) line name old id_s face i (elements : gmap Z (list Z)) :
  current_surf_name st = Some name →
  current_nset_name st = None → current_elset_name st = None →
  is_data (Py.strip line) = true →
  od_get name (surfaces st) = Some old →
  Py.split "," (Py.strip line) = [id_s; face] → Py.int id_s = Some i →
  Py.strip face ≠ face ∨ Py.upper face ≠ face →
  process_line py_float st line =
    Ok (set_surfaces (od_set name (old ++ [(i, face)]) (surfaces st)) st) ∧
  get_surface_nodes elements i face = Raise KeyError.
Proof.
  intros Hs Hn He Hd Hold Hsplit Hi Hform. split.
  - rewrite (process_line_facet py_float st line name old id_s face) by done.
    by rewrite Hi.
  - unfold get_surface_nodes.
    destruct (elements !! i); [|done]. simpl.
    destruct (config.abq_surf_def !! face) as [pos|] eqn:E; [|done].
    apply surf_def_keys_form in E as [E1 E2]. by destruct Hform.
Qed.

Lemma X18_face_label_verbatim_witness :
  process_line Dec.of_string
      (set_current None None (Some "OUTERS")
         (set_surfaces [("OUTERS", [])] init_state)) "1, S1" =
    Ok (set_current None None (Some "OUTERS")
          (set_surfaces [("OUTERS", [(1, " S1")])] init_state)) ∧
  get_surface_nodes {[ 1 := [11; 12; 13; 14; 15; 16; 17; 18] ]} 1 " S1" =
    Raise KeyError.
Proof.
  destruct (X18_face_label_verbatim Dec.of_string
              (set_current None None (Some "OUTERS")
                 (set_surfaces [("OUTERS", [])] init_state))
              "1, S1" "OUTERS" [] "1" " S1" 1
              {[ 1 := [11; 12; 13; 14; 15; 16; 17; 18] ]})
    as [H1 H2]; try reflexivity.
  { left. by vm_compute. }
  split; [exact H1|exact H2].
Defined.

(** * Reading back what the writer prints *)

(** ** [int(str(n))] *)

Lemma int_digits_acc (d : Decimal.uint) (acc : positive) :
  Py.int_digits (Z.pos acc) true (NilEmpty.string_of_uint d) =
    Some (Z.pos (Pos.of_uint_acc d acc)).
Proof.
  revert acc. induction d; intros acc; [done|..]; simpl;
    match goal with
    | |- Py.int_digits ?z true _ = Some (Z.pos (Pos.of_uint_acc _ ?a)) =>
        replace z with (Z.pos a) by (vm_compute Py.digit_val; lia)
    end; apply IHd.
Qed.

Lemma int_digits_uint (d : Decimal.uint) :
  Py.int_digits 0 true (NilEmpty.string_of_uint d) = Some (Z.of_N (Pos.of_uint d)).
Proof.
  induction d; [done|exact IHd|..]; simpl;
    match goal with
    | |- Py.int_digits ?z true _ = Some (Z.pos (Pos.of_uint_acc _ ?a)) =>
        replace z with (Z.pos a) by (vm_compute; reflexivity)
    end; apply int_digits_acc.
Qed.

Lemma int_digits_first (d : Decimal.uint) :
  d ≠ Decimal.Nil →
  Py.int_digits 0 false (NilEmpty.string_of_uint d) =
  Py.int_digits 0 true (NilEmpty.string_of_uint d).
Proof. by destruct d. Qed.

Lemma plain_uint (d : Decimal.uint) : plain (NilEmpty.string_of_uint d) = true.
Proof. induction d; simpl; auto. Qed.

Lemma plain_app (a b : string) : plain (a +:+ b) = plain a && plain b.
Proof.
  induction a as [|c a IH]; [done|]. rewrite sapp_cons. simpl. rewrite IH.
  by rewrite !andb_assoc.
Qed.

Lemma plain_lstrip (s : string) : plain s = true → Py.lstrip s = s.
Proof.
  destruct s as [|c s]; [done|]. simpl. intros H.
  apply andb_true_iff in H as [H _]. apply andb_true_iff in H as [H _].
  apply negb_true_iff in H. by rewrite H.
Qed.

Lemma plain_rstrip (s : string) : plain s = true → Py.rstrip s = s.
Proof.
  induction s as [|c s IH]; [done|]. intros H. simpl in H.
  apply andb_true_iff in H as [H Hs]. apply andb_true_iff in H as [H _].
  apply negb_true_iff in H. rewrite rstrip_cons, (IH Hs), H. by destruct s.
Qed.

Lemma plain_strip (s : string) : plain s = true → Py.strip s = s.
Proof.
  intros H. unfold Py.strip. by rewrite (plain_lstrip s H), (plain_rstrip s H).
Qed.

Lemma is_cspace_space (c : ascii) : Py.is_space c = false → Py.is_cspace c = false.
Proof.
  unfold Py.is_space, Py.is_cspace. cbv zeta. intros H.
  apply orb_false_iff in H as [H1 H2]. rewrite H1. simpl.
  apply Nat.eqb_neq. intros E. rewrite E in H2. discriminate H2.
Qed.

Lemma plain_lskip (s : string) : plain s = true → Py.lskip s = s.
Proof.
  destruct s as [|c s]; [done|]. simpl. intros H.
  apply andb_true_iff in H as [H _]. apply andb_true_iff in H as [H _].
  apply negb_true_iff in H. by rewrite (is_cspace_space c H).
Qed.

Lemma rskip_cons (c : ascii) (s : string) :
  Py.rskip (String c s) =
    match Py.rskip s with
    | EmptyString => if Py.is_cspace c then EmptyString else String c EmptyString
    | r => String c r
    end.
Proof. reflexivity. Qed.

Lemma plain_rskip (s : string) : plain s = true → Py.rskip s = s.
Proof.
  induction s as [|c s IH]; [done|]. intros H. simpl in H.
  apply andb_true_iff in H as [H Hs]. apply andb_true_iff in H as [H _].
  apply negb_true_iff in H.
  rewrite rskip_cons, (IH Hs), (is_cspace_space c H). by destruct s.
Qed.

Lemma plain_skip_space (s : string) : plain s = true → Py.skip_space s = s.
Proof.
  intros H. unfold Py.skip_space. by rewrite (plain_lskip s H), (plain_rskip s H).
Qed.

Lemma to_uint_not_nil (p : positive) : Pos.to_uint p ≠ Decimal.Nil.
Proof.
  intros E. pose proof (DecimalPos.Unsigned.of_to p) as H. by rewrite E in H.
Qed.

Lemma str_pos (p : positive) :
  Py.str (Z.pos p) = NilEmpty.string_of_uint (Pos.to_uint p).
Proof.
  unfold Py.str. simpl. pose proof (to_uint_not_nil p). by destruct (Pos.to_uint p).
Qed.

Lemma str_neg (p : positive) :
  Py.str (Z.neg p) = String "-" (NilEmpty.string_of_uint (Pos.to_uint p)).
Proof.
  unfold Py.str. simpl. pose proof (to_uint_not_nil p). by destruct (Pos.to_uint p).
Qed.

Lemma plain_str (n : Z) : plain (Py.str n) = true ∧ nonempty (Py.str n) = true.
Proof.
  destruct n as [|p|p]; [done|..].
  - rewrite str_pos. split; [apply plain_uint|].
    pose proof (to_uint_not_nil p). by destruct (Pos.to_uint p).
  - rewrite str_neg. split; [|done]. simpl. apply plain_uint.
Qed.

Lemma int_str (n : Z) : Py.int (Py.str n) = Some n.
Proof.
  unfold Py.int. rewrite (plain_skip_space _ (proj1 (plain_str n))).
  destruct n as [|p|p]; [done|..].
  - rewrite str_pos.
    assert (Py.int_digits 0 false (NilEmpty.string_of_uint (Pos.to_uint p)) =
            Some (Z.pos p)) as H.
    { rewrite int_digits_first by apply to_uint_not_nil.
      by rewrite int_digits_uint, DecimalPos.Unsigned.of_to. }
    pose proof (to_uint_not_nil p). by destruct (Pos.to_uint p).
  - rewrite str_neg.
    rewrite int_digits_first by apply to_uint_not_nil.
    by rewrite int_digits_uint, DecimalPos.Unsigned.of_to.
Qed.

(** ** The tokens of a member line *)

Lemma smap_app (f : ascii → ascii) (a b : string) :
  Py.smap f (a +:+ b) = Py.smap f a +:+ Py.smap f b.
Proof.
  induction a as [|c a IH]; [done|]. rewrite sapp_cons. simpl.
  by rewrite IH, sapp_cons.
Qed.

Lemma replace_app (x y : ascii) (a b : string) :
  Py.replace_char x y (a +:+ b) = Py.replace_char x y a +:+ Py.replace_char x y b.
Proof. apply smap_app. Qed.

Lemma replace_plain (s : string) :
  plain s = true → Py.replace_char "," " " s = s.
Proof.
  induction s as [|c s IH]; [done|]. intros H. simpl in H.
  apply andb_true_iff in H as [H Hs]. apply andb_true_iff in H as [_ H].
  apply negb_true_iff in H. unfold Py.replace_char in *. simpl.
  by rewrite H, (IH Hs).
Qed.

Lemma split_ws_blank (s : string) : Py.split_ws (String " " s) = Py.split_ws s.
Proof. reflexivity. Qed.

Lemma split_ws_token_blank (tok rest : string) :
  plain tok = true → nonempty tok = true →
  Py.split_ws (tok +:+ String " " rest) = tok :: Py.split_ws rest.
Proof.
  induction tok as [|c tok IH]; [done|]. intros H _. simpl in H.
  apply andb_true_iff in H as [H Htok]. apply andb_true_iff in H as [H _].
  apply negb_true_iff in H. rewrite sapp_cons.
  destruct tok as [|c' tok].
  - simpl. by rewrite H.
  - specialize (IH Htok eq_refl).
    assert (Py.is_space c' = false) as H'.
    { simpl in Htok. apply andb_true_iff in Htok as [Htok _].
      apply andb_true_iff in Htok as [Htok _]. by apply negb_true_iff. }
    rewrite sapp_cons in IH |- *.
    change (Py.split_ws (String c (String c' (tok +:+ String " " rest))))
      with (if Py.is_space c then Py.split_ws (String c' (tok +:+ String " " rest))
            else if Py.is_space c'
                 then String c "" :: Py.split_ws (String c' (tok +:+ String " " rest))
                 else match Py.split_ws (String c' (tok +:+ String " " rest)) with
                      | [] => [String c ""]
                      | h :: t => String c h :: t
                      end).
    by rewrite H, H', IH.
Qed.

Lemma split_ws_token (tok : string) :
  plain tok = true → nonempty tok = true → Py.split_ws tok = [tok].
Proof.
  induction tok as [|c tok IH]; [done|]. intros H _. simpl in H.
  apply andb_true_iff in H as [H Htok]. apply andb_true_iff in H as [H _].
  apply negb_true_iff in H.
  destruct tok as [|c' tok].
  - simpl. by rewrite H.
  - specialize (IH Htok eq_refl).
    assert (Py.is_space c' = false) as H'.
    { simpl in Htok. apply andb_true_iff in Htok as [Htok _].
      apply andb_true_iff in Htok as [Htok _]. by apply negb_true_iff. }
    change (Py.split_ws (String c (String c' tok)))
      with (if Py.is_space c then Py.split_ws (String c' tok)
            else if Py.is_space c'
                 then String c "" :: Py.split_ws (String c' tok)
                 else match Py.split_ws (String c' tok) with
                      | [] => [String c ""]
                      | h :: t => String c h :: t
                      end).
    by rewrite H, H', IH.
Qed.

Lemma tokens_of_join (ids : list Z) :
  Py.split_ws (Py.replace_char "," " " (Py.join ", " (Py.str <$> ids))) =
  Py.str <$> ids.
Proof.
  induction ids as [|x ids IH]; [done|].
  destruct (plain_str x) as [Hp Hne].
  destruct ids as [|y ids].
  - simpl. rewrite (replace_plain _ Hp). by apply split_ws_token.
  - rewrite !fmap_cons, join_cons2. rewrite <- fmap_cons.
    rewrite !replace_app, (replace_plain _ Hp).
    change (Py.replace_char "," " " ", ") with (String " " (String " " "")).
    rewrite !sapp_cons, sapp_nil_l.
    rewrite (split_ws_token_blank _ _ Hp Hne), split_ws_blank.
    by rewrite IH.
Qed.

Lemma mapM_int_str (ids : list Z) : mapM Py.int (Py.str <$> ids) = Some ids.
Proof.
  apply mapM_Some_2. induction ids as [|x ids IH]; [constructor|].
  rewrite fmap_cons. constructor; [apply int_str|done].
Qed.

Lemma startswith_star_cons (c : ascii) (s : string) :
  c ≠ "*"%char → Py.startswith "*" (String c s) = false.
Proof.
  intros Hc. unfold Py.startswith.
  change (String.prefix "*" (String c s))
    with (if ascii_dec "*" c then String.prefix "" s else false).
  destruct (ascii_dec "*" c); [congruence|done].
Qed.

Lemma join_str_is_data (x : Z) (ids : list Z) :
  is_data (Py.join ", " (Py.str <$> x :: ids)) = true.
Proof.
  assert (∃ c s, Py.join ", " (Py.str <$> x :: ids) = String c s ∧
                 Py.startswith "*" (String c s) = false) as (c & s & -> & H).
  { assert (∃ c s, Py.str x = String c s ∧ c ≠ "*"%char) as (c & s & E & Hc).
    { destruct x as [|p|p].
      - by exists "0"%char, "".
      - rewrite str_pos. pose proof (to_uint_not_nil p).
        destruct (Pos.to_uint p); try done; by eexists _, _.
      - rewrite str_neg. by eexists _, _. }
    destruct ids as [|y ids].
    - simpl. rewrite E. exists c, s. split; [done|].
      by apply startswith_star_cons.
    - rewrite !fmap_cons, join_cons2, E, sapp_cons. eexists _, _. split; [done|].
      by apply startswith_star_cons. }
  unfold is_data. by rewrite H.
Qed.

(** X19. Integers survive printing and reading: [int(str(n))] is [n]. So a
    member line as [write_k] prints it (IDs joined by ", ") is split by the
    set blocks of the reader into the same IDs, in the same order: read
    under an active node set or element set, the line appends exactly the
    IDs that were printed. *)
Theorem X19_member_line_read_back :
  (∀ n, Py.int (Py.str n) = Some n) ∧
  (∀ ids,
     mapM Py.int
       (Py.split_ws (Py.replace_char "," " " (Py.join ", " (Py.str <$> ids))))
     = Some ids) ∧
  (∀ {float} (st : pstate float) name old x ids,
     current_nset_name st = Some name → od_get name (nsets st) = Some old →
     nset_line st (Py.join ", " (Py.str <$> x :: ids)) =
       Ok (set_nsets (od_set name (old ++ x :: ids) (nsets st)) st)) ∧
  (∀ {float} (st : pstate float) name old x ids,
     current_elset_name st = Some name → od_get name (elsets st) = Some old →
     elset_line st (Py.join ", " (Py.str <$> x :: ids)) =
       Ok (set_elsets (od_set name (old ++ x :: ids) (elsets st)) st)).
Proof.
  split; [exact int_str|]. split; [|split].
  - intros ids. by rewrite tokens_of_join, mapM_int_str.
  - intros float st name old x ids Hn Hold. unfold nset_line.
    rewrite Hn, join_str_is_data, filter_nonempty_split_ws, tokens_of_join,
      mapM_int_str, Hold. done.
  - intros float st name old x ids He Hold. unfold elset_line.
    rewrite He, join_str_is_data, tokens_of_join, mapM_int_str, Hold. done.
Qed.

Lemma X19_member_line_read_back_witness :
  nset_line (set_current None (Some "K1A") None
               (set_nsets [("K1A", [5])] (@init_state Dec.t)))
      "-3, 0, 12, 4096" =
    Ok (set_current None (Some "K1A") None
          (set_nsets [("K1A", [5; -3; 0; 12; 4096])] init_state)).
Proof.
  destruct X19_member_line_read_back as (_ & _ & H & _).
  exact (H Dec.t
           (set_current None (Some "K1A") None
              (set_nsets [("K1A", [5])] (@init_state Dec.t)))
           "K1A" [5] (-3) [0; 12; 4096] eq_refl eq_refl).
Defined.

(** * The further properties on concrete inputs *)

Lemma X1_node_block_witness :
  node_text Dec.to_string
      {[ 2 := (Dec.Make false 15 1, Dec.Make false 0 1, Dec.Make true 2 0) ]} 2 =
    "2, 1.5, 0, -2, 0, 0" ∧
  write_nodes Dec.to_string
      {[ 2 := (Dec.Make false 15 1, Dec.Make false 0 1, Dec.Make true 2 0);
         1 := (Dec.Make false 0 0, Dec.Make false 0 0, Dec.Make false 0 0) ]} =
    (unlines ["*DUALCESE_NODE3D"; "1, 0, 0, 0, 0, 0"; "2, 1.5, 0, -2, 0, 0"], Ok ()).
Proof.
  split.
  - destruct (X1_node_block Dec.to_string
        {[ 2 := (Dec.Make false 15 1, Dec.Make false 0 1, Dec.Make true 2 0) ]})
      as (_ & _ & _ & H & _).
    rewrite (H 2 (Dec.Make false 15 1, Dec.Make false 0 1, Dec.Make true 2 0));
      [reflexivity|by vm_compute].
  - destruct (X1_node_block Dec.to_string
        {[ 2 := (Dec.Make false 15 1, Dec.Make false 0 1, Dec.Make true 2 0);
           1 := (Dec.Make false 0 0, Dec.Make false 0 0, Dec.Make false 0 0) ]})
      as (H & _).
    rewrite H. by vm_compute.
Defined.

Lemma X7_parsed_elements_witness :
  emitted_elements
    (elements (set_elements {[ 7 := [1; 2; 3; 4; 5; 6; 7; 8] ]}
                 (set_reading false true (@init_state Dec.t)))) =
  Py.sorted_keys
    (elements (set_elements {[ 7 := [1; 2; 3; 4; 5; 6; 7; 8] ]}
                 (set_reading false true (@init_state Dec.t)))).
Proof.
  apply (X7_parsed_elements_have_8_refs Dec.of_string
           ["*Element, type=C3D8R"; "7, 1, 2, 3, 4, 5, 6, 7, 8, 9"; "8, 1, 2"]).
  by vm_compute.
Defined.

Lemma X8_parse_raises_only_ValueError_witness :
  parse_inp Dec.of_string ["*Node"; "1, 0.0, zero, 0.0"] = Raise ValueError ∧
  ValueError = ValueError.
Proof.
  split; [by vm_compute|].
  apply (X8_parse_raises_only_ValueError Dec.of_string
           ["*Node"; "1, 0.0, zero, 0.0"]).
  by vm_compute.
Defined.

Lemma X11_lines_outside_sections_witness :
  parse_lines Dec.of_string init_state
      (["heading text"; "1, 2, x"] ++ ["*Node"; "1, 0.0, 0.0, 0.0"]) =
  parse_lines Dec.of_string init_state ["*Node"; "1, 0.0, 0.0, 0.0"].
Proof.
  apply X11_lines_outside_sections; try reflexivity.
  repeat constructor.
Defined.

Lemma X14_names_witness :
  NoDup (nsets (set_current None (Some "A") None
                  (set_nsets [("A", [1; 3]); ("B", [2])] (@init_state Dec.t)))).*1 ∧
  Forall normal_name
    (nsets (set_current None (Some "A") None
              (set_nsets [("A", [1; 3]); ("B", [2])] (@init_state Dec.t)))).*1.
Proof.
  apply (X14_names_distinct_and_normal Dec.of_string
           ["*Nset, nset=a"; "1"; "*Nset, nset= b "; "2"; "*NSET, NSET=A"; "3"]).
  by vm_compute.
Defined.

Lemma X15_repeated_id_witness :
  parse_lines Dec.of_string (set_reading true false init_state)
      ["1, 0.0, 0.0, 0.0"; "1, 1.0, 2.0, 3.0"] =
    Ok (set_nodes
          {[ 1 := (Dec.Make false 10 1, Dec.Make false 20 1, Dec.Make false 30 1) ]}
          (set_reading true false init_state)).
Proof.
  destruct (X15_repeated_id_last_wins Dec.of_string
              (set_reading true false init_state)
              "1, 0.0, 0.0, 0.0" "1, 1.0, 2.0, 3.0"
              eq_refl eq_refl eq_refl eq_refl eq_refl) as [H _].
  destruct (H "1" " 0.0" " 0.0" " 0.0" [] "1" " 1.0" " 2.0" " 3.0" [] 1
              (Dec.Make false 0 1) (Dec.Make false 0 1) (Dec.Make false 0 1)
              (Dec.Make false 10 1) (Dec.Make false 20 1) (Dec.Make false 30 1)
              eq_refl eq_refl eq_refl eq_refl eq_refl eq_refl eq_refl eq_refl
              eq_refl eq_refl eq_refl) as [_ H'].
  rewrite H'. reflexivity.
Defined.

Lemma X16_untitled1_set_pointers_witness :
  Untitled1.process_line Dec.of_string
      (set_current (Some "B") (Some "A") None
         (set_elsets [("B", [])] (set_nsets [("A", [])] init_state))) "4, 5" =
    Ok (set_current (Some "B") (Some "A") None
          (set_elsets [("B", [4; 5])] (set_nsets [("A", [4; 5])] init_state))) ∧
  current_nset_name
    (Untitled1.keyword
       (set_current (Some "B") (Some "A") None (@init_state Dec.t)) "*Node") = None.
Proof.
  destruct (X16_untitled1_set_pointers Dec.of_string) as (Hsec & _ & _ & Hboth).
  split.
  - rewrite (Hboth _ "4, 5" "A" "B" [] [] [4; 5]); reflexivity.
  - apply (Hsec (set_current (Some "B") (Some "A") None init_state) "*Node").
    by left.
Defined.

Lemma X17_untitled1_surfaces_witness :
  Forall (λ entry : string * list (Z * string), entry.2 = [])
    (surfaces (set_surfaces [("TOP", [])] (@init_state Dec.t))).
Proof.
  apply (X17_untitled1_surfaces_stay_empty Dec.of_string
           ["*Surface, type=ELEMENT, name=Top"; "1,S1"; "2,S1"]).
  by vm_compute.
Defined.

(** * A name without ID, in terms of the model *)

Lemma for_nsets_snd (nsets : odict (list Z)) :
  Forall (λ entry, is_Some (config.nodeset_ssid !! entry.1)) nsets →
  (for_ nsets write_nset).2 = Ok ().
Proof.
  intros H. apply for_snd_ok_iff. eapply Forall_impl; [exact H|].
  intros entry [curid E]. cbv beta. by rewrite write_nset_snd, E.
Qed.

Lemma for_elsets_snd (elsets : odict (list Z)) :
  Forall (λ entry, is_Some (config.elementset_ssid !! entry.1)) elsets →
  (for_ elsets write_elset).2 = Ok ().
Proof.
  intros H. apply for_snd_ok_iff. eapply Forall_impl; [exact H|].
  intros entry [curid E]. cbv beta. by rewrite write_elset_snd, E.
Qed.

Lemma for_surfaces_snd (elements : gmap Z (list Z))
    (surfaces : odict (list (Z * string))) :
  Forall (λ entry, is_Some (config.segmentset_ssid !! entry.1) ∧
                   Forall (resolves elements) entry.2) surfaces →
  (for_ surfaces (write_surface elements)).2 = Ok ().
Proof.
  intros H. apply for_snd_ok_iff. eapply Forall_impl; [exact H|].
  intros entry Hentry. cbv beta. by apply write_surface_ok_iff.
Qed.

(** C1, as the code has it. [write_k] writes the node-set blocks, then the
    surface blocks, then the element-set blocks, each kind in insertion
    order. Take a name that is missing from its ID table, and let every
    block before the block of that name be one that is written in full:
    the names before it have IDs, and every facet of every surface before
    it resolves. Then [write_k] raises [KeyError] right after the comment
    line and the directive line of that name's block have been written: the
    file ends with these two lines, after the node block, the element block
    and the blocks before; the ID line of the block, its members or facets,
    the later blocks and the terminator are not written. *)
Theorem C1_absent_name_aborts_after_block_header {float}
    (fmt_g : float → string) (nodes : gmap Z (float * float * float))
    (elements : gmap Z (list Z)) (nsets elsets : odict (list Z))
    (surfaces : odict (list (Z * string))) :
  (∀ pre set_name node_list post,
     nsets = pre ++ (set_name, node_list) :: post →
     Forall (λ entry, is_Some (config.nodeset_ssid !! entry.1)) pre →
     config.nodeset_ssid !! set_name = None →
     write_k fmt_g nodes elements nsets elsets surfaces =
       ((write_nodes fmt_g nodes).1 +:+ (write_elements elements).1 +:+
        (for_ pre write_nset).1 +:+
        unlines ["$ Node set: " +:+ set_name; "*DUALCESE_NODESET"],
        Raise KeyError)) ∧
  (∀ pre set_name surf_list post,
     surfaces = pre ++ (set_name, surf_list) :: post →
     Forall (λ entry, is_Some (config.nodeset_ssid !! entry.1)) nsets →
     Forall (λ entry, is_Some (config.segmentset_ssid !! entry.1) ∧
                      Forall (resolves elements) entry.2) pre →
     config.segmentset_ssid !! set_name = None →
     write_k fmt_g nodes elements nsets elsets surfaces =
       ((write_nodes fmt_g nodes).1 +:+ (write_elements elements).1 +:+
        (for_ nsets write_nset).1 +:+ (for_ pre (write_surface elements)).1 +:+
        unlines ["$ Surface set: " +:+ set_name; "*DUALCESE_SEGMENTSET"],
        Raise KeyError)) ∧
  (∀ pre set_name elem_list post,
     elsets = pre ++ (set_name, elem_list) :: post →
     Forall (λ entry, is_Some (config.nodeset_ssid !! entry.1)) nsets →
     Forall (λ entry, is_Some (config.segmentset_ssid !! entry.1) ∧
                      Forall (resolves elements) entry.2) surfaces →
     Forall (λ entry, is_Some (config.elementset_ssid !! entry.1)) pre →
     config.elementset_ssid !! set_name = None →
     write_k fmt_g nodes elements nsets elsets surfaces =
       ((write_nodes fmt_g nodes).1 +:+ (write_elements elements).1 +:+
        (for_ nsets write_nset).1 +:+ (for_ surfaces (write_surface elements)).1 +:+
        (for_ pre write_elset).1 +:+
        unlines ["$ Element set: " +:+ set_name; "*DUALCESE_ELEMENTSET"],
        Raise KeyError)).
Proof.
  destruct (write_k_absent_name fmt_g nodes elements nsets elsets surfaces)
    as (Hn & Hs & He).
  split; [exact Hn|split].
  - intros pre set_name surf_list post Heq Hnsets Hpre Habsent.
    apply (Hs pre set_name surf_list post Heq); [|by apply for_surfaces_snd|done].
    by apply for_nsets_snd.
  - intros pre set_name elem_list post Heq Hnsets Hsurfs Hpre Habsent.
    apply (He pre set_name elem_list post Heq); [| |by apply for_elsets_snd|done].
    + by apply for_nsets_snd.
    + by apply for_surfaces_snd.
Qed.

Lemma C1_absent_name_witness :
  write_k Dec.to_string ∅ {[ 1 := [1; 2; 3; 4; 5; 6; 7; 8] ]}
      [("K1A", [2; 1]); ("FOO", [1]); ("K2A", [3])] [] [] =
    (unlines ["*DUALCESE_NODE3D"; "*DUALCESE_ELE3D"; "1, 1, 1, 2, 3, 4, 5, 6, 7, 8";
              "$ Node set: K1A"; "*DUALCESE_NODESET"; "       999"; "1, 2";
              "$ Node set: FOO"; "*DUALCESE_NODESET"], Raise KeyError) ∧
  write_k Dec.to_string ∅ {[ 1 := [11; 12; 13; 14; 15; 16; 17; 18] ]}
      [("K1A", [2; 1])] [("FLUID1", [1])]
      [("FACEK1A", [(1, "S1")]); ("BAR", [(1, "S2")]); ("OUTERS", [])] =
    (unlines ["*DUALCESE_NODE3D"; "*DUALCESE_ELE3D";
              "1, 1, 11, 12, 13, 14, 15, 16, 17, 18";
              "$ Node set: K1A"; "*DUALCESE_NODESET"; "       999"; "1, 2";
              "$ Surface set: FACEK1A"; "*DUALCESE_SEGMENTSET"; "       555";
              "11, 12, 13, 14,0.0,0.0,0.0,0.0";
              "$ Surface set: BAR"; "*DUALCESE_SEGMENTSET"], Raise KeyError) ∧
  write_k Dec.to_string ∅ {[ 1 := [11; 12; 13; 14; 15; 16; 17; 18] ]}
      [("K1A", [2; 1])] [("FLUID1", [1]); ("BAZ", [7])] [("FACEK1A", [(1, "S1")])] =
    (unlines ["*DUALCESE_NODE3D"; "*DUALCESE_ELE3D";
              "1, 1, 11, 12, 13, 14, 15, 16, 17, 18";
              "$ Node set: K1A"; "*DUALCESE_NODESET"; "       999"; "1, 2";
              "$ Surface set: FACEK1A"; "*DUALCESE_SEGMENTSET"; "       555";
              "11, 12, 13, 14,0.0,0.0,0.0,0.0";
              "$ Element set: FLUID1"; "*DUALCESE_ELEMENTSET"; "      2222"; "1";
              "$ Element set: BAZ"; "*DUALCESE_ELEMENTSET"], Raise KeyError).
Proof.
  split; [|split].
  - destruct (C1_absent_name_aborts_after_block_header Dec.to_string
      ∅ {[ 1 := [1; 2; 3; 4; 5; 6; 7; 8] ]}
      [("K1A", [2; 1]); ("FOO", [1]); ("K2A", [3])] [] []) as (H & _ & _).
    rewrite (H [("K1A", [2; 1])] "FOO" [1] [("K2A", [3])]).
    + reflexivity.
    + reflexivity.
    + repeat constructor. by exists 999.
    + reflexivity.
  - destruct (C1_absent_name_aborts_after_block_header Dec.to_string
      ∅ {[ 1 := [11; 12; 13; 14; 15; 16; 17; 18] ]}
      [("K1A", [2; 1])] [("FLUID1", [1])]
      [("FACEK1A", [(1, "S1")]); ("BAR", [(1, "S2")]); ("OUTERS", [])])
      as (_ & H & _).
    rewrite (H [("FACEK1A", [(1, "S1")])] "BAR" [(1, "S2")] [("OUTERS", [])]).
    + reflexivity.
    + reflexivity.
    + repeat constructor. by exists 999.
    + repeat constructor; [by exists 555|].
      exists [11; 12; 13; 14]. by vm_compute.
    + reflexivity.
  - destruct (C1_absent_name_aborts_after_block_header Dec.to_string
      ∅ {[ 1 := [11; 12; 13; 14; 15; 16; 17; 18] ]}
      [("K1A", [2; 1])] [("FLUID1", [1]); ("BAZ", [7])]
      [("FACEK1A", [(1, "S1")])]) as (_ & _ & H).
    rewrite (H [("FLUID1", [1])] "BAZ" [7] []).
    + reflexivity.
    + reflexivity.
    + repeat constructor. by exists 999.
    + repeat constructor; [by exists 555|].
      exists [11; 12; 13; 14]. by vm_compute.
    + repeat constructor. by exists 2222.
    + reflexivity.
Defined.

(** The condition on the blocks before is needed: a facet of an earlier
    surface that does not resolve ends the run inside the block of that
    surface, before the block of the element set [BAZ], which has no ID, is
    begun. *)
Example absent_name_not_reached :
  config.elementset_ssid !! "BAZ" = None ∧
  write_k Dec.to_string ∅ ∅ [] [("BAZ", [7])] [("FACEK1A", [(99, "S1")])] =
    (unlines ["*DUALCESE_NODE3D"; "*DUALCESE_ELE3D";
              "$ Surface set: FACEK1A"; "*DUALCESE_SEGMENTSET"; "       555"],
     Raise KeyError).
Proof. split; reflexivity. Qed.

(** * Element lines, in both readers *)

Section ElementLines.
Context {float : Type} (py_float : string → option float).
Implicit Types st : pstate float.

(** ** [Untitled-1.py]: a section that is being read has no current set *)

Lemma u1_keyword_section st ls : section_without_set (Untitled1.keyword st ls).
Proof.
  unfold Untitled1.keyword, section_without_set.
  destruct (Py.startswith "*node" _); [by simpl|].
  destruct (Py.startswith "*element" _); [by simpl|].
  destruct (Py.startswith "*nset" _);
    [destruct (truthy _); simpl; (split; [by intros [?|?]|done])|].
  destruct (Py.startswith "*elset" _);
    [destruct (truthy _); simpl; (split; [by intros [?|?]|done])|].
  destruct (Py.startswith "*surface" _);
    [destruct (truthy _); simpl; (split; [by intros [?|?]|done])|].
  simpl. split; [by intros [?|?]|done].
Qed.

Lemma u1_element_line_effect st ls st' :
  Untitled1.element_line st ls = Ok st' → ∃ v, st' = set_elements v st.
Proof.
  unfold Untitled1.element_line. intros H.
  case_bool_decide; [|injection H as <-; exists (elements st); by destruct st].
  apply bind_ok_inv in H as (eid & _ & H). apply bind_ok_inv in H as (conn & _ & H).
  injection H as <-. by eexists.
Qed.

Lemma u1_data_pointers st ls st' :
  (st1 ← Untitled1.section_line py_float st ls;
   st2 ← Untitled1.nset_line st1 ls;
   Untitled1.elset_line st2 ls) = Ok st' →
  reading_nodes st' = reading_nodes st ∧
  reading_elements st' = reading_elements st ∧
  current_nset_name st' = current_nset_name st ∧
  current_elset_name st' = current_elset_name st.
Proof.
  intros H. apply bind_ok_inv in H as (st1 & H1 & H).
  apply bind_ok_inv in H as (st2 & H2 & H3).
  assert (reading_nodes st1 = reading_nodes st ∧
          reading_elements st1 = reading_elements st ∧
          current_nset_name st1 = current_nset_name st ∧
          current_elset_name st1 = current_elset_name st) as (A1 & A2 & A3 & A4).
  { unfold Untitled1.section_line in H1.
    destruct (reading_nodes st) eqn:Ern; [|destruct (reading_elements st) eqn:Ere].
    - assert (section_line py_float st ls = Ok st1) as Hs
        by (unfold section_line; by rewrite Ern).
      apply section_line_effect in Hs as [[v ->]|[v ->]]; by simpl.
    - apply u1_element_line_effect in H1 as [v ->]. by simpl.
    - injection H1 as <-. by rewrite Ern, Ere. }
  assert (reading_nodes st2 = reading_nodes st1 ∧
          reading_elements st2 = reading_elements st1 ∧
          current_nset_name st2 = current_nset_name st1 ∧
          current_elset_name st2 = current_elset_name st1) as (B1 & B2 & B3 & B4).
  { unfold Untitled1.nset_line in H2.
    destruct (current_nset_name st1) eqn:E; [|by injection H2 as <-].
    destruct (negb _); [|by injection H2 as <-].
    apply bind_ok_inv in H2 as (? & _ & H2). apply bind_ok_inv in H2 as (? & _ & H2).
    by injection H2 as <-. }
  assert (reading_nodes st' = reading_nodes st2 ∧
          reading_elements st' = reading_elements st2 ∧
          current_nset_name st' = current_nset_name st2 ∧
          current_elset_name st' = current_elset_name st2) as (C1 & C2 & C3 & C4).
  { unfold Untitled1.elset_line in H3.
    destruct (current_elset_name st2) eqn:E; [|by injection H3 as <-].
    destruct (negb _); [|by injection H3 as <-].
    apply bind_ok_inv in H3 as (? & _ & H3). apply bind_ok_inv in H3 as (? & _ & H3).
    by injection H3 as <-. }
  repeat split; congruence.
Qed.

Lemma u1_process_line_section st line st' :
  Untitled1.process_line py_float st line = Ok st' →
  section_without_set st → section_without_set st'.
Proof.
  unfold Untitled1.process_line. intros H Hinv.
  destruct (negb _ || _); [by injection H as <-|].
  destruct (Py.startswith "*" (Py.strip line)).
  - injection H as <-. apply u1_keyword_section.
  - apply u1_data_pointers in H as (A1 & A2 & A3 & A4).
    unfold section_without_set. by rewrite A1, A2, A3, A4.
Qed.

Lemma u1_parse_lines_section lines st0 st :
  Untitled1.parse_lines py_float st0 lines = Ok st →
  section_without_set st0 → section_without_set st.
Proof.
  revert st0. induction lines as [|line lines IH]; intros st0 H Hinv.
  - by injection H as <-.
  - simpl in H. apply bind_ok_inv in H as (st1 & H1 & H).
    apply (IH st1 H). by eapply u1_process_line_section.
Qed.

Lemma u1_parse_inp_section lines st :
  Untitled1.parse_inp py_float lines = Ok st → section_without_set st.
Proof.
  intros H. apply (u1_parse_lines_section lines init_state st H).
  split; [by intros [?|?]|done].
Qed.

(** While the Elements section of [Untitled-1.py] is being read, a data
    line is the business of the element block alone. *)
Lemma u1_process_element_line st line :
  section_without_set st → reading_elements st = true →
  is_data (Py.strip line) = true →
  Untitled1.process_line py_float st line =
    Untitled1.element_line st (Py.strip line).
Proof.
  intros [Hset Hexcl] Hre Hd.
  destruct (Hset (or_intror Hre)) as [Hn He].
  assert (reading_nodes st = false) as Hrn.
  { destruct (reading_nodes st) eqn:E; [|done]. specialize (Hexcl eq_refl). congruence. }
  unfold is_data in Hd. apply andb_true_iff in Hd as [Hne Hstar].
  apply negb_true_iff in Hstar.
  unfold Untitled1.process_line. rewrite Hne, Hstar. simpl.
  destruct (Py.startswith "**" (Py.strip line)) eqn:E2;
    [apply startswith_star2 in E2; congruence|].
  unfold Untitled1.section_line. rewrite Hrn, Hre.
  destruct (Untitled1.element_line st (Py.strip line)) as [st1|e] eqn:E; [|done].
  apply u1_element_line_effect in E as [v ->]. simpl.
  unfold Untitled1.nset_line. simpl. rewrite Hn. simpl.
  unfold Untitled1.elset_line. simpl. by rewrite He.
Qed.

(** C2, as the code has it. In [main_Convert.py], while the Elements
    section is being read and no node set, element set or surface is
    current, a data line with at least 9 comma fields whose first 9 fields
    are integers records, under the first, the list of the next 8 (whatever
    fields follow) and does nothing else; a data line with fewer than 9
    comma fields changes nothing and raises nothing. In [Untitled-1.py],
    while the Elements section is being read, a data line with at least 2
    comma fields, all integers, records under the first the list of all the
    others, however many, and does nothing else; a data line of one field
    changes nothing and raises nothing. *)
Theorem C2_element_line :
  (∀ st line,
     reading_nodes st = false → reading_elements st = true →
     current_nset_name st = None → current_elset_name st = None →
     current_surf_name st = None →
     is_data (Py.strip line) = true →
     (∀ p0 fs rest eid conn,
        Py.split "," (Py.strip line) = p0 :: fs ++ rest → length fs = 8%nat →
        Py.int p0 = Some eid → mapM Py.int fs = Some conn →
        length conn = 8%nat ∧
        process_line py_float st line =
          Ok (set_elements (<[eid := conn]> (elements st)) st)) ∧
     ((length (Py.split "," (Py.strip line)) < 9)%nat →
        process_line py_float st line = Ok st)) ∧
  (∀ pre st line,
     Untitled1.parse_inp py_float pre = Ok st →
     reading_elements st = true → is_data (Py.strip line) = true →
     (∀ p0 rest eid conn,
        Py.split "," (Py.strip line) = p0 :: rest → rest ≠ [] →
        Py.int p0 = Some eid → mapM Py.int rest = Some conn →
        Untitled1.process_line py_float st line =
          Ok (set_elements (<[eid := conn]> (elements st)) st)) ∧
     ((length (Py.split "," (Py.strip line)) < 2)%nat →
        Untitled1.process_line py_float st line = Ok st)).
Proof.
  split.
  - intros st line Hrn Hre Hn He Hs Hd. split.
    + intros p0 fs rest eid conn Hsplit Hlen H0 Hconn.
      split; [by rewrite <- (length_mapM _ _ _ Hconn)|].
      by apply (process_element_line py_float st line p0 fs rest eid conn).
    + intros Hlen.
      apply (process_line_section py_float st line st Hd); [|done..].
      unfold section_line. rewrite Hrn, Hre. by apply element_line_short.
  - intros pre st line Hpre Hre Hd.
    rewrite (u1_process_element_line st line (u1_parse_inp_section pre st Hpre) Hre Hd).
    split.
    + intros p0 rest eid conn Hsplit Hrest H0 Hconn.
      unfold Untitled1.element_line. rewrite Hsplit.
      rewrite bool_decide_true by (destruct rest; [done|simpl; lia]).
      rewrite (index_nat _ 0) by (simpl; lia). simpl.
      rewrite H0. simpl. rewrite drop_0, Hconn. done.
    + intros Hlen. unfold Untitled1.element_line.
      by rewrite bool_decide_false by lia.
Qed.

End ElementLines.

Lemma C2_element_line_witness :
  process_line Dec.of_string (set_reading false true init_state)
      "1, 11, 12, 13, 14, 15, 16, 17, 18, 19" =
    Ok (set_elements {[ 1 := [11; 12; 13; 14; 15; 16; 17; 18] ]}
          (set_reading false true init_state)) ∧
  process_line Dec.of_string (set_reading false true init_state)
      "1, 11, 12, 13" = Ok (set_reading false true init_state) ∧
  Untitled1.process_line Dec.of_string (set_reading false true init_state)
      "1, 11, 12, 13, 14, 15, 16, 17, 18, 19" =
    Ok (set_elements {[ 1 := [11; 12; 13; 14; 15; 16; 17; 18; 19] ]}
          (set_reading false true init_state)) ∧
  Untitled1.process_line Dec.of_string
      (set_elements {[ 1 := [11; 12; 13; 14; 15; 16; 17; 18; 19] ]}
         (set_reading false true init_state)) "2" =
    Ok (set_elements {[ 1 := [11; 12; 13; 14; 15; 16; 17; 18; 19] ]}
          (set_reading false true init_state)).
Proof.
  destruct (C2_element_line Dec.of_string) as [Hmain Hu1].
  destruct (Hmain (set_reading false true init_state)
              "1, 11, 12, 13, 14, 15, 16, 17, 18, 19"
              eq_refl eq_refl eq_refl eq_refl eq_refl eq_refl) as [Hlong _].
  destruct (Hmain (set_reading false true init_state) "1, 11, 12, 13"
              eq_refl eq_refl eq_refl eq_refl eq_refl eq_refl) as [_ Hshort].
  destruct (Hu1 ["*Element, type=C3D8R"] (set_reading false true init_state)
              "1, 11, 12, 13, 14, 15, 16, 17, 18, 19" eq_refl eq_refl eq_refl)
    as [Hu1long _].
  destruct (Hu1 ["*Element, type=C3D8R"; "1, 11, 12, 13, 14, 15, 16, 17, 18, 19"]
              (set_elements {[ 1 := [11; 12; 13; 14; 15; 16; 17; 18; 19] ]}
                 (set_reading false true init_state))
              "2" eq_refl eq_refl eq_refl) as [_ Hu1short].
  split; [|split; [|split]].
  - apply (Hlong "1" [" 11"; " 12"; " 13"; " 14"; " 15"; " 16"; " 17"; " 18"]
             [" 19"] 1 [11; 12; 13; 14; 15; 16; 17; 18]); reflexivity.
  - apply Hshort. vm_compute. lia.
  - apply (Hu1long "1" [" 11"; " 12"; " 13"; " 14"; " 15"; " 16"; " 17"; " 18"; " 19"]
             1 [11; 12; 13; 14; 15; 16; 17; 18; 19]); done.
  - apply Hu1short. vm_compute. lia.
Defined.

(** * A node line under a collection that is still current *)

(** C6, at the failing inputs. [*node] leaves the three pointers alone, so
    the blocks of the named collections run on the node lines that follow.
    With a surface still current, a node line of four fields is unpacked
    into two names and [parse_inp] raises [ValueError]; with a node set
    still current, the fields are read as integers and a coordinate such as
    [0.5] raises [ValueError]. Either way the node is not recorded, whatever
    [float] does. The same node line directly after [*Node] is recorded, and
    the reader of [Untitled-1.py], whose [*node] branch resets the set
    pointers, records the node on the second input. *)
Theorem C6_node_line_lost_under_active_collection :
  (∀ (float : Type) (py_float : string → option float),
     parse_inp py_float ["*Surface, name=A"; "*Node"; "1, 0.0, 0.0, 0.0"] =
       Raise ValueError) ∧
  (∀ (float : Type) (py_float : string → option float),
     parse_inp py_float ["*Nset, nset=K1A"; "*Node"; "1, 0.5, 0.0, 0.0"] =
       Raise ValueError) ∧
  (∃ st, parse_inp Dec.of_string ["*Node"; "1, 0.0, 0.0, 0.0"] = Ok st ∧
         nodes st !! 1 =
           Some (Dec.Make false 0 1, Dec.Make false 0 1, Dec.Make false 0 1)) ∧
  (∃ st, Untitled1.parse_inp Dec.of_string
           ["*Nset, nset=K1A"; "*Node"; "1, 0.5, 0.0, 0.0"] = Ok st ∧
         nodes st !! 1 =
           Some (Dec.Make false 5 1, Dec.Make false 0 1, Dec.Make false 0 1) ∧
         od_get "K1A" (nsets st) = Some []).
Proof.
  split; [|split; [|split]].
  - intros float py_float.
    destruct (py_float " 0.0") as [x|] eqn:E; vm_compute; rewrite E; reflexivity.
  - intros float py_float.
    destruct (py_float " 0.5") as [x|] eqn:E5;
      [destruct (py_float " 0.0") as [y|] eqn:E0|];
      vm_compute; rewrite ?E5, ?E0; reflexivity.
  - eexists. split; reflexivity.
  - eexists. split; [reflexivity|]. split; reflexivity.
Qed.

(** * The number of member lines *)

Lemma count_lines_app (a b : string) :
  count_lines (a +:+ b) = (count_lines a + count_lines b)%nat.
Proof.
  induction a as [|c a IH]; [done|]. rewrite sapp_cons. simpl. rewrite IH. lia.
Qed.

Lemma count_lines_no_nl (s : string) : no_nl s = true → count_lines s = 0%nat.
Proof.
  induction s as [|c s IH]; [done|]. simpl. intros H.
  apply andb_true_iff in H as [Hc Hs]. apply negb_true_iff in Hc.
  by rewrite Hc, (IH Hs).
Qed.

Lemma count_lines_unlines (l : list string) :
  Forall (λ s, no_nl s = true) l → count_lines (unlines l) = length l.
Proof.
  induction 1 as [|x l Hx Hl IH]; [done|].
  rewrite unlines_cons, !count_lines_app, (count_lines_no_nl x Hx), IH. done.
Qed.

Lemma chunk_lines_length (ids : list Z) :
  length (chunk_lines ids) = ((length ids + 7) / 8)%nat.
Proof.
  unfold chunk_lines. rewrite length_fmap, id_chunks_eq, length_fmap, length_seq.
  unfold chunk_size. f_equal. lia.
Qed.

Lemma chunk_lines_form (ids : list Z) :
  Forall (λ l, no_nl l = true ∧ nonempty l = true) (chunk_lines ids).
Proof.
  unfold chunk_lines. apply Forall_fmap, Forall_lookup. intros k chunk Hk.
  apply id_chunks_length in Hk as [[Hlen _] _]. cbv beta.
  split; [apply no_nl_join_str|].
  destruct chunk as [|x chunk]; [simpl in Hlen; lia|].
  pose proof (join_str_is_data x chunk) as Hd. unfold is_data in Hd.
  by apply andb_true_iff in Hd as [Hd _].
Qed.

Lemma nodeset_name_no_nl (set_name : string) (curid : Z) :
  config.nodeset_ssid !! set_name = Some curid → no_nl set_name = true.
Proof.
  intros H. apply elem_of_list_to_map_2 in H.
  repeat (apply elem_of_cons in H as [[= -> _]|H]; [done|]).
  by apply elem_of_nil in H.
Qed.

Lemma elementset_name_no_nl (set_name : string) (curid : Z) :
  config.elementset_ssid !! set_name = Some curid → no_nl set_name = true.
Proof.
  intros H. apply elem_of_list_to_map_2 in H.
  repeat (apply elem_of_cons in H as [[= -> _]|H]; [done|]).
  by apply elem_of_nil in H.
Qed.

Lemma set_block_lines (comment directive pad set_name : string) (curid : Z)
    (ids : list Z) :
  no_nl comment = true → no_nl directive = true → no_nl pad = true →
  no_nl set_name = true →
  count_lines (unlines (block_header comment directive pad set_name curid
                        ++ chunk_lines ids)) =
    (3 + (length ids + 7) / 8)%nat.
Proof.
  intros Hc Hd Hp Hn. rewrite count_lines_unlines.
  - by rewrite length_app, chunk_lines_length.
  - apply Forall_app. split.
    + unfold block_header. repeat constructor; [|done|].
      * by rewrite no_nl_app, Hc, Hn.
      * by rewrite no_nl_app, Hp, no_nl_str.
    + eapply Forall_impl; [apply chunk_lines_form|]. by intros l [H _].
Qed.

(** X6. The block that [write_k] writes for a node set, or for an element
    set, whose name has an ID is made of the comment line, the directive
    line and the ID line followed by one line per started group of 8
    distinct members: with [n] distinct members the block has
    [3 + (n + 7) / 8] lines, and no member line is empty. The number of
    distinct members is at most the number of members accumulated. A set
    without members has the three header lines only. *)
Theorem X6_member_line_count :
  (∀ set_name members curid,
     config.nodeset_ssid !! set_name = Some curid →
     write_nset (set_name, members) =
       (unlines (block_header "$ Node set: " "*DUALCESE_NODESET" "       "
                   set_name curid ++ chunk_lines (Py.sorted_set members)), Ok ()) ∧
     count_lines (write_nset (set_name, members)).1 =
       (3 + (length (Py.sorted_set members) + 7) / 8)%nat ∧
     Forall (λ l, no_nl l = true ∧ nonempty l = true)
       (chunk_lines (Py.sorted_set members))) ∧
  (∀ set_name members curid,
     config.elementset_ssid !! set_name = Some curid →
     write_elset (set_name, members) =
       (unlines (block_header "$ Element set: " "*DUALCESE_ELEMENTSET" "      "
                   set_name curid ++ chunk_lines (Py.sorted_set members)), Ok ()) ∧
     count_lines (write_elset (set_name, members)).1 =
       (3 + (length (Py.sorted_set members) + 7) / 8)%nat ∧
     Forall (λ l, no_nl l = true ∧ nonempty l = true)
       (chunk_lines (Py.sorted_set members))) ∧
  (∀ members, NoDup (Py.sorted_set members) ∧
              (length (Py.sorted_set members) ≤ length members)%nat) ∧
  (∀ set_name curid,
     config.nodeset_ssid !! set_name = Some curid →
     write_nset (set_name, []) =
       (unlines (block_header "$ Node set: " "*DUALCESE_NODESET" "       "
                   set_name curid), Ok ())) ∧
  (∀ set_name curid,
     config.elementset_ssid !! set_name = Some curid →
     write_elset (set_name, []) =
       (unlines (block_header "$ Element set: " "*DUALCESE_ELEMENTSET" "      "
                   set_name curid), Ok ())).
Proof.
  split; [|split; [|split; [|split]]].
  - intros set_name members curid H.
    split; [exact (write_nset_ok _ _ _ H)|]. split; [|apply chunk_lines_form].
    rewrite (write_nset_ok _ _ _ H).
    apply (set_block_lines "$ Node set: " "*DUALCESE_NODESET" "       ");
      try done. by eapply nodeset_name_no_nl.
  - intros set_name members curid H.
    split; [exact (write_elset_ok _ _ _ H)|]. split; [|apply chunk_lines_form].
    rewrite (write_elset_ok _ _ _ H).
    apply (set_block_lines "$ Element set: " "*DUALCESE_ELEMENTSET" "      ");
      try done. by eapply elementset_name_no_nl.
  - intros members. unfold Py.sorted_set. rewrite merge_sort_Permutation.
    split; [apply NoDup_remove_dups|].
    apply submseteq_length, NoDup_submseteq; [apply NoDup_remove_dups|].
    intros x. by rewrite elem_of_remove_dups.
  - intros set_name curid H. by rewrite (write_nset_ok _ _ _ H).
  - intros set_name curid H. by rewrite (write_elset_ok _ _ _ H).
Qed.

Lemma X6_member_line_count_witness :
  write_nset ("K1A", [17; 3; 1; 2; 9; 4; 3; 5; 6; 7; 8; 10; 11; 12; 13; 14; 15; 16; 1]) =
    (unlines ["$ Node set: K1A"; "*DUALCESE_NODESET"; "       999";
              "1, 2, 3, 4, 5, 6, 7, 8"; "9, 10, 11, 12, 13, 14, 15, 16"; "17"],
     Ok ()) ∧
  count_lines
    (write_nset
       ("K1A", [17; 3; 1; 2; 9; 4; 3; 5; 6; 7; 8; 10; 11; 12; 13; 14; 15; 16; 1])).1 =
    6%nat ∧
  count_lines (write_elset ("FLUID1", [3; 1; 2])).1 = 4%nat ∧
  write_nset ("K2B", []) =
    (unlines ["$ Node set: K2B"; "*DUALCESE_NODESET"; "       666"], Ok ()) ∧
  write_elset ("FLUID2", []) =
    (unlines ["$ Element set: FLUID2"; "*DUALCESE_ELEMENTSET"; "      3333"], Ok ()).
Proof.
  destruct X6_member_line_count as (Hn & He & _ & Hn0 & He0).
  destruct (Hn "K1A"
              [17; 3; 1; 2; 9; 4; 3; 5; 6; 7; 8; 10; 11; 12; 13; 14; 15; 16; 1] 999)
    as (Htext & Hcount & _); [by vm_compute|].
  destruct (He "FLUID1" [3; 1; 2] 2222) as (_ & Hcount' & _); [by vm_compute|].
  split; [|split; [|split; [|split]]].
  - rewrite Htext. reflexivity.
  - rewrite Hcount. reflexivity.
  - rewrite Hcount'. reflexivity.
  - rewrite (Hn0 "K2B" 666); [reflexivity|by vm_compute].
  - rewrite (He0 "FLUID2" 3333); [reflexivity|by vm_compute].
Defined.
